(** * Timetable scheduling of the school-management backend

    A shallow embedding of the timetable part of the backend:
    - [src/backend/src/lib/time.utils.ts] (time strings, overlap test,
      day of week of a date);
    - the timetable handlers of
      [src/backend/src/controllers/admin.controller.ts]
      ([createOrUpdateTimetableSlot], [setAlternateTimetable],
      [getTimetableForClassSection], [assignSubstituteTeacher],
      [clearSubstituteTeacher]);
    - [getTeacherTimetable] of
      [src/backend/src/controllers/teacher.controller.ts], and the older
      [getTeacherTimetable] that [admin.controller.ts] still exports;
    - the student handlers of [admin.controller.ts] that need no more than
      the [User] and [Student] tables ([mapParentToStudent],
      [uploadStudentDocuments], [getStudentDocuments]).

    The handlers are asynchronous Express handlers over a Prisma client.
    Here a handler is a function from the database (the [User] and
    [TimetableSlot] tables) and the request to the database after the
    request and the reply; a reply is either the error the handler answers
    with or the body of its success answer. *)

From Stdlib Require Import ZArith List Bool Ascii String Lia Permutation.
From Stdlib Require Import DecimalString Sorted.
Import ListNotations.

Open Scope string_scope.
Open Scope Z_scope.

(* ================================================================= *)
(** ** JavaScript values the handlers rely on *)

(** A JavaScript number as far as the time utilities produce one: an
    integer, or NaN ([None]). *)
Definition JSNumber := option Z.

Definition isDigit (c : ascii) : bool :=
  let n := nat_of_ascii c in (48 <=? n)%nat && (n <=? 57)%nat.

Definition digitValue (c : ascii) : Z := Z.of_nat (nat_of_ascii c) - 48.

Fixpoint digitsValue (acc : Z) (s : string) : JSNumber :=
  match s with
  | EmptyString => Some acc
  | String c rest =>
      if isDigit c then digitsValue (10 * acc + digitValue c) rest else None
  end.

(** [Number(s)] on the pieces of a time string.  A piece made of decimal
    digits is its value and the empty piece is 0, as in JavaScript; every
    other piece is NaN here.  (JavaScript also reads signs, blanks,
    fractions and exponents; a string accepted by [isValidTimeFormat] has
    none of them.) *)
Definition Number (s : string) : JSNumber := digitsValue 0 s.

(** [s.split(':')] *)
Fixpoint splitColon (cur : string) (s : string) : list string :=
  match s with
  | EmptyString => [cur]
  | String c rest =>
      if Ascii.eqb c ":" then cur :: splitColon "" rest
      else splitColon (cur ++ String c "") rest
  end.

Definition split (s : string) : list string := splitColon "" s.

(** Arithmetic and comparison with NaN: an operation on NaN is NaN, a
    comparison with NaN is false. *)
Definition jsBin (f : Z -> Z -> Z) (a b : JSNumber) : JSNumber :=
  match a, b with
  | Some x, Some y => Some (f x y)
  | _, _ => None
  end.

Definition jsAdd := jsBin Z.add.
Definition jsSub := jsBin Z.sub.
Definition jsMul := jsBin Z.mul.
Definition Math_max := jsBin Z.max.
Definition Math_min := jsBin Z.min.

Definition jsCmp (f : Z -> Z -> bool) (a b : JSNumber) : bool :=
  match a, b with
  | Some x, Some y => f x y
  | _, _ => false
  end.

Definition jsLt := jsCmp Z.ltb.
Definition jsGe := jsCmp Z.geb.
Definition jsLe := jsCmp Z.leb.

(** Truthiness of an optional string: [undefined], [null] and [''] are
    falsy. *)
Definition truthy (s : option string) : bool :=
  match s with
  | Some v => negb (String.eqb v "")
  | None => false
  end.

(** [s || null] *)
Definition orNull (s : option string) : option string :=
  if truthy s then s else None.

Definition optEqb {A} (eqb : A -> A -> bool) (a b : option A) : bool :=
  match a, b with
  | Some x, Some y => eqb x y
  | None, None => true
  | _, _ => false
  end.

(* ================================================================= *)
(** ** [time.utils.ts] *)

Inductive DayOfWeek :=
  MONDAY | TUESDAY | WEDNESDAY | THURSDAY | FRIDAY | SATURDAY | SUNDAY.

Definition DayOfWeek_eqb (a b : DayOfWeek) : bool :=
  match a, b with
  | MONDAY, MONDAY | TUESDAY, TUESDAY | WEDNESDAY, WEDNESDAY
  | THURSDAY, THURSDAY | FRIDAY, FRIDAY | SATURDAY, SATURDAY
  | SUNDAY, SUNDAY => true
  | _, _ => false
  end.

(** The test [/^\d{2}:\d{2}$/] *)
Definition matchesHHMM (time : string) : bool :=
  match time with
  | String h1 (String h2 (String c (String m1 (String m2 EmptyString)))) =>
      isDigit h1 && isDigit h2 && Ascii.eqb c ":" && isDigit m1 && isDigit m2
  | _ => false
  end.

Definition isValidTimeFormat (time : string) : bool :=
  if negb (matchesHHMM time) then false
  else
    let parts := map Number (split time) in
    let hours := nth 0 parts None in
    let minutes := nth 1 parts None in
    jsGe hours (Some 0) && jsLe hours (Some 23)
    && jsGe minutes (Some 0) && jsLe minutes (Some 59).

Definition timeToMinutes (time : string) : JSNumber :=
  let parts := map Number (split time) in
  let hours := nth 0 parts None in
  let minutes := nth 1 parts None in
  jsAdd (jsMul hours (Some 60)) minutes.

Definition doTimeSlotsOverlap (t1Start t1End t2Start t2End : string) : bool :=
  let start1 := timeToMinutes t1Start in
  let end1 := timeToMinutes t1End in
  let start2 := timeToMinutes t2Start in
  let end2 := timeToMinutes t2End in
  jsLt (Math_max start1 start2) (Math_min end1 end2).

(** A stored date is a calendar day (the column is a DATE and every date
    the handlers store or query has been put at UTC midnight): the number
    of days since 1970-01-01. *)
Definition Date := Z.

(** [date.getUTCDay()]: Sunday = 0, ..., Saturday = 6; 1970-01-01 was a
    Thursday. *)
Definition getUTCDay (date : Date) : Z := (date + 4) mod 7.

Definition getDayOfWeekFromDate (date : Date) : DayOfWeek :=
  let dayIndex := getUTCDay date in
  let days := [SUNDAY; MONDAY; TUESDAY; WEDNESDAY; THURSDAY; FRIDAY; SATURDAY] in
  nth (Z.to_nat dayIndex) days SUNDAY.

(* ================================================================= *)
(** ** The tables *)

Inductive Role := ADMIN | TEACHER | PARENT.

Definition Role_eqb (a b : Role) : bool :=
  match a, b with
  | ADMIN, ADMIN | TEACHER, TEACHER | PARENT, PARENT => true
  | _, _ => false
  end.

Module User.
Record t := mk { id : string; name : string; role : Role }.
End User.

(** A row of [TimetableSlot].  The bookkeeping columns [createdAt] and
    [updatedAt], which no handler reads, are left out. *)
Record TimetableSlot := mkSlot {
  id : string;
  dayOfWeek : DayOfWeek;
  startTime : string;
  endTime : string;
  currentClass : string;
  section : option string;
  subject : string;
  teacherId : option string;
  substituteTeacherId : option string;
  date : option Date
}.

(** The database: the two tables the timetable handlers touch, and the
    counter behind the generated primary keys of [TimetableSlot].  A table
    is the list of its rows in the order a query answers them; [id] is the
    primary key of both. *)
Record DB := mkDB {
  users : list User.t;
  timetableSlots : list TimetableSlot;
  nextId : nat
}.

Definition genId (n : nat) : string :=
  "slot-" ++ NilEmpty.string_of_uint (Nat.to_uint n).

(** [prisma.user.findFirst({ where: { id, role: Role.TEACHER } })] *)
Definition findTeacher (db : DB) (uid : string) : option User.t :=
  find (fun u => String.eqb (User.id u) uid && Role_eqb (User.role u) TEACHER)
       (users db).

(** [prisma.timetableSlot.findUnique({ where: { id } })] *)
Definition findUnique (db : DB) (sid : string) : option TimetableSlot :=
  find (fun s => String.eqb (id s) sid) (timetableSlots db).

(** The unique index on
    [(dayOfWeek, startTime, currentClass, section, subject, date)].  The
    database is PostgreSQL, where NULLs of a unique index are distinct: a
    row with a NULL [section] or a NULL [date] never collides. *)
Definition sameUniqueKey (a b : TimetableSlot) : bool :=
  DayOfWeek_eqb (dayOfWeek a) (dayOfWeek b)
  && String.eqb (startTime a) (startTime b)
  && String.eqb (currentClass a) (currentClass b)
  && match section a, section b with
     | Some x, Some y => String.eqb x y
     | _, _ => false
     end
  && String.eqb (subject a) (subject b)
  && match date a, date b with
     | Some x, Some y => Z.eqb x y
     | _, _ => false
     end.

Definition violatesUnique (rows : list TimetableSlot) (s : TimetableSlot) : bool :=
  existsb (fun r => negb (String.eqb (id r) (id s)) && sameUniqueKey r s) rows.

(** What a handler answers with when it does not succeed: the 400, 404
    and 409 replies with their [message] (and the [conflictingSlot] of a
    409 that carries one), or an exception passed to [next], which the
    error middleware turns into a 500. *)
Inductive ApiError :=
| ValidationError (message : string)
| NotFoundError (message : string)
| ConflictError (message : string) (conflictingSlot : option TimetableSlot)
| ServerError.

Definition Result (A : Type) : Type := (ApiError + A)%type.

Definition bind {A B} (r : Result A) (k : A -> Result B) : Result B :=
  match r with
  | inl e => inl e
  | inr a => k a
  end.

Notation "x <- r ;; k" := (bind r (fun x => k))
  (at level 100, r at next level, right associativity).

(** [if (c) return res.status(...)...] *)
Definition rejectIf (c : bool) (e : ApiError) : Result unit :=
  if c then inl e else inr tt.

Definition strOf (o : option string) : string :=
  match o with Some s => s | None => "" end.

(** [if (x === '') x = null] *)
Definition emptyToNull (o : option string) : option string :=
  match o with
  | Some s => if String.eqb s "" then None else Some s
  | None => None
  end.

(** [{ id: true, name: true }] of a related user *)
Record TeacherRef := mkRef { refId : string; refName : string }.

Definition relatedUser (db : DB) (uid : option string) : option TeacherRef :=
  match uid with
  | Some u =>
      match find (fun x => String.eqb (User.id x) u) (users db) with
      | Some x => Some (mkRef (User.id x) (User.name x))
      | None => None
      end
  | None => None
  end.

(* ================================================================= *)
(** ** Request bodies ([timetable.types.ts]) *)

Module TimetableSlotPayload.
Record t := mk {
  id : option string;
  dayOfWeek : option string;
  startTime : option string;
  endTime : option string;
  currentClass : option string;
  section : option string;
  subject : option string;
  teacherId : option string;
  date : option string
}.
End TimetableSlotPayload.

(** [slots] is an array of slot payloads whose [dayOfWeek] and [date] are
    not read; [None] is a body whose [slots] is not an array. *)
Module AlternateTimetablePayload.
Record t := mk {
  date : option string;
  slots : option (list TimetableSlotPayload.t)
}.
End AlternateTimetablePayload.

Module AssignSubstitutePayload.
Record t := mk {
  timetableSlotId : option string;
  substituteTeacherId : option string
}.
End AssignSubstitutePayload.

(** [Object.values(DayOfWeek).includes(dayOfWeek)], with the member found *)
Definition DayOfWeek_of_string (s : string) : option DayOfWeek :=
  if String.eqb s "MONDAY" then Some MONDAY
  else if String.eqb s "TUESDAY" then Some TUESDAY
  else if String.eqb s "WEDNESDAY" then Some WEDNESDAY
  else if String.eqb s "THURSDAY" then Some THURSDAY
  else if String.eqb s "FRIDAY" then Some FRIDAY
  else if String.eqb s "SATURDAY" then Some SATURDAY
  else if String.eqb s "SUNDAY" then Some SUNDAY
  else None.

(* ================================================================= *)
(** ** Ordering of a timetable (the [sort] closing each listing) *)

Definition dayOrder (d : DayOfWeek) : Z :=
  match d with
  | MONDAY => 1 | TUESDAY => 2 | WEDNESDAY => 3 | THURSDAY => 4
  | FRIDAY => 5 | SATURDAY => 6 | SUNDAY => 7
  end.

(** The comparator passed to [sort]; both [dayOfWeek] are set, the column
    being NOT NULL. *)
Definition compareSlots (a b : TimetableSlot) : JSNumber :=
  let dayDiff := dayOrder (dayOfWeek a) - dayOrder (dayOfWeek b) in
  if negb (dayDiff =? 0) then Some dayDiff
  else jsSub (timeToMinutes (startTime a)) (timeToMinutes (startTime b)).

(** [a] may stay before [b]: the comparator is not positive (NaN counts
    as 0). *)
Definition notAfter {A} (cmp : A -> A -> JSNumber) (a b : A) : bool :=
  match cmp a b with
  | Some v => v <=? 0
  | None => true
  end.

Fixpoint insertSorted {A} (cmp : A -> A -> JSNumber) (x : A) (l : list A) : list A :=
  match l with
  | [] => [x]
  | y :: rest =>
      if notAfter cmp x y then x :: y :: rest
      else y :: insertSorted cmp x rest
  end.

(** [Array.prototype.sort(cmp)], which is stable: on a comparator that
    orders the elements consistently its result is the stable insertion
    sort. *)
Fixpoint sort {A} (cmp : A -> A -> JSNumber) (l : list A) : list A :=
  match l with
  | [] => []
  | x :: rest => insertSorted cmp x (sort cmp rest)
  end.

(* ================================================================= *)
(** ** Values the handlers pass on and answer *)

(** The request body after the validations: the destructured fields, with
    [teacherId] and [section] normalised. *)
Module Validated.
Record t := mk {
  id : option string;
  dayOfWeek : DayOfWeek;
  startTime : string;
  endTime : string;
  currentClass : string;
  section : option string;
  subject : string;
  teacherId : option string;
  date : option string
}.
End Validated.

(** Rows as the listings and the substitute handlers answer them: a slot
    with its related users ([include]).  The listings also render [date]
    as a calendar string, which is left out here. *)
Module ClassRow.
Record t := mk { slot : TimetableSlot; teacher : option TeacherRef }.
End ClassRow.

Module TimetableSlotWithRelations.
Record t := mk {
  slot : TimetableSlot;
  teacher : option TeacherRef;
  substituteTeacher : option TeacherRef
}.
End TimetableSlotWithRelations.

Module TeacherRow.
Record t := mk {
  slot : TimetableSlot;
  teacher : option TeacherRef;
  substituteTeacher : option TeacherRef;
  isSubstituteAssignment : bool;
  originalTeacherName : option string;
  teachingTeacherName : option string
}.
End TeacherRow.

(** What the Prisma client throws: a unique-index violation, an update of
    a row that does not exist, a value it refuses (an Invalid Date). *)
Inductive PrismaError := P2002 | P2025 | InvalidValue.

(** [String.prototype.includes] *)
Fixpoint includes (hay needle : string) : bool :=
  String.prefix needle hay
  || match hay with
     | EmptyString => false
     | String _ rest => includes rest needle
     end.

(* ================================================================= *)
(** ** The handlers *)

Section Handlers.

(** The calendar day of [new Date(Date.UTC(p.getUTCFullYear(),
    p.getUTCMonth(), p.getUTCDate()))] for [p = new Date(s)], the way every
    handler puts a date string at UTC midnight; [None] when [p] is an
    Invalid Date.  Parsing belongs to the JavaScript runtime. *)
Variable utcDayOf : string -> option Date.

(** *** [createOrUpdateTimetableSlot] *)

Definition validateSlot (db : DB) (p : TimetableSlotPayload.t) : Result Validated.t :=
  _ <- rejectIf (negb (truthy (TimetableSlotPayload.dayOfWeek p))
                 || negb (truthy (TimetableSlotPayload.startTime p))
                 || negb (truthy (TimetableSlotPayload.endTime p))
                 || negb (truthy (TimetableSlotPayload.currentClass p))
                 || negb (truthy (TimetableSlotPayload.subject p)))
        (ValidationError
           "Day of week, start time, end time, currentClass, and subject are required.") ;;
  let startTime := strOf (TimetableSlotPayload.startTime p) in
  let endTime := strOf (TimetableSlotPayload.endTime p) in
  match DayOfWeek_of_string (strOf (TimetableSlotPayload.dayOfWeek p)) with
  | None => inl (ValidationError "Invalid dayOfWeek value.")
  | Some dayOfWeek =>
      _ <- rejectIf (negb (isValidTimeFormat startTime)
                     || negb (isValidTimeFormat endTime))
            (ValidationError "Invalid startTime or endTime format. Use HH:MM.") ;;
      _ <- rejectIf (jsGe (timeToMinutes startTime) (timeToMinutes endTime))
            (ValidationError "Start time must be before end time.") ;;
      let teacherId := emptyToNull (TimetableSlotPayload.teacherId p) in
      let section := emptyToNull (TimetableSlotPayload.section p) in
      _ <- rejectIf (truthy teacherId
                     && match findTeacher db (strOf teacherId) with
                        | Some _ => false
                        | None => true
                        end)
            (ValidationError
               ("Teacher with ID '" ++ strOf teacherId
                ++ "' not found or is not a teacher.")) ;;
      inr (Validated.mk (TimetableSlotPayload.id p) dayOfWeek startTime endTime
             (strOf (TimetableSlotPayload.currentClass p)) section
             (strOf (TimetableSlotPayload.subject p)) teacherId
             (TimetableSlotPayload.date p))
  end.

(** [id: id ? { not: id } : undefined] *)
Definition notSelf (self : option string) (s : TimetableSlot) : bool :=
  if truthy self then negb (String.eqb (id s) (strOf self)) else true.

(** The rows of the first [findMany]:
    [{ teacherId, dayOfWeek, id: id ? { not: id } : undefined }] *)
Definition conflictingTeacherSlots (db : DB) (v : Validated.t) : list TimetableSlot :=
  filter (fun s =>
            optEqb String.eqb (teacherId s) (Validated.teacherId v)
            && DayOfWeek_eqb (dayOfWeek s) (Validated.dayOfWeek v)
            && notSelf (Validated.id v) s)
         (timetableSlots db).

(** The rows of the second [findMany]:
    [{ currentClass, section: section || null, dayOfWeek,
       id: id ? { not: id } : undefined }] *)
Definition conflictingClassSlots (db : DB) (v : Validated.t) : list TimetableSlot :=
  filter (fun s =>
            String.eqb (currentClass s) (Validated.currentClass v)
            && optEqb String.eqb (section s) (orNull (Validated.section v))
            && DayOfWeek_eqb (dayOfWeek s) (Validated.dayOfWeek v)
            && notSelf (Validated.id v) s)
         (timetableSlots db).

(** The first row of a [for ... of] loop that overlaps the candidate *)
Definition firstOverlap (rows : list TimetableSlot) (newStart newEnd : string)
  : option TimetableSlot :=
  find (fun existingSlot =>
          doTimeSlotsOverlap (startTime existingSlot) (endTime existingSlot)
            newStart newEnd)
       rows.

Definition teacherConflictMessage (existingSlot : TimetableSlot) : string :=
  "Teacher conflict: Teacher is already assigned to class '"
  ++ currentClass existingSlot ++ "' subject '" ++ subject existingSlot
  ++ "' during this time.".

Definition classConflictMessage (v : Validated.t) (existingSlot : TimetableSlot)
  : string :=
  "Class/Section conflict: Class '" ++ Validated.currentClass v ++ "' "
  ++ strOf (orNull (Validated.section v)) ++ " already has subject '"
  ++ subject existingSlot ++ "' scheduled during this time.".

(** Step 1 of the conflict detection, run when [teacherId] is set: the
    first slot of the teacher that overlaps the candidate. *)
Definition teacherConflict (db : DB) (v : Validated.t) : option TimetableSlot :=
  if truthy (Validated.teacherId v) then
    firstOverlap (conflictingTeacherSlots db v)
      (Validated.startTime v) (Validated.endTime v)
  else None.

(** Step 2: the first slot of the class and section that overlaps the
    candidate. *)
Definition classConflict (db : DB) (v : Validated.t) : option TimetableSlot :=
  firstOverlap (conflictingClassSlots db v)
    (Validated.startTime v) (Validated.endTime v).

(** The block between [--- Conflict Detection ---] and
    [--- End Conflict Detection ---]: each step answers 409 on its first
    overlapping slot, step 1 before step 2. *)
Definition detectConflicts (db : DB) (v : Validated.t) : Result unit :=
  match teacherConflict db v with
  | Some existingSlot =>
      inl (ConflictError (teacherConflictMessage existingSlot) (Some existingSlot))
  | None =>
      match classConflict db v with
      | Some existingSlot =>
          inl (ConflictError (classConflictMessage v existingSlot)
                 (Some existingSlot))
      | None => inr tt
      end
  end.

(** [date ? new Date(Date.UTC(...)) : null]; an Invalid Date is refused
    by the client when the row is written. *)
Definition slotDate (d : option string) : PrismaError + option Date :=
  if truthy d then
    match utcDayOf (strOf d) with
    | Some day => inr (Some day)
    | None => inl InvalidValue
    end
  else inr None.

Definition slotData (v : Validated.t) (d : option Date) : TimetableSlot :=
  mkSlot "" (Validated.dayOfWeek v) (Validated.startTime v) (Validated.endTime v)
    (Validated.currentClass v) (orNull (Validated.section v)) (Validated.subject v)
    (orNull (Validated.teacherId v)) None d.

Definition withId (i : string) (s : TimetableSlot) : TimetableSlot :=
  mkSlot i (dayOfWeek s) (startTime s) (endTime s) (currentClass s) (section s)
    (subject s) (teacherId s) (substituteTeacherId s) (date s).

Definition withSubstitute (sub : option string) (s : TimetableSlot) : TimetableSlot :=
  mkSlot (id s) (dayOfWeek s) (startTime s) (endTime s) (currentClass s) (section s)
    (subject s) (teacherId s) sub (date s).

(** [timetableSlot.create({ data })]: the row gets a generated [id] and no
    substitute. *)
Definition create (db : DB) (data : TimetableSlot)
  : PrismaError + (DB * TimetableSlot) :=
  let row := withSubstitute None (withId (genId (nextId db)) data) in
  if violatesUnique (timetableSlots db) row then inl P2002
  else inr (mkDB (users db) (timetableSlots db ++ [row]) (S (nextId db)), row).

Definition replaceRow (row : TimetableSlot) (rows : list TimetableSlot)
  : list TimetableSlot :=
  map (fun s => if String.eqb (id s) (id row) then row else s) rows.

(** [timetableSlot.update({ where: { id }, data })]: the columns of [data]
    are written; [id] and [substituteTeacherId], which [data] does not
    name, stay. *)
Definition update (db : DB) (sid : string) (data : TimetableSlot)
  : PrismaError + (DB * TimetableSlot) :=
  match findUnique db sid with
  | None => inl P2025
  | Some old =>
      let row := withSubstitute (substituteTeacherId old) (withId sid data) in
      if violatesUnique (timetableSlots db) row then inl P2002
      else inr (mkDB (users db) (replaceRow row (timetableSlots db)) (nextId db),
                row)
  end.

Definition createOrUpdateTimetableSlot (db : DB) (p : TimetableSlotPayload.t)
  : DB * Result TimetableSlot :=
  match validateSlot db p with
  | inl e => (db, inl e)
  | inr v =>
      match detectConflicts db v with
      | inl e => (db, inl e)
      | inr _ =>
          match slotDate (Validated.date v) with
          | inl _ => (db, inl ServerError)
          | inr d =>
              let data := slotData v d in
              match (if truthy (Validated.id v)
                     then update db (strOf (Validated.id v)) data
                     else create db data) with
              | inr (db', slot) => (db', inr slot)
              | inl P2002 =>
                  (db, inl (ConflictError
                     "This exact subject slot (day, time, class, section, subject) already exists."
                     None))
              | inl _ => (db, inl ServerError)
              end
          end
      end
  end.

(** *** [setAlternateTimetable] *)

(** The test [/^\d{4}-\d{2}-\d{2}$/]; a string that passes it has length 10. *)
Definition matchesYYYYMMDD (s : string) : bool :=
  match s with
  | String y1 (String y2 (String y3 (String y4 (String d1
      (String m1 (String m2 (String d2 (String a1 (String a2 EmptyString))))))))) =>
      isDigit y1 && isDigit y2 && isDigit y3 && isDigit y4 && Ascii.eqb d1 "-"
      && isDigit m1 && isDigit m2 && Ascii.eqb d2 "-" && isDigit a1 && isDigit a2
  | _ => false
  end.

(** [if (slotData.teacherId === '') slotData.teacherId = null;] and the
    same for [section]: the payload object is changed in place, so the
    transaction reads the normalised slot. *)
Definition normaliseSlot (slotData : TimetableSlotPayload.t) : TimetableSlotPayload.t :=
  TimetableSlotPayload.mk
    (TimetableSlotPayload.id slotData)
    (TimetableSlotPayload.dayOfWeek slotData)
    (TimetableSlotPayload.startTime slotData)
    (TimetableSlotPayload.endTime slotData)
    (TimetableSlotPayload.currentClass slotData)
    (emptyToNull (TimetableSlotPayload.section slotData))
    (TimetableSlotPayload.subject slotData)
    (emptyToNull (TimetableSlotPayload.teacherId slotData))
    (TimetableSlotPayload.date slotData).

(** One turn of the loop [--- Validate all incoming slots first ---] *)
Definition validateAlternateSlot (db : DB) (slotData : TimetableSlotPayload.t)
  : Result TimetableSlotPayload.t :=
  let subject := strOf (TimetableSlotPayload.subject slotData) in
  let startTime := strOf (TimetableSlotPayload.startTime slotData) in
  let endTime := strOf (TimetableSlotPayload.endTime slotData) in
  _ <- rejectIf (negb (truthy (TimetableSlotPayload.startTime slotData))
                 || negb (truthy (TimetableSlotPayload.endTime slotData))
                 || negb (truthy (TimetableSlotPayload.currentClass slotData))
                 || negb (truthy (TimetableSlotPayload.subject slotData)))
        (ValidationError
           "Each slot must have startTime, endTime, currentClass, and subject.") ;;
  _ <- rejectIf (negb (isValidTimeFormat startTime)
                 || negb (isValidTimeFormat endTime))
        (ValidationError
           ("Invalid time format in slot for subject '" ++ subject
            ++ "'. Use HH:MM.")) ;;
  _ <- rejectIf (jsGe (timeToMinutes startTime) (timeToMinutes endTime))
        (ValidationError
           ("StartTime must be before endTime in slot for subject '" ++ subject
            ++ "'.")) ;;
  let slotData := normaliseSlot slotData in
  let teacherId := TimetableSlotPayload.teacherId slotData in
  _ <- rejectIf (truthy teacherId
                 && match findTeacher db (strOf teacherId) with
                    | Some _ => false
                    | None => true
                    end)
        (ValidationError
           ("Teacher with ID '" ++ strOf teacherId ++ "' for subject '" ++ subject
            ++ "' not found or is not a teacher.")) ;;
  inr slotData.

Fixpoint validateAlternateSlots (db : DB) (l : list TimetableSlotPayload.t)
  : Result (list TimetableSlotPayload.t) :=
  match l with
  | [] => inr []
  | slotData :: rest =>
      s <- validateAlternateSlot db slotData ;;
      rest' <- validateAlternateSlots db rest ;;
      inr (s :: rest')
  end.

(** The array with the position of each element: [s !== slotData]
    compares objects, and the elements of a parsed body are distinct
    objects, so two elements are the same object iff they have the same
    position. *)
Definition indexed {A} (l : list A) : list (nat * A) :=
  combine (seq 0 (List.length l)) l.

Definition overlapsInPayload (s slotData : TimetableSlotPayload.t) : bool :=
  doTimeSlotsOverlap
    (strOf (TimetableSlotPayload.startTime s))
    (strOf (TimetableSlotPayload.endTime s))
    (strOf (TimetableSlotPayload.startTime slotData))
    (strOf (TimetableSlotPayload.endTime slotData)).

(** [s.teacherId && s.teacherId === slotData.teacherId] *)
Definition sameTeacher (s slotData : TimetableSlotPayload.t) : bool :=
  truthy (TimetableSlotPayload.teacherId s)
  && optEqb String.eqb (TimetableSlotPayload.teacherId s)
       (TimetableSlotPayload.teacherId slotData).

(** [s.currentClass === slotData.currentClass &&
     (s.section || null) === (slotData.section || null)] *)
Definition sameClassSection (s slotData : TimetableSlotPayload.t) : bool :=
  optEqb String.eqb (TimetableSlotPayload.currentClass s)
    (TimetableSlotPayload.currentClass slotData)
  && optEqb String.eqb (orNull (TimetableSlotPayload.section s))
       (orNull (TimetableSlotPayload.section slotData)).

(** Two slots of the payload clash: they have the same teacher or the same
    class and section, and their times overlap. *)
Definition clash (s slotData : TimetableSlotPayload.t) : bool :=
  (sameTeacher s slotData || sameClassSection s slotData)
  && overlapsInPayload s slotData.

Definition teacherConflictInPayload (all : list (nat * TimetableSlotPayload.t))
  (i : nat) (slotData : TimetableSlotPayload.t) : list (nat * TimetableSlotPayload.t) :=
  filter (fun js =>
            sameTeacher (snd js) slotData
            && negb (Nat.eqb (fst js) i)
            && overlapsInPayload (snd js) slotData)
         all.

Definition classConflictInPayload (all : list (nat * TimetableSlotPayload.t))
  (i : nat) (slotData : TimetableSlotPayload.t) : list (nat * TimetableSlotPayload.t) :=
  filter (fun js =>
            sameClassSection (snd js) slotData
            && negb (Nat.eqb (fst js) i)
            && overlapsInPayload (snd js) slotData)
         all.

Definition teacherConflictWithinMessage (slotData : TimetableSlotPayload.t) : string :=
  "Teacher conflict within the submitted alternate schedule for teacher ID "
  ++ strOf (TimetableSlotPayload.teacherId slotData) ++ " and subject "
  ++ strOf (TimetableSlotPayload.subject slotData) ++ ".".

Definition classConflictWithinMessage (slotData : TimetableSlotPayload.t) : string :=
  "Class/Section conflict within the submitted alternate schedule for class "
  ++ strOf (TimetableSlotPayload.currentClass slotData) ++ " "
  ++ strOf (orNull (TimetableSlotPayload.section slotData)) ++ " and subject "
  ++ strOf (TimetableSlotPayload.subject slotData) ++ ".".

(** What leaves the transaction callback by an exception *)
Inductive TxError :=
| Thrown (message : string)
| Prisma (e : PrismaError).

Definition alternateSlotData (dayOfWeekForAlternateDate : DayOfWeek)
  (normalizedAlternateDate : Date) (slotData : TimetableSlotPayload.t) : TimetableSlot :=
  mkSlot "" dayOfWeekForAlternateDate
    (strOf (TimetableSlotPayload.startTime slotData))
    (strOf (TimetableSlotPayload.endTime slotData))
    (strOf (TimetableSlotPayload.currentClass slotData))
    (orNull (TimetableSlotPayload.section slotData))
    (strOf (TimetableSlotPayload.subject slotData))
    (orNull (TimetableSlotPayload.teacherId slotData))
    None (Some normalizedAlternateDate).

(** The loop [for (const slotData of alternateSlotsData)] inside the
    transaction, on the transaction's view [tx] of the database; the
    database reached is returned also when the loop throws. *)
Fixpoint createAlternateSlots (all : list (nat * TimetableSlotPayload.t))
  (dayOfWeekForAlternateDate : DayOfWeek) (normalizedAlternateDate : Date)
  (todo : list (nat * TimetableSlotPayload.t)) (tx : DB)
  : DB * (TxError + list TimetableSlot) :=
  match todo with
  | [] => (tx, inr [])
  | (i, slotData) :: rest =>
      if (0 <? List.length (teacherConflictInPayload all i slotData))%nat then
        (tx, inl (Thrown (teacherConflictWithinMessage slotData)))
      else if (0 <? List.length (classConflictInPayload all i slotData))%nat then
        (tx, inl (Thrown (classConflictWithinMessage slotData)))
      else
        match create tx (alternateSlotData dayOfWeekForAlternateDate
                           normalizedAlternateDate slotData) with
        | inl e => (tx, inl (Prisma e))
        | inr (tx', created) =>
            match createAlternateSlots all dayOfWeekForAlternateDate
                    normalizedAlternateDate rest tx' with
            | (tx'', inl e) => (tx'', inl e)
            | (tx'', inr newSlots) => (tx'', inr (created :: newSlots))
            end
        end
  end.

(** [tx.timetableSlot.deleteMany({ where: { date } })] *)
Definition deleteManyByDate (d : Date) (tx : DB) : DB :=
  mkDB (users tx)
    (filter (fun s => negb (optEqb Z.eqb (date s) (Some d))) (timetableSlots tx))
    (nextId tx).

(** [prisma.$transaction(async tx => ...)]: the callback's writes are
    committed when it returns and rolled back when it throws.  Generated
    keys are not part of the transaction. *)
Definition transaction {A} (db : DB) (body : DB -> DB * (TxError + A))
  : DB * (TxError + A) :=
  match body db with
  | (tx, inr a) => (tx, inr a)
  | (tx, inl e) => (mkDB (users db) (timetableSlots db) (nextId tx), inl e)
  end.

Definition p2002AlternateMessage : string :=
  "A timetable slot conflict occurred. One or more slots (day, time, class, section, subject, date) might already exist or conflict within the submission.".

(** The [catch] of [setAlternateTimetable] *)
Definition catchAlternate (e : TxError) : ApiError :=
  match e with
  | Prisma P2002 => ConflictError p2002AlternateMessage None
  | Prisma _ => ServerError
  | Thrown message =>
      if includes message "Teacher conflict within"
         || includes message "Class/Section conflict within"
      then ConflictError message None
      else ServerError
  end.

Definition setAlternateTimetable (db : DB) (p : AlternateTimetablePayload.t)
  : DB * Result (list TimetableSlot) :=
  let dateString := AlternateTimetablePayload.date p in
  match AlternateTimetablePayload.slots p with
  | None =>
      (db, inl (ValidationError
                  "A specific date (YYYY-MM-DD) and an array of slots are required."))
  | Some alternateSlotsData =>
      if negb (truthy dateString) then
        (db, inl (ValidationError
                    "A specific date (YYYY-MM-DD) and an array of slots are required."))
      else
        match utcDayOf (strOf dateString) with
        | None =>
            (db, inl (ValidationError "Invalid date format. Please use YYYY-MM-DD."))
        | Some normalizedAlternateDate =>
            if negb (Nat.eqb (String.length (strOf dateString)) 10)
               || negb (matchesYYYYMMDD (strOf dateString))
            then
              (db, inl (ValidationError "Invalid date format. Please use YYYY-MM-DD."))
            else
              let dayOfWeekForAlternateDate :=
                getDayOfWeekFromDate normalizedAlternateDate in
              match validateAlternateSlots db alternateSlotsData with
              | inl e => (db, inl e)
              | inr alternateSlotsData =>
                  match transaction db (fun tx =>
                          createAlternateSlots (indexed alternateSlotsData)
                            dayOfWeekForAlternateDate normalizedAlternateDate
                            (indexed alternateSlotsData)
                            (deleteManyByDate normalizedAlternateDate tx)) with
                  | (db', inr createdSlots) => (db', inr createdSlots)
                  | (db', inl e) => (db', inl (catchAlternate e))
                  end
              end
        end
  end.

(** The request bodies that pass every check before the transaction of
    [setAlternateTimetable]: a date string [YYYY-MM-DD] that the runtime
    reads as the day [d], and an array [submitted] of slots that pass the
    validation loop, which leaves them normalised. *)
Definition reachesTransaction (db : DB) (p : AlternateTimetablePayload.t)
  (d : Date) (submitted : list TimetableSlotPayload.t) : Prop :=
  exists dateString,
    AlternateTimetablePayload.date p = Some dateString
    /\ AlternateTimetablePayload.slots p = Some submitted
    /\ dateString <> ""
    /\ utcDayOf dateString = Some d
    /\ matchesYYYYMMDD dateString = true
    /\ validateAlternateSlots db submitted = inr (map normaliseSlot submitted).

(** [prisma.timetableSlot.findMany({ where: { date } })], the way the
    tests read what is stored for a date *)
Definition findManyByDate (db : DB) (d : Date) : list TimetableSlot :=
  filter (fun s => optEqb Z.eqb (date s) (Some d)) (timetableSlots db).

(** *** [getTimetableForClassSection] *)

Definition withTeacher (db : DB) (s : TimetableSlot) : ClassRow.t :=
  ClassRow.mk s (relatedUser db (teacherId s)).

Definition compareClassRows (a b : ClassRow.t) : JSNumber :=
  compareSlots (ClassRow.slot a) (ClassRow.slot b).

(** [{ currentClass: studentClass, section: section || null, date: targetDate }] *)
Definition classSlotsOnDate (db : DB) (studentClass : string)
  (sectionParam : option string) (targetDate : Date) : list TimetableSlot :=
  filter (fun s =>
            String.eqb (currentClass s) studentClass
            && optEqb String.eqb (section s) (orNull sectionParam)
            && optEqb Z.eqb (date s) (Some targetDate))
         (timetableSlots db).

(** [{ currentClass: studentClass, section: section || null,
       dayOfWeek: targetDayOfWeek, date: null }] *)
Definition classWeeklySlotsOnDay (db : DB) (studentClass : string)
  (sectionParam : option string) (targetDayOfWeek : DayOfWeek) : list TimetableSlot :=
  filter (fun s =>
            String.eqb (currentClass s) studentClass
            && optEqb String.eqb (section s) (orNull sectionParam)
            && DayOfWeek_eqb (dayOfWeek s) targetDayOfWeek
            && optEqb Z.eqb (date s) None)
         (timetableSlots db).

(** [{ currentClass: studentClass, section: section || null, date: null }] *)
Definition classWeeklySlots (db : DB) (studentClass : string)
  (sectionParam : option string) : list TimetableSlot :=
  filter (fun s =>
            String.eqb (currentClass s) studentClass
            && optEqb String.eqb (section s) (orNull sectionParam)
            && optEqb Z.eqb (date s) None)
         (timetableSlots db).

Definition getTimetableForClassSection (db : DB) (studentClass : string)
  (sectionParam : option string) (queryDateString : option string)
  : Result (list ClassRow.t) :=
  _ <- rejectIf (String.eqb studentClass "")
        (ValidationError "Class parameter is required.") ;;
  slots <-
    (if truthy queryDateString then
       match utcDayOf (strOf queryDateString) with
       | None =>
           inl (ValidationError "Invalid query date format. Use YYYY-MM-DD.")
       | Some targetDate =>
           let targetDayOfWeek := getDayOfWeekFromDate targetDate in
           let alternateSlots :=
             classSlotsOnDate db studentClass sectionParam targetDate in
           if (0 <? List.length alternateSlots)%nat then inr alternateSlots
           else inr (classWeeklySlotsOnDay db studentClass sectionParam
                       targetDayOfWeek)
       end
     else inr (classWeeklySlots db studentClass sectionParam)) ;;
  inr (sort compareClassRows (map (withTeacher db) slots)).

(** *** [getTeacherTimetable] ([teacher.controller.ts]) *)

Definition withRelations (db : DB) (s : TimetableSlot) : TimetableSlotWithRelations.t :=
  TimetableSlotWithRelations.mk s
    (relatedUser db (teacherId s))
    (relatedUser db (substituteTeacherId s)).

Definition isNull {A} (o : option A) : bool :=
  match o with None => true | Some _ => false end.

Definition finalSlot (viewer : string) (r : TimetableSlotWithRelations.t) : TeacherRow.t :=
  let s := TimetableSlotWithRelations.slot r in
  let teacherName := option_map refName (TimetableSlotWithRelations.teacher r) in
  let substituteName :=
    option_map refName (TimetableSlotWithRelations.substituteTeacher r) in
  TeacherRow.mk s
    (TimetableSlotWithRelations.teacher r)
    (TimetableSlotWithRelations.substituteTeacher r)
    (optEqb String.eqb (substituteTeacherId s) (Some viewer))
    teacherName
    (if truthy (substituteTeacherId s) then substituteName else teacherName).

Definition compareTeacherRows (a b : TeacherRow.t) : JSNumber :=
  compareSlots (TeacherRow.slot a) (TeacherRow.slot b).

(** [prisma.timetableSlot.findMany({ where })] *)
Definition findMany (db : DB) (cond : TimetableSlot -> bool) : list TimetableSlot :=
  filter cond (timetableSlots db).

Definition effectiveSlotsForTeacher (db : DB) (viewer : string)
  (queryDateString : option string) : Result (list TimetableSlot) :=
  let isTeacher := fun s => optEqb String.eqb (teacherId s) (Some viewer) in
  let isSubstitute := fun s => optEqb String.eqb (substituteTeacherId s) (Some viewer) in
  if truthy queryDateString then
    match utcDayOf (strOf queryDateString) with
    | None => inl (ValidationError "Invalid query date format. Use YYYY-MM-DD.")
    | Some targetDate =>
        let targetDayOfWeek := getDayOfWeekFromDate targetDate in
        let onDate := fun s => optEqb Z.eqb (date s) (Some targetDate) in
        let substitutingDateSlots :=
          findMany db (fun s => isSubstitute s && onDate s) in
        let ownDateSpecificSlots :=
          findMany db (fun s => isTeacher s && onDate s
                             && isNull (substituteTeacherId s)) in
        let substitutedDateSlots :=
          findMany db (fun s => isTeacher s && onDate s
                             && negb (isNull (substituteTeacherId s))) in
        if (0 <? List.length substitutingDateSlots)%nat
           || (0 <? List.length ownDateSpecificSlots)%nat
           || (0 <? List.length substitutedDateSlots)%nat
        then inr (substitutingDateSlots ++ ownDateSpecificSlots)%list
        else
          let regularWeeklySlotsForDay :=
            findMany db (fun s => isTeacher s
                               && DayOfWeek_eqb (dayOfWeek s) targetDayOfWeek
                               && isNull (date s)
                               && isNull (substituteTeacherId s)) in
          let regularSubstitutingSlots :=
            findMany db (fun s => isSubstitute s
                               && DayOfWeek_eqb (dayOfWeek s) targetDayOfWeek
                               && isNull (date s)) in
          inr (regularWeeklySlotsForDay ++ regularSubstitutingSlots)%list
    end
  else
    let regularSlots :=
      findMany db (fun s => isTeacher s && isNull (date s)
                         && isNull (substituteTeacherId s)) in
    let substitutingSlots :=
      findMany db (fun s => isSubstitute s && isNull (date s)) in
    inr (regularSlots ++ substitutingSlots)%list.

Definition getTeacherTimetable (db : DB) (viewer : string)
  (queryDateString : option string) : Result (list TeacherRow.t) :=
  effectiveSlots <- effectiveSlotsForTeacher db viewer queryDateString ;;
  let finalSlots := map (fun s => finalSlot viewer (withRelations db s)) effectiveSlots in
  inr (sort compareTeacherRows finalSlots).

(** *** [assignSubstituteTeacher] and [clearSubstituteTeacher] *)

(** [timetableSlot.update({ where: { id }, data: { substituteTeacherId } })] *)
Definition updateSubstitute (db : DB) (sid : string) (sub : option string) : DB :=
  mkDB (users db)
    (map (fun s => if String.eqb (id s) sid then withSubstitute sub s else s)
       (timetableSlots db))
    (nextId db).

(** The rows of the [findMany] of step 4 *)
Definition substituteConflicts (db : DB) (slotToUpdate : TimetableSlot)
  (timetableSlotId substituteTeacherId' : string) : list TimetableSlot :=
  filter (fun s =>
            (optEqb String.eqb (teacherId s) (Some substituteTeacherId')
             || optEqb String.eqb (substituteTeacherId s) (Some substituteTeacherId'))
            && DayOfWeek_eqb (dayOfWeek s) (dayOfWeek slotToUpdate)
            && optEqb Z.eqb (date s) (date slotToUpdate)
            && negb (String.eqb (id s) timetableSlotId))
         (timetableSlots db).

Definition assignSubstituteTeacher (db : DB) (p : AssignSubstitutePayload.t)
  : DB * Result TimetableSlotWithRelations.t :=
  let timetableSlotId := strOf (AssignSubstitutePayload.timetableSlotId p) in
  let sub := strOf (AssignSubstitutePayload.substituteTeacherId p) in
  if negb (truthy (AssignSubstitutePayload.timetableSlotId p))
     || negb (truthy (AssignSubstitutePayload.substituteTeacherId p))
  then
    (db, inl (ValidationError
                "Timetable Slot ID and Substitute Teacher ID are required."))
  else
    match findUnique db timetableSlotId with
    | None => (db, inl (NotFoundError "Timetable slot not found."))
    | Some slotToUpdate =>
        match findTeacher db sub with
        | None =>
            (db, inl (ValidationError
                        ("User with ID '" ++ sub
                         ++ "' is not a valid substitute teacher.")))
        | Some _ =>
            if truthy (teacherId slotToUpdate)
               && optEqb String.eqb (teacherId slotToUpdate) (Some sub)
            then
              (db, inl (ValidationError
                 "Teacher cannot be assigned as a substitute for their own original slot."))
            else
              match firstOverlap (substituteConflicts db slotToUpdate timetableSlotId sub)
                      (startTime slotToUpdate) (endTime slotToUpdate) with
              | Some existingSlot =>
                  (db, inl (ConflictError
                     "Substitute teacher conflict: Teacher is already assigned to another slot during this time."
                     (Some existingSlot)))
              | None =>
                  if optEqb String.eqb (substituteTeacherId slotToUpdate) (Some sub)
                  then (db, inl (ConflictError "Substitute teacher conflict" None))
                  else
                    let db' := updateSubstitute db timetableSlotId (Some sub) in
                    (db', inr (withRelations db'
                                 (withSubstitute (Some sub) slotToUpdate)))
              end
        end
    end.

Definition clearSubstituteTeacher (db : DB) (timetableSlotIdParam : option string)
  : DB * Result TimetableSlotWithRelations.t :=
  let timetableSlotId := strOf timetableSlotIdParam in
  if negb (truthy timetableSlotIdParam) then
    (db, inl (ValidationError "Timetable Slot ID is required."))
  else
    match findUnique db timetableSlotId with
    | None => (db, inl (NotFoundError "Timetable slot not found."))
    | Some slotToUpdate =>
        let db' := updateSubstitute db timetableSlotId None in
        (db', inr (withRelations db' (withSubstitute None slotToUpdate)))
    end.

End Handlers.

(** Two rows agree on every column other than [substituteTeacherId]. *)
Definition sameButSubstitute (a b : TimetableSlot) : Prop :=
  id a = id b /\ dayOfWeek a = dayOfWeek b /\ startTime a = startTime b
  /\ endTime a = endTime b /\ currentClass a = currentClass b
  /\ section a = section b /\ subject a = subject b
  /\ teacherId a = teacherId b /\ date a = date b.

(** The table after a write of [substituteTeacherId := sub] to the slot
    [sid], row by row against the table before: no row changes in another
    column, the rows with another id do not change at all, and the rows
    with that id hold [sub]. *)
Definition onlySubstituteWritten (sid : string) (sub : option string)
  (after before : list TimetableSlot) : Prop :=
  Forall2 (fun s' s =>
             sameButSubstitute s' s
             /\ (id s <> sid -> s' = s)
             /\ (id s = sid -> substituteTeacherId s' = sub))
    after before.

(* ================================================================= *)
(** ** Date strings of the scenarios *)

(** Days from 1970-01-01 to the day [d] of month [m] of year [y] in the
    proleptic Gregorian calendar; a day past the end of the month runs
    into the next one. *)
Definition daysFromCivil (y m d : Z) : Z :=
  let y' := if m <=? 2 then y - 1 else y in
  let era := y' / 400 in
  let yoe := y' - era * 400 in
  let mp := (m + 9) mod 12 in
  let doy := (153 * mp + 2) / 5 + d - 1 in
  let doe := yoe * 365 + yoe / 4 - yoe / 100 + doy in
  era * 146097 + doe - 719468.

Definition twoDigits (a b : ascii) : Z := 10 * digitValue a + digitValue b.

(** The runtime's reading of a date-only string [YYYY-MM-DD], as Node
    does it: month 1..12, day 1..31, and [Date.UTC] takes a year 0..99 as
    1900..1999.  Strings of another shape are outside this instance. *)
Definition isoDate (s : string) : option Date :=
  match s with
  | String y1 (String y2 (String y3 (String y4 (String _
      (String m1 (String m2 (String _ (String d1 (String d2 EmptyString))))))))) =>
      if matchesYYYYMMDD s then
        let y := 100 * twoDigits y1 y2 + twoDigits y3 y4 in
        let m := twoDigits m1 m2 in
        let d := twoDigits d1 d2 in
        if (1 <=? m) && (m <=? 12) && (1 <=? d) && (d <=? 31)
        then Some (daysFromCivil (if y <=? 99 then 1900 + y else y) m d)
        else None
      else None
  | _ => None
  end.

(* ================================================================= *)
(** ** Scenarios *)

Definition teacher1 : User.t := User.mk "t1" "Test Teacher" TEACHER.
Definition teacher2 : User.t := User.mk "t2" "Test Teacher 2" TEACHER.
Definition admin1 : User.t := User.mk "a1" "Timetable Admin" ADMIN.
Definition someUsers : list User.t := [admin1; teacher1; teacher2].

(** A date-bound slot of Grade10 A on Friday 2024-07-26, 10:00-11:00 *)
Definition specialEvent : TimetableSlot :=
  mkSlot "s1" FRIDAY "10:00" "11:00" "Grade10" (Some "A") "Special Event"
    None None (Some 19930).

(** A weekly slot of Grade10 A on Fridays, 10:00-11:00 *)
Definition weeklyFriday : TimetableSlot :=
  mkSlot "s2" FRIDAY "10:00" "11:00" "Grade10" (Some "A") "History"
    None None None.

(** A weekly candidate for Grade10 A on Fridays, 10:30-11:30 *)
Definition weeklyCandidate : TimetableSlotPayload.t :=
  TimetableSlotPayload.mk None (Some "FRIDAY") (Some "10:30") (Some "11:30")
    (Some "Grade10") (Some "A") (Some "Physics") None None.

(** The same candidate bound to 2024-07-26 *)
Definition datedCandidate : TimetableSlotPayload.t :=
  TimetableSlotPayload.mk None (Some "FRIDAY") (Some "10:30") (Some "11:30")
    (Some "Grade10") (Some "A") (Some "Physics") None (Some "2024-07-26").

(** Maths of Grade10 A on Mondays 09:00-10:00, taught by teacher 1 *)
Definition mathsMonday : TimetableSlot :=
  mkSlot "s3" MONDAY "09:00" "10:00" "Grade10" (Some "A") "Maths"
    (Some "t1") None None.

(** Chemistry of Grade9 A on Mondays 09:30-10:30, taught by teacher 1 too *)
Definition chemistryMonday : TimetableSlot :=
  mkSlot "s4" MONDAY "09:30" "10:30" "Grade9" (Some "A") "Chemistry"
    (Some "t1") None None.

(** The same slot with teacher 2 as its substitute *)
Definition mathsMondaySubstituted : TimetableSlot :=
  withSubstitute (Some "t2") mathsMonday.

(** Chemistry of Grade9 A on Mondays 09:30-10:30 for a given teacher *)
Definition chemistry (teacher : string) : TimetableSlotPayload.t :=
  TimetableSlotPayload.mk None (Some "MONDAY") (Some "09:30") (Some "10:30")
    (Some "Grade9") (Some "A") (Some "Chemistry") (Some teacher) None.

(** Physics of Grade10 A on Mondays 09:30-10:30, taught by teacher 1 *)
Definition physicsSameClassSameTeacher : TimetableSlotPayload.t :=
  TimetableSlotPayload.mk None (Some "MONDAY") (Some "09:30") (Some "10:30")
    (Some "Grade10") (Some "A") (Some "Physics") (Some "t1") None.

(** A slot for Friday 2024-07-26 sent with [dayOfWeek] MONDAY *)
Definition mondayOnAFriday : TimetableSlotPayload.t :=
  TimetableSlotPayload.mk None (Some "MONDAY") (Some "10:00") (Some "11:00")
    (Some "Grade10") (Some "A") (Some "Special Event") None (Some "2024-07-26").

(** A slot of an alternate timetable *)
Definition altSlot (startTime endTime currentClass section subject : string)
  (teacherId : option string) : TimetableSlotPayload.t :=
  TimetableSlotPayload.mk None None (Some startTime) (Some endTime)
    (Some currentClass) (Some section) (Some subject) teacherId None.

(** Alternate timetables for Thursday 2024-09-05 *)
Definition examPrep : AlternateTimetablePayload.t :=
  AlternateTimetablePayload.mk (Some "2024-09-05")
    (Some [altSlot "09:00" "11:00" "Grade10" "A" "Exam Prep 1" (Some "t1");
           altSlot "11:30" "13:30" "Grade10" "A" "Exam Prep 2" None]).



(** A weekly slot and a slot of 2024-09-05 already stored *)
Definition storedThursday : DB :=
  mkDB someUsers
    [mkSlot "s1" THURSDAY "09:00" "10:00" "Grade10" (Some "A") "Regular Subject"
       None None None;
     mkSlot "s2" THURSDAY "08:00" "09:00" "Grade10" (Some "A") "Old Alternate"
       None None (Some 19971)] 3.

(** Grade10 A with a weekly Thursday slot, two slots of Thursday
    2024-10-10 and a weekly Friday slot *)
Definition regularThursday : TimetableSlot :=
  mkSlot "s1" THURSDAY "09:00" "10:00" "Grade10" (Some "A") "Regular Subject"
    None None None.
Definition alternate1 : TimetableSlot :=
  mkSlot "s2" THURSDAY "09:00" "10:00" "Grade10" (Some "A")
    "Alternate Subject for Date" None None (Some 20006).
Definition alternate2 : TimetableSlot :=
  mkSlot "s3" THURSDAY "10:00" "11:00" "Grade10" (Some "A")
    "Another Alt Subject" None None (Some 20006).
Definition regularFriday : TimetableSlot :=
  mkSlot "s4" FRIDAY "11:00" "12:00" "Grade10" (Some "A")
    "Regular Friday Subject" None None None.
Definition listingDB : DB :=
  mkDB someUsers [regularThursday; alternate2; alternate1; regularFriday] 5.

(** Teacher 1's slot of Monday 2024-12-02 substituted by teacher 2, and
    teacher 1's weekly Monday slot *)
Definition subbedOnDate : TimetableSlot :=
  mkSlot "s1" MONDAY "09:00" "10:00" "C1" (Some "A") "S1_ALT_SUBBED"
    (Some "t1") (Some "t2") (Some 20059).
Definition weeklyMonday : TimetableSlot :=
  mkSlot "s2" MONDAY "09:00" "10:00" "C1" (Some "A") "S1_WEEKLY"
    (Some "t1") None None.
Definition substitutionDB : DB :=
  mkDB someUsers [subbedOnDate; weeklyMonday] 3.

(* ================================================================= *)
(** ** The teacher listing of [admin.controller.ts] *)

(** [admin.controller.ts] exports a [getTeacherTimetable] of its own, the
    listing as it was before substitutes: the teacher's slots of the date
    when there is one, else the weekly slots of that day of the week;
    without a date the weekly slots.  It answers the sorted rows as they
    are stored. *)
Module AdminController.
Section Listing.

Variable utcDayOf : string -> option Date.

Definition getTeacherTimetable (db : DB) (teacherId' : string)
  (queryDateString : option string) : Result (list TimetableSlot) :=
  let isTeacher := fun s => optEqb String.eqb (teacherId s) (Some teacherId') in
  slots <-
    (if truthy queryDateString then
       match utcDayOf (strOf queryDateString) with
       | None =>
           inl (ValidationError "Invalid query date format. Use YYYY-MM-DD.")
       | Some targetDate =>
           let targetDayOfWeek := getDayOfWeekFromDate targetDate in
           let alternateSlots :=
             findMany db (fun s => isTeacher s
                                   && optEqb Z.eqb (date s) (Some targetDate)) in
           if (0 <? List.length alternateSlots)%nat then inr alternateSlots
           else inr (findMany db (fun s =>
                                    isTeacher s
                                    && DayOfWeek_eqb (dayOfWeek s) targetDayOfWeek
                                    && isNull (date s)))
       end
     else inr (findMany db (fun s => isTeacher s && isNull (date s)))) ;;
  inr (sort compareSlots slots).

End Listing.
End AdminController.

(* ================================================================= *)
(** ** Students: parent mapping and document metadata
       ([admin.controller.ts]) *)

(** [StudentDocumentMetadata]; a field that is absent is [None]. *)
Module Document.
Record t := mk {
  name : option string;
  url : option string;
  uploadedAt : option string;
  fileType : option string;
  size : option Z
}.
End Document.

(** A row of [Student], with the columns these handlers read or write;
    [documents] is a JSON column, null or an array. *)
Module Student.
Record t := mk {
  id : string;
  name : string;
  parentId : option string;
  documents : option (list Document.t)
}.
End Student.

(** The [User] and [Student] tables *)
Record Registry := mkRegistry {
  registeredUsers : list User.t;
  students : list Student.t
}.

(** [prisma.student.findUnique({ where: { id } })] *)
Definition findStudent (db : Registry) (sid : string) : option Student.t :=
  find (fun s => String.eqb (Student.id s) sid) (students db).

(** [prisma.user.findUnique({ where: { id } })] *)
Definition findUser (db : Registry) (uid : string) : option User.t :=
  find (fun u => String.eqb (User.id u) uid) (registeredUsers db).

(** [prisma.student.update({ where: { id }, data })] *)
Definition updateStudent (db : Registry) (sid : string)
  (data : Student.t -> Student.t) : Registry :=
  mkRegistry (registeredUsers db)
    (map (fun s => if String.eqb (Student.id s) sid then data s else s)
       (students db)).

Definition withParent (parentId : option string) (s : Student.t) : Student.t :=
  Student.mk (Student.id s) (Student.name s) parentId (Student.documents s).

Definition withDocuments (documents : option (list Document.t)) (s : Student.t)
  : Student.t :=
  Student.mk (Student.id s) (Student.name s) (Student.parentId s) documents.

(** The student answered by [mapParentToStudent], with
    [parent: { select: { id, name, phone } }]; the column [phone] is not
    part of [User.t]. *)
Module MappedStudent.
Record t := mk { student : Student.t; parent : option TeacherRef }.
End MappedStudent.

Definition mapParentToStudent (db : Registry) (studentId parentId : option string)
  : Registry * Result MappedStudent.t :=
  if negb (truthy studentId) || negb (truthy parentId) then
    (db, inl (ValidationError "Student ID and Parent ID are required"))
  else
    match findStudent db (strOf studentId) with
    | None => (db, inl (NotFoundError "Student not found"))
    | Some student =>
        match findUser db (strOf parentId) with
        | None => (db, inl (NotFoundError "Parent user not found"))
        | Some parentUser =>
            if negb (Role_eqb (User.role parentUser) PARENT) then
              (db, inl (ValidationError "Specified user is not a Parent"))
            else if truthy (Student.parentId student) then
              if optEqb String.eqb (Student.parentId student) parentId then
                (db, inl (ConflictError
                            "Student is already mapped to this parent" None))
              else
                (db, inl (ConflictError
                            "Student is already mapped to another parent. Unmap first to change."
                            None))
            else
              (updateStudent db (strOf studentId) (withParent parentId),
               inr (MappedStudent.mk (withParent parentId student)
                      (Some (mkRef (User.id parentUser) (User.name parentUser)))))
        end
    end.

(** What [uploadStudentDocuments] and [getStudentDocuments] answer *)
Module DocumentsReply.
Record t := mk {
  studentId : string;
  studentName : option string;
  documents : list Document.t
}.
End DocumentsReply.

Section Documents.

(** [new Date(s).toISOString()]; [None] when [new Date(s)] is an Invalid
    Date, on which [toISOString] throws a RangeError.  Parsing belongs to
    the JavaScript runtime. *)
Variable toISOString : string -> option string.

(** [!doc.name || !doc.url || !doc.uploadedAt] *)
Definition incomplete (doc : Document.t) : bool :=
  negb (truthy (Document.name doc)) || negb (truthy (Document.url doc))
  || negb (truthy (Document.uploadedAt doc)).

(** [{ ...doc, uploadedAt: new Date(doc.uploadedAt).toISOString() }]; an
    absent [uploadedAt] is [undefined], and [new Date(undefined)] is an
    Invalid Date. *)
Definition formatDocument (doc : Document.t) : option Document.t :=
  match Document.uploadedAt doc with
  | None => None
  | Some uploadedAt =>
      match toISOString uploadedAt with
      | None => None
      | Some iso =>
          Some (Document.mk (Document.name doc) (Document.url doc) (Some iso)
                  (Document.fileType doc) (Document.size doc))
      end
  end.

(** [documents.map(doc => ...)]; [None] when a turn throws. *)
Fixpoint formatDocuments (docs : list Document.t) : option (list Document.t) :=
  match docs with
  | [] => Some []
  | doc :: rest =>
      match formatDocument doc with
      | None => None
      | Some doc' =>
          match formatDocuments rest with
          | None => None
          | Some rest' => Some (doc' :: rest')
          end
      end
  end.

(** [(student.documents as StudentDocumentMetadata[] | null) || []] *)
Definition documentsOf (s : Student.t) : list Document.t :=
  match Student.documents s with
  | Some docs => docs
  | None => []
  end.

(** [newDocumentsToUpload] is [None] when the [documents] field of the
    body is not an array.  The test of the URL has an empty body and the
    [try] around [new Date(doc.uploadedAt)] never catches, the constructor
    not throwing.  The response is formatted after the update, so an
    exception there is answered 500 with the documents stored. *)
Definition uploadStudentDocuments (db : Registry) (studentId : string)
  (newDocumentsToUpload : option (list Document.t))
  : Registry * Result DocumentsReply.t :=
  match newDocumentsToUpload with
  | None => (db, inl (ValidationError "Documents field must be an array."))
  | Some newDocumentsToUpload =>
      if existsb incomplete newDocumentsToUpload then
        (db, inl (ValidationError
                    "Each document must have a name, url, and uploadedAt timestamp."))
      else
        match findStudent db studentId with
        | None => (db, inl (NotFoundError "Student not found."))
        | Some student =>
            let existingDocuments := documentsOf student in
            let updatedDocuments :=
              (existingDocuments ++ newDocumentsToUpload)%list in
            let db' :=
              updateStudent db studentId (withDocuments (Some updatedDocuments)) in
            match formatDocuments updatedDocuments with
            | None => (db', inl ServerError)
            | Some responseDocs =>
                (db', inr (DocumentsReply.mk (Student.id student) None responseDocs))
            end
        end
  end.

Definition getStudentDocuments (db : Registry) (studentId : string)
  : Result DocumentsReply.t :=
  match findStudent db studentId with
  | None => inl (NotFoundError "Student not found.")
  | Some student =>
      match formatDocuments (documentsOf student) with
      | None => inl ServerError
      | Some formattedDocuments =>
          inr (DocumentsReply.mk (Student.id student) (Some (Student.name student))
                 formattedDocuments)
      end
  end.

End Documents.

(** Every student with a parent has a user with the role PARENT as its
    parent. *)
Definition parentsAreParents (db : Registry) : Prop :=
  forall s p,
    In s (students db) -> Student.parentId s = Some p -> p <> "" ->
    exists u, findUser db p = Some u /\ User.role u = PARENT.

(** A student, two users and the runtime's [toISOString] on the
    timestamps of the scenario *)
Definition parent1 : User.t := User.mk "p1" "Test Parent" PARENT.
Definition pupil : Student.t := Student.mk "st1" "Student With Docs" None None.
Definition registry : Registry := mkRegistry [admin1; parent1] [pupil].
Definition birthCertificate (uploadedAt : string) : Document.t :=
  Document.mk (Some "Birth Certificate") (Some "placeholder:/docs/bc.pdf")
    (Some uploadedAt) (Some "pdf") None.
Definition scenarioISO (s : string) : option string :=
  if String.eqb s "2024-09-05" then Some "2024-09-05T00:00:00.000Z" else None.

(* ================================================================= *)
(** ** Predicates on what is stored and answered *)

(** A slot as the write handlers leave one: two valid times, the start
    before the end; a class and a subject; no empty [section] or
    [teacherId]; teacher and substitute, when set, are TEACHER users. *)
Definition wellFormedSlot (db : DB) (s : TimetableSlot) : Prop :=
  isValidTimeFormat (startTime s) = true
  /\ isValidTimeFormat (endTime s) = true
  /\ jsLt (timeToMinutes (startTime s)) (timeToMinutes (endTime s)) = true
  /\ currentClass s <> ""
  /\ subject s <> ""
  /\ section s <> Some ""
  /\ teacherId s <> Some ""
  /\ (forall t, teacherId s = Some t -> findTeacher db t <> None)
  /\ (forall t, substituteTeacherId s = Some t -> findTeacher db t <> None).

(** A slot of a request body that the validation loop of
    [setAlternateTimetable] lets through: two valid times, the start before
    the end; a class and a subject; a teacher, when one is named, who is a
    TEACHER user. *)
Definition validSlotBody (db : DB) (x : TimetableSlotPayload.t) : Prop :=
  isValidTimeFormat (strOf (TimetableSlotPayload.startTime x)) = true
  /\ isValidTimeFormat (strOf (TimetableSlotPayload.endTime x)) = true
  /\ jsLt (timeToMinutes (strOf (TimetableSlotPayload.startTime x)))
       (timeToMinutes (strOf (TimetableSlotPayload.endTime x))) = true
  /\ truthy (TimetableSlotPayload.currentClass x) = true
  /\ truthy (TimetableSlotPayload.subject x) = true
  /\ (forall t, TimetableSlotPayload.teacherId x = Some t -> t <> "" ->
        findTeacher db t <> None).


(** [a] comes no later than [b] in a timetable: an earlier day of the week
    (MONDAY first), or the same day and a start that is not later. *)
Definition inTimetableOrder (a b : TimetableSlot) : Prop :=
  exists startA startB,
    timeToMinutes (startTime a) = Some startA
    /\ timeToMinutes (startTime b) = Some startB
    /\ (dayOrder (dayOfWeek a) < dayOrder (dayOfWeek b)
        \/ (dayOrder (dayOfWeek a) = dayOrder (dayOfWeek b)
            /\ startA <= startB)).

(** A week with Maths on Mondays, substituted by teacher 2, and History
    on Fridays *)
Definition weekDB : DB := mkDB someUsers [mathsMondaySubstituted; weeklyFriday] 5.

(** Maths moved to 11:00-12:00: an update of slot s3 *)
Definition mathsMovedLater : TimetableSlotPayload.t :=
  TimetableSlotPayload.mk (Some "s3") (Some "MONDAY") (Some "11:00") (Some "12:00")
    (Some "Grade10") (Some "A") (Some "Maths") (Some "t1") None.

(** Physics of Grade10 A on Mondays right after Maths, 10:00-11:00 *)
Definition physicsAfterMaths : TimetableSlotPayload.t :=
  TimetableSlotPayload.mk None (Some "MONDAY") (Some "10:00") (Some "11:00")
    (Some "Grade10") (Some "A") (Some "Physics") (Some "t1") None.

(** Mondays with Maths substituted by teacher 2 and Chemistry of Grade9 *)
Definition mondayDB : DB :=
  mkDB someUsers [mathsMondaySubstituted; chemistryMonday] 5.


Definition specialEventOn (day : DayOfWeek) : TimetableSlot :=
  mkSlot "slot-1" day "10:00" "11:00" "Grade10" (Some "A") "Special Event"
    None None (Some 19930).

(* ================================================================= *)
(** * Properties *)

(** ** Time strings *)

Example timeToMinutes_0930 : timeToMinutes "09:30" = Some 570.
Proof. reflexivity. Qed.

Example isValidTimeFormat_2400 : isValidTimeFormat "24:00" = false.
Proof. reflexivity. Qed.

Example overlap_0900_1000_0930_1030 :
  doTimeSlotsOverlap "09:00" "10:00" "09:30" "10:30" = true.
Proof. reflexivity. Qed.

Example isoDate_2024_07_26 :
  isoDate "2024-07-26" = Some 19930 /\ getDayOfWeekFromDate 19930 = FRIDAY.
Proof. split; reflexivity. Qed.

Lemma isDigit_not_colon (c : ascii) :
  isDigit c = true -> Ascii.eqb c ":" = false.
Proof.
  destruct c as [[] [] [] [] [] [] [] []]; vm_compute; congruence.
Qed.

Lemma isDigit_value (c : ascii) :
  isDigit c = true -> 0 <= digitValue c <= 9.
Proof.
  destruct c as [[] [] [] [] [] [] [] []]; vm_compute;
    intuition congruence.
Qed.

(** A string of the shape [HH:MM] splits into its two pieces. *)
Lemma matchesHHMM_shape (time : string) :
  matchesHHMM time = true ->
  exists h1 h2 m1 m2,
    time = String h1 (String h2 (String ":" (String m1 (String m2 ""))))
    /\ isDigit h1 = true /\ isDigit h2 = true
    /\ isDigit m1 = true /\ isDigit m2 = true.
Proof.
  destruct time as [|h1 [|h2 [|c [|m1 [|m2 [|]]]]]];
    cbn [matchesHHMM]; try discriminate.
  rewrite !andb_true_iff.
  intros ((((H1 & H2) & Hc) & H3) & H4).
  apply Ascii.eqb_eq in Hc; subst c.
  exists h1, h2, m1, m2; auto.
Qed.

Lemma timeToMinutes_HHMM (h1 h2 m1 m2 : ascii) :
  isDigit h1 = true -> isDigit h2 = true ->
  isDigit m1 = true -> isDigit m2 = true ->
  map Number (split (String h1 (String h2 (String ":" (String m1 (String m2 ""))))))
  = [Some (10 * (10 * 0 + digitValue h1) + digitValue h2);
     Some (10 * (10 * 0 + digitValue m1) + digitValue m2)].
Proof.
  intros H1 H2 H3 H4.
  unfold split; simpl.
  rewrite (isDigit_not_colon _ H1), (isDigit_not_colon _ H2),
    (isDigit_not_colon _ H3), (isDigit_not_colon _ H4).
  simpl. unfold Number; simpl.
  rewrite H1, H2, H3, H4. reflexivity.
Qed.

(** On a valid time string [timeToMinutes] is a number of minutes of the
    day. *)
Lemma timeToMinutes_valid (time : string) :
  isValidTimeFormat time = true ->
  exists m, timeToMinutes time = Some m /\ 0 <= m <= 1439.
Proof.
  unfold isValidTimeFormat, timeToMinutes.
  destruct (matchesHHMM time) eqn:E; simpl; try discriminate.
  destruct (matchesHHMM_shape _ E) as (h1 & h2 & m1 & m2 & -> & H1 & H2 & H3 & H4).
  rewrite (timeToMinutes_HHMM _ _ _ _ H1 H2 H3 H4).
  cbn [nth jsGe jsLe jsCmp jsAdd jsMul jsBin].
  rewrite !andb_true_iff.
  pose proof (isDigit_value _ H1). pose proof (isDigit_value _ H2).
  pose proof (isDigit_value _ H3). pose proof (isDigit_value _ H4).
  intros (((Ha & Hb) & Hc) & Hd).
  apply Z.leb_le in Hb, Hd.
  eexists; split; [reflexivity|]. lia.
Qed.

Lemma doTimeSlotsOverlap_sym (a b c d : string) :
  doTimeSlotsOverlap a b c d = doTimeSlotsOverlap c d a b.
Proof.
  unfold doTimeSlotsOverlap.
  destruct (timeToMinutes a), (timeToMinutes b), (timeToMinutes c),
    (timeToMinutes d); simpl; try reflexivity.
  now rewrite Z.max_comm, Z.min_comm.
Qed.

(** C10.  On valid time strings the overlap test is
    [max(toMinutes aStart, toMinutes bStart) < min(toMinutes aEnd, toMinutes bEnd)]
    over minutes of the day; it is symmetric in its two intervals; and an
    interval that ends at a time does not overlap one that starts at that
    time (half-open intervals). *)
Theorem doTimeSlotsOverlap_max_lt_min (aStart aEnd bStart bEnd : string) :
  isValidTimeFormat aStart = true ->
  isValidTimeFormat aEnd = true ->
  isValidTimeFormat bStart = true ->
  isValidTimeFormat bEnd = true ->
  exists a1 a2 b1 b2,
    timeToMinutes aStart = Some a1 /\ timeToMinutes aEnd = Some a2
    /\ timeToMinutes bStart = Some b1 /\ timeToMinutes bEnd = Some b2
    /\ 0 <= a1 <= 1439 /\ 0 <= a2 <= 1439
    /\ 0 <= b1 <= 1439 /\ 0 <= b2 <= 1439
    /\ doTimeSlotsOverlap aStart aEnd bStart bEnd = (Z.max a1 b1 <? Z.min a2 b2)
    /\ doTimeSlotsOverlap aStart aEnd bStart bEnd
       = doTimeSlotsOverlap bStart bEnd aStart aEnd
    /\ doTimeSlotsOverlap aStart aEnd aEnd bEnd = false
    /\ doTimeSlotsOverlap aEnd bEnd aStart aEnd = false.
Proof.
  intros Ha1 Ha2 Hb1 Hb2.
  destruct (timeToMinutes_valid _ Ha1) as (a1 & Ea1 & Ra1).
  destruct (timeToMinutes_valid _ Ha2) as (a2 & Ea2 & Ra2).
  destruct (timeToMinutes_valid _ Hb1) as (b1 & Eb1 & Rb1).
  destruct (timeToMinutes_valid _ Hb2) as (b2 & Eb2 & Rb2).
  exists a1, a2, b1, b2.
  repeat (split; [assumption|]).
  split; [|split; [apply doTimeSlotsOverlap_sym|]].
  - unfold doTimeSlotsOverlap. rewrite Ea1, Ea2, Eb1, Eb2. reflexivity.
  - assert (H : doTimeSlotsOverlap aStart aEnd aEnd bEnd = false).
    { unfold doTimeSlotsOverlap. rewrite Ea1, Ea2, Eb2. simpl.
      apply Z.ltb_ge. lia. }
    split; [exact H|]. now rewrite doTimeSlotsOverlap_sym.
Qed.

Lemma doTimeSlotsOverlap_max_lt_min_witness :
  isValidTimeFormat "09:00" = true /\ isValidTimeFormat "10:00" = true
  /\ isValidTimeFormat "10:00" = true /\ isValidTimeFormat "11:30" = true
  /\ exists a1 a2 b1 b2,
    timeToMinutes "09:00" = Some a1 /\ timeToMinutes "10:00" = Some a2
    /\ timeToMinutes "10:00" = Some b1 /\ timeToMinutes "11:30" = Some b2
    /\ 0 <= a1 <= 1439 /\ 0 <= a2 <= 1439
    /\ 0 <= b1 <= 1439 /\ 0 <= b2 <= 1439
    /\ doTimeSlotsOverlap "09:00" "10:00" "10:00" "11:30"
       = (Z.max a1 b1 <? Z.min a2 b2)
    /\ doTimeSlotsOverlap "09:00" "10:00" "10:00" "11:30"
       = doTimeSlotsOverlap "10:00" "11:30" "09:00" "10:00"
    /\ doTimeSlotsOverlap "09:00" "10:00" "10:00" "11:30" = false
    /\ doTimeSlotsOverlap "10:00" "11:30" "09:00" "10:00" = false.
Proof.
  repeat (split; [reflexivity|]).
  apply (doTimeSlotsOverlap_max_lt_min "09:00" "10:00" "10:00" "11:30");
    reflexivity.
Defined.

(** ** The slot scheduler: [createOrUpdateTimetableSlot] *)

(** C1.  The conflict queries of [createOrUpdateTimetableSlot] do not look
    at [date].  A weekly candidate that overlaps only a date-bound slot of
    its class, section and day is answered 409 "Class/Section conflict",
    and so is a date-bound candidate that overlaps only a weekly slot;
    neither is stored. *)
Theorem upsert_conflicts_across_date_scopes :
  createOrUpdateTimetableSlot isoDate (mkDB someUsers [specialEvent] 1)
    weeklyCandidate
  = (mkDB someUsers [specialEvent] 1,
     inl (ConflictError
            "Class/Section conflict: Class 'Grade10' A already has subject 'Special Event' scheduled during this time."
            (Some specialEvent)))
  /\ createOrUpdateTimetableSlot isoDate (mkDB someUsers [weeklyFriday] 1)
       datedCandidate
     = (mkDB someUsers [weeklyFriday] 1,
        inl (ConflictError
               "Class/Section conflict: Class 'Grade10' A already has subject 'History' scheduled during this time."
               (Some weeklyFriday))).
Proof. split; vm_compute; reflexivity. Qed.

(** C2.  The teacher query of [createOrUpdateTimetableSlot] reads
    [teacherId] only.  With teacher 2 substituting Maths of Grade10 A on
    Mondays 09:00-10:00, a new slot of Grade9 A on Mondays 09:30-10:30
    with teacher 2 as its teacher is created: no teacher conflict is
    answered. *)
Theorem upsert_misses_substitute_commitment :
  createOrUpdateTimetableSlot isoDate (mkDB someUsers [mathsMondaySubstituted] 1)
    (chemistry "t2")
  = (mkDB someUsers
       [mathsMondaySubstituted;
        mkSlot "slot-1" MONDAY "09:30" "10:30" "Grade9" (Some "A") "Chemistry"
          (Some "t2") None None] 2,
     inr (mkSlot "slot-1" MONDAY "09:30" "10:30" "Grade9" (Some "A") "Chemistry"
            (Some "t2") None None)).
Proof. vm_compute; reflexivity. Qed.

Lemma teacherConflictMessage_prefix (s : TimetableSlot) :
  String.prefix "Teacher conflict" (teacherConflictMessage s) = true.
Proof. reflexivity. Qed.

Lemma classConflictMessage_prefix (v : Validated.t) (s : TimetableSlot) :
  String.prefix "Class/Section conflict" (classConflictMessage v s) = true.
Proof. reflexivity. Qed.

(** What the validations leave of a request they accept *)
Lemma validateSlot_ok (db : DB) (p : TimetableSlotPayload.t) (v : Validated.t) :
  validateSlot db p = inr v ->
  DayOfWeek_of_string (strOf (TimetableSlotPayload.dayOfWeek p))
  = Some (Validated.dayOfWeek v)
  /\ Validated.date v = TimetableSlotPayload.date p.
Proof.
  unfold validateSlot, bind, rejectIf.
  destruct (DayOfWeek_of_string _) eqn:Hd;
    repeat match goal with
           | |- context [if ?c then inl _ else inr tt] => destruct c
           end; try discriminate.
  intros [= <-]. auto.
Qed.

Section SlotScheduler.

Variable utcDayOf : string -> option Date.

(** A request that passes the validations and meets a conflict is
    answered with that conflict and stores nothing. *)
Lemma upsert_conflict (db : DB) (p : TimetableSlotPayload.t) (v : Validated.t)
  (e : ApiError) :
  validateSlot db p = inr v ->
  detectConflicts db v = inl e ->
  createOrUpdateTimetableSlot utcDayOf db p = (db, inl e).
Proof.
  intros Hv Hc. unfold createOrUpdateTimetableSlot. now rewrite Hv, Hc.
Qed.

End SlotScheduler.

(** C3 with the class/section conflict answered first does not hold:
    Physics of Grade10 A on Mondays 09:30-10:30 with teacher 1 overlaps
    Maths of Grade10 A (a class/section conflict) taught by teacher 1 (a
    teacher conflict), and the answer names the teacher conflict. *)
Lemma upsert_both_conflicts_reports_teacher :
  exists v,
    validateSlot (mkDB someUsers [mathsMonday] 1) physicsSameClassSameTeacher = inr v
    /\ classConflict (mkDB someUsers [mathsMonday] 1) v = Some mathsMonday
    /\ teacherConflict (mkDB someUsers [mathsMonday] 1) v = Some mathsMonday
    /\ createOrUpdateTimetableSlot isoDate (mkDB someUsers [mathsMonday] 1)
         physicsSameClassSameTeacher
       = (mkDB someUsers [mathsMonday] 1,
          inl (ConflictError
                 "Teacher conflict: Teacher is already assigned to class 'Grade10' subject 'Maths' during this time."
                 (Some mathsMonday)))
    /\ String.prefix "Class/Section conflict"
         "Teacher conflict: Teacher is already assigned to class 'Grade10' subject 'Maths' during this time."
       = false.
Proof.
  eexists. split; [vm_compute; reflexivity|].
  repeat split; vm_compute; reflexivity.
Qed.

(** ** The alternate-day scheduler: [setAlternateTimetable] *)



Lemma map_snd_indexed_from {A} (l : list A) (n : nat) :
  map snd (combine (seq n (List.length l)) l) = l.
Proof.
  revert n. induction l as [|y l IH]; intros n; simpl; [reflexivity|].
  now rewrite IH.
Qed.

Lemma map_snd_indexed {A} (l : list A) : map snd (indexed l) = l.
Proof. apply map_snd_indexed_from. Qed.

Lemma create_ok (db db' : DB) (data row : TimetableSlot) :
  create db data = inr (db', row) ->
  row = withSubstitute None (withId (genId (nextId db)) data)
  /\ users db' = users db
  /\ timetableSlots db' = (timetableSlots db ++ [row])%list.
Proof.
  unfold create. destruct (violatesUnique _ _); [discriminate|].
  intros H. injection H as <- <-. auto.
Qed.



Section AlternateScheduler.

Variable utcDayOf : string -> option Date.

(** What the loop has written when it ends without an exception: one row
    per slot of the payload, in order, after the rows that were there. *)
Lemma createAlternateSlots_ok (all todo : list (nat * TimetableSlotPayload.t))
  (dow : DayOfWeek) (d : Date) (tx tx' : DB) (created : list TimetableSlot) :
  createAlternateSlots all dow d todo tx = (tx', inr created) ->
  users tx' = users tx
  /\ timetableSlots tx' = (timetableSlots tx ++ created)%list
  /\ map (withId "") created = map (alternateSlotData dow d) (map snd todo).
Proof.
  revert tx tx' created.
  induction todo as [|[i slotData] rest IH]; intros tx tx' created; simpl.
  - intros H. injection H as <- <-. rewrite app_nil_r. auto.
  - destruct (0 <? _)%nat; [discriminate|].
    destruct (0 <? _)%nat; [discriminate|].
    destruct (create tx _) as [e|[tx1 row]] eqn:Ec; [discriminate|].
    destruct (createAlternateSlots all dow d rest tx1) as [tx2 [e|newSlots]] eqn:Er;
      [discriminate|].
    intros H. injection H as <- <-.
    destruct (create_ok _ _ _ _ Ec) as (Hrow & Hu & Hs).
    destruct (IH _ _ _ Er) as (Hu' & Hs' & Hm).
    repeat split.
    + congruence.
    + rewrite Hs', Hs, <- app_assoc. reflexivity.
    + simpl. rewrite Hm. f_equal. rewrite Hrow. reflexivity.
Qed.


Lemma matchesYYYYMMDD_length (s : string) :
  matchesYYYYMMDD s = true -> String.length s = 10%nat.
Proof.
  destruct s as [|? [|? [|? [|? [|? [|? [|? [|? [|? [|? [|]]]]]]]]]]];
    cbn [matchesYYYYMMDD]; try discriminate; reflexivity.
Qed.

Lemma validateAlternateSlots_ok (db : DB) (l l' : list TimetableSlotPayload.t) :
  validateAlternateSlots db l = inr l' -> l' = map normaliseSlot l.
Proof.
  revert l'. induction l as [|x l IH]; intros l'; simpl.
  - intros H. now injection H as <-.
  - unfold validateAlternateSlot, bind, rejectIf.
    repeat match goal with
           | |- context [if ?c then inl _ else inr tt] => destruct c
           end; try discriminate.
    destruct (validateAlternateSlots db l) as [e|r]; [discriminate|].
    intros H. injection H as <-. f_equal. now apply IH.
Qed.

Lemma setAlternateTimetable_run (db : DB) (p : AlternateTimetablePayload.t)
  (d : Date) (submitted : list TimetableSlotPayload.t) :
  reachesTransaction utcDayOf db p d submitted ->
  let batch := map normaliseSlot submitted in
  setAlternateTimetable utcDayOf db p
  = match transaction db (fun tx =>
            createAlternateSlots (indexed batch) (getDayOfWeekFromDate d) d
              (indexed batch) (deleteManyByDate d tx)) with
    | (db', inr createdSlots) => (db', inr createdSlots)
    | (db', inl e) => (db', inl (catchAlternate e))
    end.
Proof.
  intros (ds & Hd & Hs & Hne & Hu & Hm & Hv) batch.
  unfold setAlternateTimetable. rewrite Hs, Hd. cbn [truthy strOf].
  apply String.eqb_neq in Hne. rewrite Hne. cbn [negb].
  rewrite Hu, (matchesYYYYMMDD_length _ Hm), Hm, Hv. reflexivity.
Qed.

Lemma setAlternateTimetable_inv (db db' : DB) (p : AlternateTimetablePayload.t)
  (created : list TimetableSlot) :
  setAlternateTimetable utcDayOf db p = (db', inr created) ->
  exists d submitted,
    reachesTransaction utcDayOf db p d submitted
    /\ createAlternateSlots (indexed (map normaliseSlot submitted))
         (getDayOfWeekFromDate d) d
         (indexed (map normaliseSlot submitted)) (deleteManyByDate d db)
       = (db', inr created).
Proof.
  unfold setAlternateTimetable.
  destruct (AlternateTimetablePayload.slots p) as [submitted|] eqn:Hs;
    [|discriminate].
  destruct (AlternateTimetablePayload.date p) as [ds|] eqn:Hd;
    [|discriminate].
  cbn [truthy strOf].
  destruct (String.eqb ds "") eqn:Hne; [discriminate|]. cbn [negb].
  destruct (utcDayOf ds) as [d|] eqn:Hu; [|discriminate].
  destruct (Nat.eqb (String.length ds) 10); [|discriminate].
  destruct (matchesYYYYMMDD ds) eqn:Hm; [|discriminate]. cbn [negb orb].
  destruct (validateAlternateSlots db submitted) as [e|batch] eqn:Hv;
    [discriminate|].
  pose proof (validateAlternateSlots_ok _ _ _ Hv) as ->.
  unfold transaction.
  destruct (createAlternateSlots _ _ _ _ _) as [tx [e|c]] eqn:Hc; [discriminate|].
  intros H. injection H as <- <-.
  exists d, submitted. split; [|assumption].
  exists ds. apply String.eqb_neq in Hne. auto 10.
Qed.

(** After a successful call the table holds the rows of the other dates,
    then the created rows; every created row carries the columns of its
    slot of the payload. *)
Lemma setAlternateTimetable_ok (db db' : DB) (p : AlternateTimetablePayload.t)
  (created : list TimetableSlot) :
  setAlternateTimetable utcDayOf db p = (db', inr created) ->
  exists d submitted,
    reachesTransaction utcDayOf db p d submitted
    /\ users db' = users db
    /\ timetableSlots db'
       = (filter (fun s => negb (optEqb Z.eqb (date s) (Some d)))
            (timetableSlots db) ++ created)%list
    /\ map (withId "") created
       = map (alternateSlotData (getDayOfWeekFromDate d) d)
           (map normaliseSlot submitted).
Proof.
  intros H.
  destruct (setAlternateTimetable_inv _ _ _ _ H) as (d & submitted & Hr & Hc).
  exists d, submitted. split; [assumption|].
  destruct (createAlternateSlots_ok _ _ _ _ _ _ _ Hc) as (Hu & Hs & Hm).
  rewrite map_snd_indexed in Hm. auto.
Qed.

Lemma created_rows_dated (dow : DayOfWeek) (d : Date)
  (batch : list TimetableSlotPayload.t) (created : list TimetableSlot) :
  map (withId "") created = map (alternateSlotData dow d) batch ->
  Forall (fun s => date s = Some d /\ dayOfWeek s = dow) created.
Proof.
  revert batch. induction created as [|s created IH]; intros [|x batch] H;
    cbn [map] in H; try discriminate; constructor.
  - assert (Hs : withId "" s = alternateSlotData dow d x) by congruence.
    split.
    + transitivity (date (withId "" s)); [reflexivity|now rewrite Hs].
    + transitivity (dayOfWeek (withId "" s)); [reflexivity|now rewrite Hs].
  - apply (IH batch). congruence.
Qed.



Lemma truthy_emptyToNull (o : option string) :
  truthy (emptyToNull o) = truthy o.
Proof.
  destruct o as [x|]; simpl; [|reflexivity].
  destruct (String.eqb x "") eqn:E; simpl; [reflexivity|now rewrite E].
Qed.

Lemma orNull_emptyToNull (o : option string) :
  orNull (emptyToNull o) = orNull o.
Proof.
  unfold orNull. rewrite truthy_emptyToNull.
  destruct o as [x|]; simpl; [|reflexivity].
  destruct (String.eqb x "") eqn:E; reflexivity.
Qed.

Lemma sameTeacher_normaliseSlot (a b : TimetableSlotPayload.t) :
  sameTeacher (normaliseSlot a) (normaliseSlot b) = sameTeacher a b.
Proof.
  unfold sameTeacher, normaliseSlot; cbn [TimetableSlotPayload.teacherId].
  rewrite truthy_emptyToNull.
  destruct (TimetableSlotPayload.teacherId a) as [x|]; simpl; [|reflexivity].
  destruct (String.eqb x "") eqn:Ex; simpl; [reflexivity|].
  destruct (TimetableSlotPayload.teacherId b) as [y|]; simpl; [|reflexivity].
  destruct (String.eqb y "") eqn:Ey; simpl; [|reflexivity].
  apply String.eqb_eq in Ey; subst y. now rewrite Ex.
Qed.

Lemma sameClassSection_normaliseSlot (a b : TimetableSlotPayload.t) :
  sameClassSection (normaliseSlot a) (normaliseSlot b) = sameClassSection a b.
Proof.
  unfold sameClassSection, normaliseSlot;
    cbn [TimetableSlotPayload.currentClass TimetableSlotPayload.section].
  now rewrite !orNull_emptyToNull.
Qed.

Lemma filter_all {A} (f : A -> bool) (l : list A) :
  Forall (fun x => f x = true) l -> filter f l = l.
Proof.
  induction 1 as [|x l Hx _ IH]; simpl; [reflexivity|]. now rewrite Hx, IH.
Qed.

Lemma filter_none {A} (f : A -> bool) (l : list A) :
  Forall (fun x => f x = false) l -> filter f l = [].
Proof.
  induction 1 as [|x l Hx _ IH]; simpl; [reflexivity|]. now rewrite Hx.
Qed.

Lemma filter_idem {A} (f : A -> bool) (l : list A) :
  filter f (filter f l) = filter f l.
Proof.
  apply filter_all. apply Forall_forall. intros x Hx.
  now apply filter_In in Hx.
Qed.

Lemma filter_filter_neg {A} (f : A -> bool) (l : list A) :
  filter f (filter (fun x => negb (f x)) l) = [].
Proof.
  apply filter_none. apply Forall_forall. intros x Hx.
  apply filter_In in Hx. destruct Hx as [_ Hx]. now destruct (f x).
Qed.

Lemma optEqb_Z_eq (a b : option Z) : optEqb Z.eqb a b = true <-> a = b.
Proof.
  destruct a as [x|], b as [y|]; simpl; split; try congruence.
  - intros H. apply Z.eqb_eq in H. congruence.
  - intros H. injection H as ->. apply Z.eqb_refl.
Qed.

(** Any failure of [setAlternateTimetable] leaves both tables as they
    were. *)
Lemma setAlternateTimetable_error_rolls_back (db db' : DB)
  (p : AlternateTimetablePayload.t) (e : ApiError) :
  setAlternateTimetable utcDayOf db p = (db', inl e) ->
  timetableSlots db' = timetableSlots db /\ users db' = users db.
Proof.
  unfold setAlternateTimetable.
  destruct (AlternateTimetablePayload.slots p); [|now intros [= <- _]].
  destruct (negb _); [now intros [= <- _]|].
  destruct (utcDayOf _); [|now intros [= <- _]].
  destruct (_ || _); [now intros [= <- _]|].
  destruct (validateAlternateSlots _ _); [now intros [= <- _]|].
  unfold transaction.
  destruct (createAlternateSlots _ _ _ _ _) as [tx [e'|c]];
    [|discriminate].
  now intros [= <- _].
Qed.

(** What is stored for the date after a successful call is what the call
    created, and the rows of other dates are untouched. *)
Lemma setAlternateTimetable_replaces (db db' : DB) (p : AlternateTimetablePayload.t)
  (created : list TimetableSlot) :
  setAlternateTimetable utcDayOf db p = (db', inr created) ->
  exists d submitted,
    reachesTransaction utcDayOf db p d submitted
    /\ findManyByDate db' d = created
    /\ map (withId "") created
       = map (alternateSlotData (getDayOfWeekFromDate d) d)
           (map normaliseSlot submitted)
    /\ filter (fun s => negb (optEqb Z.eqb (date s) (Some d))) (timetableSlots db')
       = filter (fun s => negb (optEqb Z.eqb (date s) (Some d))) (timetableSlots db)
    /\ users db' = users db.
Proof.
  intros H.
  destruct (setAlternateTimetable_ok _ _ _ _ H)
    as (d & submitted & Hr & Hu & Hs & Hm).
  exists d, submitted.
  pose proof (created_rows_dated _ _ _ _ Hm) as Hd.
  assert (Hon : Forall (fun s => optEqb Z.eqb (date s) (Some d) = true) created).
  { eapply Forall_impl; [|exact Hd]. intros s [Hs' _].
    now apply optEqb_Z_eq. }
  repeat split; try assumption.
  - unfold findManyByDate. rewrite Hs, filter_app, filter_filter_neg.
    simpl. now apply filter_all.
  - rewrite Hs, filter_app, filter_idem.
    rewrite (filter_none _ created), app_nil_r; [reflexivity|].
    eapply Forall_impl; [|exact Hon]. intros s Hs'; simpl in *. now rewrite Hs'.
Qed.



(** *** A payload without a clash is stored *)

(** What the validation loop has checked of a slot it accepts *)
Lemma validateAlternateSlot_checked (db : DB) (x y : TimetableSlotPayload.t) :
  validateAlternateSlot db x = inr y ->
  truthy (TimetableSlotPayload.currentClass x) = true
  /\ exists a b,
      timeToMinutes (strOf (TimetableSlotPayload.startTime x)) = Some a
      /\ timeToMinutes (strOf (TimetableSlotPayload.endTime x)) = Some b
      /\ a < b.
Proof.
  unfold validateAlternateSlot, bind, rejectIf.
  match goal with
  | |- context [if (?a || ?b || ?c || ?d) then _ else _] =>
      destruct (a || b || c || d) eqn:Hreq; [discriminate|]
  end.
  match goal with
  | |- context [if (?a || ?b) then _ else _] =>
      destruct (a || b) eqn:Hfmt; [discriminate|]
  end.
  match goal with
  | |- context [if jsGe ?a ?b then _ else _] =>
      destruct (jsGe a b) eqn:Hord; [discriminate|]
  end.
  intros _.
  apply orb_false_elim in Hreq. destruct Hreq as [Hreq _].
  apply orb_false_elim in Hreq. destruct Hreq as [_ Hc].
  apply negb_false_iff in Hc.
  apply orb_false_elim in Hfmt. destruct Hfmt as [Hs He].
  apply negb_false_iff in Hs, He.
  split; [assumption|].
  destruct (timeToMinutes_valid _ Hs) as (a & Ea & _).
  destruct (timeToMinutes_valid _ He) as (b & Eb & _).
  exists a, b. rewrite Ea, Eb in *. repeat split.
  simpl in Hord. unfold Z.geb in Hord.
  destruct (a ?= b) eqn:Ec; try discriminate. now apply Z.compare_lt_iff.
Qed.

Lemma validateAlternateSlots_checked (db : DB)
  (l l' : list TimetableSlotPayload.t) :
  validateAlternateSlots db l = inr l' ->
  Forall (fun x =>
            truthy (TimetableSlotPayload.currentClass x) = true
            /\ exists a b,
                timeToMinutes (strOf (TimetableSlotPayload.startTime x)) = Some a
                /\ timeToMinutes (strOf (TimetableSlotPayload.endTime x)) = Some b
                /\ a < b) l.
Proof.
  revert l'. induction l as [|x l IH]; intros l'; simpl; [constructor|].
  unfold bind at 1.
  destruct (validateAlternateSlot db x) as [e|y] eqn:Hx; [discriminate|].
  unfold bind.
  destruct (validateAlternateSlots db l) as [e|r] eqn:Hl; [discriminate|].
  intros _. constructor.
  - eapply validateAlternateSlot_checked. eassumption.
  - eapply IH. reflexivity.
Qed.

(** Two accepted slots with the columns of one unique key clash. *)
Lemma sameUniqueKey_clash (dow : DayOfWeek) (d : Date)
  (sk s : TimetableSlotPayload.t) (r row : TimetableSlot) (a b a' b' : Z) :
  withId "" r = alternateSlotData dow d sk ->
  withId "" row = alternateSlotData dow d s ->
  truthy (TimetableSlotPayload.currentClass sk) = true ->
  truthy (TimetableSlotPayload.currentClass s) = true ->
  timeToMinutes (strOf (TimetableSlotPayload.startTime sk)) = Some a ->
  timeToMinutes (strOf (TimetableSlotPayload.endTime sk)) = Some b ->
  a < b ->
  timeToMinutes (strOf (TimetableSlotPayload.startTime s)) = Some a' ->
  timeToMinutes (strOf (TimetableSlotPayload.endTime s)) = Some b' ->
  a' < b' ->
  sameUniqueKey r row = true ->
  clash sk s = true.
Proof.
  intros Hr Hrow Hck Hcs Ea Eb Hab Ea' Eb' Hab' Hkey.
  assert (Hkey' : sameUniqueKey (alternateSlotData dow d sk)
                    (alternateSlotData dow d s) = true).
  { rewrite <- Hr, <- Hrow. exact Hkey. }
  unfold sameUniqueKey, alternateSlotData in Hkey'.
  cbn [dayOfWeek startTime currentClass section subject date] in Hkey'.
  rewrite !andb_true_iff in Hkey'.
  destruct Hkey' as [[[[[_ Hst] Hcc] Hsec] _] _].
  apply String.eqb_eq in Hst, Hcc.
  unfold clash. apply andb_true_intro. split.
  - apply orb_true_intro. right. unfold sameClassSection.
    apply andb_true_intro. split.
    + destruct (TimetableSlotPayload.currentClass sk) as [x|]; [|discriminate].
      destruct (TimetableSlotPayload.currentClass s) as [y|]; [|discriminate].
      simpl in *. subst y. apply String.eqb_refl.
    + destruct (orNull (TimetableSlotPayload.section sk)),
        (orNull (TimetableSlotPayload.section s)); try discriminate.
      exact Hsec.
  - unfold overlapsInPayload, doTimeSlotsOverlap.
    rewrite Ea, Eb, Eb'. rewrite <- Hst, Ea. simpl.
    rewrite Hst, Ea' in Ea. injection Ea as <-.
    apply Z.ltb_lt. lia.
Qed.

Lemma map_fst_indexed_from {A} (l : list A) (n : nat) :
  map fst (combine (seq n (List.length l)) l) = seq n (List.length l).
Proof.
  revert n. induction l as [|y l IH]; intros n; simpl; [reflexivity|].
  now rewrite IH.
Qed.

Lemma indexed_NoDup {A} (l : list A) : NoDup (map fst (indexed l)).
Proof.
  unfold indexed. rewrite map_fst_indexed_from. apply seq_NoDup.
Qed.

Lemma indexed_from_In {A} (l : list A) (n i : nat) (x : A) :
  In (i, x) (combine (seq n (List.length l)) l) ->
  (n <= i)%nat /\ nth_error l (i - n) = Some x.
Proof.
  revert n. induction l as [|y l IH]; intros n; simpl; [contradiction|].
  intros [H|H].
  - injection H as <- <-. rewrite Nat.sub_diag. split; [lia|reflexivity].
  - destruct (IH _ H) as [Hle Hn]. split; [lia|].
    replace (i - n)%nat with (S (i - S n)) by lia. exact Hn.
Qed.

Lemma indexed_In {A} (l : list A) (i : nat) (x : A) :
  In (i, x) (indexed l) -> nth_error l i = Some x.
Proof.
  intros H. destruct (indexed_from_In l 0 i x H) as [_ Hn].
  now rewrite Nat.sub_0_r in Hn.
Qed.

(** The loop ends without an exception when no two slots of the payload
    clash: no check throws, and no created row can collide on the unique
    index, the rows of the date being the ones the loop created from
    earlier slots. *)
Lemma createAlternateSlots_succeeds (all : list (nat * TimetableSlotPayload.t))
  (dow : DayOfWeek) (d : Date) :
  NoDup (map fst all) ->
  (forall i j si sj,
      In (i, si) all -> In (j, sj) all -> i <> j -> clash si sj = false) ->
  (forall i s,
      In (i, s) all ->
      truthy (TimetableSlotPayload.currentClass s) = true
      /\ exists a b,
          timeToMinutes (strOf (TimetableSlotPayload.startTime s)) = Some a
          /\ timeToMinutes (strOf (TimetableSlotPayload.endTime s)) = Some b
          /\ a < b) ->
  forall todo done tx,
    all = (done ++ todo)%list ->
    (forall r,
        In r (timetableSlots tx) -> date r = Some d ->
        exists k sk,
          In (k, sk) done /\ withId "" r = alternateSlotData dow d sk) ->
    exists tx' created,
      createAlternateSlots all dow d todo tx = (tx', inr created).
Proof.
  intros Hnd Hclash Hchecked.
  induction todo as [|[i s] rest IH]; intros done tx Hall Hinv; simpl;
    [eauto|].
  assert (Hi : In (i, s) all) by (rewrite Hall; apply in_elt).
  assert (Hothers : forall j sj,
             In (j, sj) all ->
             negb (Nat.eqb j i) && clash sj s = false).
  { intros j sj Hj. destruct (Nat.eqb j i) eqn:E; [reflexivity|].
    apply Nat.eqb_neq in E. simpl. now apply (Hclash j i). }
  assert (Ht : teacherConflictInPayload all i s = []).
  { apply filter_none, Forall_forall. intros [j sj] Hj. cbn [fst snd].
    generalize (Hothers j sj Hj). unfold clash.
    destruct (sameTeacher sj s), (Nat.eqb j i), (overlapsInPayload sj s);
      simpl; congruence. }
  assert (Hc : classConflictInPayload all i s = []).
  { apply filter_none, Forall_forall. intros [j sj] Hj. cbn [fst snd].
    generalize (Hothers j sj Hj). unfold clash.
    destruct (sameTeacher sj s), (sameClassSection sj s), (Nat.eqb j i),
      (overlapsInPayload sj s); simpl; congruence. }
  rewrite Ht, Hc. cbn [List.length Nat.ltb Nat.leb].
  unfold create.
  set (row := withSubstitute None
                (withId (genId (nextId tx)) (alternateSlotData dow d s))).
  assert (Hrow : withId "" row = alternateSlotData dow d s) by reflexivity.
  destruct (violatesUnique (timetableSlots tx) row) eqn:Hv.
  - exfalso. unfold violatesUnique in Hv. apply existsb_exists in Hv.
    destruct Hv as (r & Hr & Hkey). apply andb_prop in Hkey.
    destruct Hkey as [_ Hkey].
    assert (Hd : date r = Some d).
    { unfold sameUniqueKey in Hkey. rewrite !andb_true_iff in Hkey.
      destruct Hkey as [_ Hkey]. cbn [date row withSubstitute withId
        alternateSlotData] in Hkey.
      destruct (date r) as [x|]; [|discriminate].
      apply Z.eqb_eq in Hkey. congruence. }
    destruct (Hinv r Hr Hd) as (k & sk & Hk & Hrk).
    assert (Hkall : In (k, sk) all) by (rewrite Hall; apply in_or_app; auto).
    assert (Hki : k <> i).
    { intros ->. rewrite Hall, map_app in Hnd. cbn [map fst] in Hnd.
      apply NoDup_remove_2 in Hnd. apply Hnd. apply in_or_app. left.
      apply in_map_iff. exists (i, sk). auto. }
    destruct (Hchecked k sk Hkall) as (Hck & a & b & Ea & Eb & Hab).
    destruct (Hchecked i s Hi) as (Hcs & a' & b' & Ea' & Eb' & Hab').
    pose proof (sameUniqueKey_clash dow d sk s r row a b a' b'
                  Hrk Hrow Hck Hcs Ea Eb Hab Ea' Eb' Hab' Hkey) as Hyes.
    rewrite (Hclash k i sk s Hkall Hi Hki) in Hyes. discriminate.
  - destruct (IH (done ++ [(i, s)])%list
                (mkDB (users tx) (timetableSlots tx ++ [row]) (S (nextId tx))))
      as (tx' & created & ->).
    + rewrite Hall, <- app_assoc. reflexivity.
    + intros r Hr Hd. cbn [timetableSlots] in Hr.
      apply in_app_or in Hr. destruct Hr as [Hr|[<-|[]]].
      * destruct (Hinv r Hr Hd) as (k & sk & Hk & Hrk).
        exists k, sk. split; [apply in_or_app; auto|assumption].
      * exists i, s. split; [apply in_or_app; right; now left|assumption].
    + eauto.
Qed.

Lemma clash_normaliseSlot (a b : TimetableSlotPayload.t) :
  clash (normaliseSlot a) (normaliseSlot b) = clash a b.
Proof.
  unfold clash.
  now rewrite sameTeacher_normaliseSlot, sameClassSection_normaliseSlot.
Qed.

(** A payload that reaches the transaction and has no two clashing slots
    is stored: the call succeeds. *)
Lemma setAlternateTimetable_succeeds (db : DB) (p : AlternateTimetablePayload.t)
  (d : Date) (submitted : list TimetableSlotPayload.t) :
  reachesTransaction utcDayOf db p d submitted ->
  (forall i j si sj,
      nth_error submitted i = Some si ->
      nth_error submitted j = Some sj ->
      i <> j ->
      clash si sj = false) ->
  exists db' created,
    setAlternateTimetable utcDayOf db p = (db', inr created).
Proof.
  intros Hr Hno.
  rewrite (setAlternateTimetable_run _ _ _ _ Hr). cbv zeta.
  destruct Hr as (ds & _ & _ & _ & _ & _ & Hv).
  pose proof (validateAlternateSlots_checked _ _ _ Hv) as Hchk.
  rewrite Forall_forall in Hchk.
  set (batch := map normaliseSlot submitted).
  assert (Hnth : forall i s,
             In (i, s) (indexed batch) ->
             exists x, nth_error submitted i = Some x /\ s = normaliseSlot x).
  { intros i s Hin. apply indexed_In in Hin. unfold batch in Hin.
    rewrite nth_error_map in Hin.
    destruct (nth_error submitted i) as [x|]; [|discriminate].
    injection Hin as <-. eauto. }
  unfold transaction.
  destruct (createAlternateSlots_succeeds (indexed batch)
              (getDayOfWeekFromDate d) d (indexed_NoDup batch))
    with (todo := indexed batch) (done := @nil (nat * TimetableSlotPayload.t))
         (tx := deleteManyByDate d db)
    as (tx' & created & ->).
  - intros i j si sj Hi Hj Hij.
    destruct (Hnth _ _ Hi) as (xi & Hxi & ->).
    destruct (Hnth _ _ Hj) as (xj & Hxj & ->).
    rewrite clash_normaliseSlot. eapply Hno; eassumption.
  - intros i s Hi. destruct (Hnth _ _ Hi) as (x & Hx & ->).
    apply nth_error_In in Hx. exact (Hchk x Hx).
  - reflexivity.
  - intros r Hin Hd. exfalso. cbn [deleteManyByDate timetableSlots] in Hin.
    apply filter_In in Hin. destruct Hin as [_ Hin].
    rewrite Hd in Hin. simpl in Hin. rewrite Z.eqb_refl in Hin. discriminate.
  - eauto.
Qed.

End AlternateScheduler.

Example isoDate_2024_09_05 :
  isoDate "2024-09-05" = Some 19971 /\ getDayOfWeekFromDate 19971 = THURSDAY.
Proof. split; reflexivity. Qed.

(** ** The listings *)

Lemma insertSorted_perm {A} (cmp : A -> A -> JSNumber) (x : A) (l : list A) :
  Permutation (insertSorted cmp x l) (x :: l).
Proof.
  induction l as [|y l IH]; simpl; [reflexivity|].
  destruct (notAfter cmp x y); [reflexivity|].
  rewrite IH. apply perm_swap.
Qed.

(** Sorting keeps the rows: nothing is dropped, added or repeated. *)
Lemma sort_perm {A} (cmp : A -> A -> JSNumber) (l : list A) :
  Permutation (sort cmp l) l.
Proof.
  induction l as [|x l IH]; simpl; [reflexivity|].
  rewrite insertSorted_perm. now constructor.
Qed.

Lemma map_slot_withTeacher (db : DB) (l : list TimetableSlot) :
  map ClassRow.slot (map (withTeacher db) l) = l.
Proof.
  rewrite map_map. simpl. apply map_id.
Qed.

Lemma rows_nonempty {A} (l : list A) :
  l <> [] -> (0 <? List.length l)%nat = true.
Proof. destruct l; [congruence|reflexivity]. Qed.

Section Listings.

Variable utcDayOf : string -> option Date.

(** C5.  For a class and section, with a date that the runtime reads as
    the day [targetDate], the listing answers exactly the stored slots of
    the class and section with that date when there is one, and otherwise
    exactly its weekly slots (no date) on the day of the week of
    [targetDate]; so the rows answered all carry [targetDate] or all carry
    no date.  Without a date it answers exactly the weekly slots of the
    class and section.  ("Exactly": the same rows, as often, in the order
    of the closing sort.) *)
Theorem class_effective_schedule (db : DB) (studentClass : string)
  (sectionParam : option string) :
  studentClass <> "" ->
  let inScope := fun s =>
    String.eqb (currentClass s) studentClass
    && optEqb String.eqb (section s) (orNull sectionParam) in
  (forall dateString targetDate,
      dateString <> "" ->
      utcDayOf dateString = Some targetDate ->
      let dated :=
        filter (fun s => inScope s && optEqb Z.eqb (date s) (Some targetDate))
          (timetableSlots db) in
      let weeklyOnDay :=
        filter (fun s => inScope s
                         && DayOfWeek_eqb (dayOfWeek s)
                              (getDayOfWeekFromDate targetDate)
                         && optEqb Z.eqb (date s) None)
          (timetableSlots db) in
      exists rows,
        getTimetableForClassSection utcDayOf db studentClass sectionParam
          (Some dateString) = inr rows
        /\ (dated <> [] -> Permutation (map ClassRow.slot rows) dated)
        /\ (dated = [] -> Permutation (map ClassRow.slot rows) weeklyOnDay)
        /\ (Forall (fun r => date (ClassRow.slot r) = Some targetDate) rows
            \/ Forall (fun r => date (ClassRow.slot r) = None) rows))
  /\ (forall queryDateString,
         truthy queryDateString = false ->
         exists rows,
           getTimetableForClassSection utcDayOf db studentClass sectionParam
             queryDateString = inr rows
           /\ Permutation (map ClassRow.slot rows)
                (filter (fun s => inScope s && optEqb Z.eqb (date s) None)
                   (timetableSlots db))).
Proof.
  intros Hc inScope. apply String.eqb_neq in Hc.
  assert (Hrows : forall l,
             Permutation
               (map ClassRow.slot (sort compareClassRows (map (withTeacher db) l)))
               l).
  { intros l. rewrite <- (map_slot_withTeacher db l) at 2.
    apply Permutation_map, sort_perm. }
  assert (Hall : forall (P : TimetableSlot -> Prop) l,
             Forall P l ->
             Forall (fun r => P (ClassRow.slot r))
               (sort compareClassRows (map (withTeacher db) l))).
  { intros P l Hl. apply Forall_forall. intros r Hr.
    eapply Permutation_in in Hr; [|apply sort_perm].
    apply in_map_iff in Hr. destruct Hr as (s & <- & Hs).
    rewrite Forall_forall in Hl. now apply Hl. }
  split.
  - intros ds targetDate Hne Hd dated weeklyOnDay.
    apply String.eqb_neq in Hne.
    unfold getTimetableForClassSection, bind, rejectIf.
    rewrite Hc. cbn [truthy strOf]. rewrite Hne. cbn [negb]. rewrite Hd.
    change (classSlotsOnDate db studentClass sectionParam targetDate) with dated.
    change (classWeeklySlotsOnDay db studentClass sectionParam
              (getDayOfWeekFromDate targetDate)) with weeklyOnDay.
    destruct dated as [|s0 dated'] eqn:Edated.
    + cbn [List.length Nat.ltb Nat.leb]. eexists. split; [reflexivity|].
      split; [congruence|]. split; [intros _; apply Hrows|].
      right. apply (Hall (fun s => date s = None)).
      apply Forall_forall. intros s Hs.
      apply filter_In in Hs. destruct Hs as [_ Hs].
      apply andb_prop in Hs. destruct Hs as [_ Hs].
      now apply optEqb_Z_eq in Hs.
    + cbn [List.length Nat.ltb Nat.leb]. eexists. split; [reflexivity|].
      split; [intros _; apply Hrows|]. split; [discriminate|].
      left. apply (Hall (fun s => date s = Some targetDate)).
      rewrite <- Edated. apply Forall_forall. intros s Hs.
      apply filter_In in Hs. destruct Hs as [_ Hs].
      apply andb_prop in Hs. destruct Hs as [_ Hs].
      now apply optEqb_Z_eq in Hs.
  - intros q Hq.
    unfold getTimetableForClassSection, bind, rejectIf.
    rewrite Hc, Hq. eexists. split; [reflexivity|]. apply Hrows.
Qed.

End Listings.

Example isoDate_2024_10_10 :
  isoDate "2024-10-10" = Some 20006 /\ getDayOfWeekFromDate 20006 = THURSDAY
  /\ isoDate "2024-12-02" = Some 20059 /\ getDayOfWeekFromDate 20059 = MONDAY.
Proof. repeat split; reflexivity. Qed.

Lemma class_effective_schedule_witness :
  "Grade10" <> "" /\ "2024-10-10" <> "" /\ isoDate "2024-10-10" = Some 20006
  /\ exists rows,
      getTimetableForClassSection isoDate listingDB "Grade10" (Some "A")
        (Some "2024-10-10") = inr rows
      /\ Permutation (map ClassRow.slot rows) [alternate2; alternate1].
Proof.
  assert (H1 : "Grade10" <> "") by discriminate.
  assert (H2 : "2024-10-10" <> "") by discriminate.
  assert (H3 : isoDate "2024-10-10" = Some 20006) by reflexivity.
  repeat (split; [assumption|]).
  destruct (proj1 (class_effective_schedule isoDate listingDB "Grade10"
                     (Some "A") H1) "2024-10-10" 20006 H2 H3)
    as (rows & Hr & Hp & _).
  exists rows. split; [assumption|]. apply Hp. discriminate.
Defined.

Lemma optEqb_string_eq (a b : option string) :
  optEqb String.eqb a b = true <-> a = b.
Proof.
  destruct a as [x|], b as [y|]; simpl; split; try congruence.
  - intros H. apply String.eqb_eq in H. congruence.
  - intros H. injection H as ->. apply String.eqb_refl.
Qed.

Lemma isNull_true {A} (o : option A) : isNull o = true <-> o = None.
Proof. destruct o; simpl; split; congruence. Qed.

Lemma map_slot_finalSlot (db : DB) (viewer : string) (l : list TimetableSlot) :
  map TeacherRow.slot (map (fun s => finalSlot viewer (withRelations db s)) l) = l.
Proof.
  rewrite map_map. simpl. apply map_id.
Qed.

Section TeacherListing.

Variable utcDayOf : string -> option Date.

(** The rows of the teacher's listing are the effective slots, sorted. *)
Lemma getTeacherTimetable_rows (db : DB) (viewer : string) (q : option string)
  (effective : list TimetableSlot) :
  effectiveSlotsForTeacher utcDayOf db viewer q = inr effective ->
  exists rows,
    getTeacherTimetable utcDayOf db viewer q = inr rows
    /\ forall s, In s (map TeacherRow.slot rows) <-> In s effective.
Proof.
  intros H. unfold getTeacherTimetable, bind. rewrite H.
  eexists. split; [reflexivity|]. intros s.
  assert (P : Permutation
                (map TeacherRow.slot
                   (sort compareTeacherRows
                      (map (fun s => finalSlot viewer (withRelations db s))
                         effective)))
                effective).
  { rewrite <- (map_slot_finalSlot db viewer effective) at 2.
    apply Permutation_map, sort_perm. }
  split; intros Hin.
  - eapply Permutation_in; eassumption.
  - eapply Permutation_in; [apply Permutation_sym|]; eassumption.
Qed.

(** Every effective slot of a teacher is a stored slot that the teacher
    substitutes, or teaches with no substitute. *)
Lemma effectiveSlotsForTeacher_sound (db : DB) (viewer : string)
  (q : option string) (effective : list TimetableSlot) (s : TimetableSlot) :
  effectiveSlotsForTeacher utcDayOf db viewer q = inr effective ->
  In s effective ->
  In s (timetableSlots db)
  /\ (substituteTeacherId s = Some viewer
      \/ (teacherId s = Some viewer /\ substituteTeacherId s = None)).
Proof.
  unfold effectiveSlotsForTeacher, findMany.
  destruct (truthy q); [destruct (utcDayOf (strOf q)); [|discriminate]|];
    [match goal with |- context [if ?c then _ else _] => destruct c end|];
    intros [= <-] Hin; apply in_app_or in Hin; destruct Hin as [Hin|Hin];
    apply filter_In in Hin; destruct Hin as [Hin Hp];
    rewrite !andb_true_iff in Hp;
    rewrite ?optEqb_string_eq, ?isNull_true in Hp;
    intuition auto.
Qed.

(** C6.  In a teacher's listing for a date, every stored slot of that date
    with the teacher as its substitute is listed; when the teacher has no
    slot of that date at all (as teacher or as substitute), the weekly
    slots of that day of the week with the teacher as substitute are
    listed; without a date, every weekly slot with the teacher as
    substitute is listed.  In none of the listings is there a slot whose
    teacher is the viewer and whose substitute is another teacher. *)
Theorem teacher_effective_schedule (db : DB) (viewer : string) :
  (forall dateString targetDate,
      dateString <> "" ->
      utcDayOf dateString = Some targetDate ->
      exists rows,
        getTeacherTimetable utcDayOf db viewer (Some dateString) = inr rows
        /\ (forall s,
               In s (timetableSlots db) ->
               substituteTeacherId s = Some viewer ->
               date s = Some targetDate ->
               In s (map TeacherRow.slot rows))
        /\ (forall s,
               (forall s', In s' (timetableSlots db) ->
                           date s' = Some targetDate ->
                           teacherId s' <> Some viewer
                           /\ substituteTeacherId s' <> Some viewer) ->
               In s (timetableSlots db) ->
               substituteTeacherId s = Some viewer ->
               date s = None ->
               dayOfWeek s = getDayOfWeekFromDate targetDate ->
               In s (map TeacherRow.slot rows))
        /\ (forall s other,
               teacherId s = Some viewer ->
               substituteTeacherId s = Some other ->
               other <> viewer ->
               ~ In s (map TeacherRow.slot rows)))
  /\ (forall queryDateString,
         truthy queryDateString = false ->
         exists rows,
           getTeacherTimetable utcDayOf db viewer queryDateString = inr rows
           /\ (forall s,
                  In s (timetableSlots db) ->
                  substituteTeacherId s = Some viewer ->
                  date s = None ->
                  In s (map TeacherRow.slot rows))
           /\ (forall s other,
                  teacherId s = Some viewer ->
                  substituteTeacherId s = Some other ->
                  other <> viewer ->
                  ~ In s (map TeacherRow.slot rows))).
Proof.
  assert (Hexcl : forall q effective,
             effectiveSlotsForTeacher utcDayOf db viewer q = inr effective ->
             forall s other,
               teacherId s = Some viewer ->
               substituteTeacherId s = Some other ->
               other <> viewer ->
               ~ In s effective).
  { intros q effective He s other Ht Hs Hne Hin.
    destruct (effectiveSlotsForTeacher_sound _ _ _ _ _ He Hin)
      as (_ & [H|[_ H]]); congruence. }
  split.
  - intros ds targetDate Hne Hd. apply String.eqb_neq in Hne.
    destruct (effectiveSlotsForTeacher utcDayOf db viewer (Some ds))
      as [e|effective] eqn:He.
    { exfalso. revert He. unfold effectiveSlotsForTeacher.
      cbn [truthy strOf]. rewrite Hne. cbn [negb]. rewrite Hd.
      destruct (_ || _); discriminate. }
    destruct (getTeacherTimetable_rows _ _ _ _ He) as (rows & Hr & Hrows).
    exists rows. split; [assumption|].
    split; [|split].
    + intros s Hin Hsub Hdate. apply Hrows.
      revert He. unfold effectiveSlotsForTeacher, findMany.
      cbn [truthy strOf]. rewrite Hne. cbn [negb]. rewrite Hd.
      assert (Hs : In s (filter
                           (fun s => optEqb String.eqb (substituteTeacherId s)
                                       (Some viewer)
                                     && optEqb Z.eqb (date s) (Some targetDate))
                           (timetableSlots db))).
      { apply filter_In. split; [assumption|].
        apply andb_true_intro.
        split; [now apply optEqb_string_eq|now apply optEqb_Z_eq]. }
      rewrite (rows_nonempty _ (fun E => eq_ind _ (fun l => In s l) Hs _ E)).
      cbn [orb]. intros [= <-]. apply in_or_app. now left.
    + intros s Hnone Hin Hsub Hdate Hday. apply Hrows.
      revert He. unfold effectiveSlotsForTeacher, findMany.
      cbn [truthy strOf]. rewrite Hne. cbn [negb]. rewrite Hd.
      assert (Hempty : forall f,
                 (forall x, f x = true ->
                            (teacherId x = Some viewer
                             \/ substituteTeacherId x = Some viewer)
                            /\ date x = Some targetDate) ->
                 filter f (timetableSlots db) = []).
      { intros f Hf. apply filter_none. apply Forall_forall. intros x Hx.
        destruct (f x) eqn:Efx; [|reflexivity].
        destruct (Hf x Efx) as [Hv Hdx].
        destruct (Hnone x Hx Hdx). destruct Hv; contradiction. }
      rewrite (Hempty (fun s =>
                 optEqb String.eqb (substituteTeacherId s) (Some viewer)
                 && optEqb Z.eqb (date s) (Some targetDate))),
        (Hempty (fun s =>
                 optEqb String.eqb (teacherId s) (Some viewer)
                 && optEqb Z.eqb (date s) (Some targetDate)
                 && isNull (substituteTeacherId s))),
        (Hempty (fun s =>
                 optEqb String.eqb (teacherId s) (Some viewer)
                 && optEqb Z.eqb (date s) (Some targetDate)
                 && negb (isNull (substituteTeacherId s)))).
      * cbn [List.length Nat.ltb Nat.leb orb]. intros [= <-].
        apply in_or_app. right. apply filter_In. split; [assumption|].
        rewrite !andb_true_iff. repeat split.
        -- now apply optEqb_string_eq.
        -- rewrite Hday. now destruct (getDayOfWeekFromDate targetDate).
        -- now apply isNull_true.
      * intros x Hx. rewrite !andb_true_iff in Hx.
        rewrite optEqb_string_eq, optEqb_Z_eq in Hx. intuition auto.
      * intros x Hx. rewrite !andb_true_iff in Hx.
        rewrite optEqb_string_eq, optEqb_Z_eq in Hx. intuition auto.
      * intros x Hx. rewrite !andb_true_iff in Hx.
        rewrite optEqb_string_eq, optEqb_Z_eq in Hx. intuition auto.
    + intros s other Ht Hs Hno Hin. apply Hrows in Hin.
      exact (Hexcl _ _ He s other Ht Hs Hno Hin).
  - intros q Hq.
    destruct (effectiveSlotsForTeacher utcDayOf db viewer q)
      as [e|effective] eqn:He.
    { exfalso. revert He. unfold effectiveSlotsForTeacher. rewrite Hq.
      discriminate. }
    destruct (getTeacherTimetable_rows _ _ _ _ He) as (rows & Hr & Hrows).
    exists rows. split; [assumption|]. split.
    + intros s Hin Hsub Hdate. apply Hrows.
      revert He. unfold effectiveSlotsForTeacher, findMany. rewrite Hq.
      intros [= <-]. apply in_or_app. right. apply filter_In.
      split; [assumption|]. apply andb_true_intro.
      split; [now apply optEqb_string_eq|now apply isNull_true].
    + intros s other Ht Hs Hno Hin. apply Hrows in Hin.
      exact (Hexcl _ _ He s other Ht Hs Hno Hin).
Qed.

End TeacherListing.

Lemma teacher_effective_schedule_witness :
  (exists rows,
      getTeacherTimetable isoDate substitutionDB "t2" (Some "2024-12-02")
      = inr rows
      /\ In subbedOnDate (map TeacherRow.slot rows))
  /\ (exists rows,
         getTeacherTimetable isoDate substitutionDB "t1" (Some "2024-12-02")
         = inr rows
         /\ ~ In subbedOnDate (map TeacherRow.slot rows)).
Proof.
  assert (Hne : "2024-12-02" <> "") by discriminate.
  assert (Hd : isoDate "2024-12-02" = Some 20059) by reflexivity.
  split.
  - destruct (proj1 (teacher_effective_schedule isoDate substitutionDB "t2")
                "2024-12-02" 20059 Hne Hd) as (rows & Hr & Hsub & _).
    exists rows. split; [assumption|].
    apply Hsub; [left; reflexivity|reflexivity|reflexivity].
  - destruct (proj1 (teacher_effective_schedule isoDate substitutionDB "t1")
                "2024-12-02" 20059 Hne Hd) as (rows & Hr & _ & _ & Hexcl).
    exists rows. split; [assumption|].
    apply (Hexcl subbedOnDate "t2"); [reflexivity|reflexivity|discriminate].
Defined.

(** ** The substitute assignment manager *)

Lemma withSubstitute_frame (sub : option string) (s : TimetableSlot) :
  sameButSubstitute (withSubstitute sub s) s
  /\ substituteTeacherId (withSubstitute sub s) = sub.
Proof. unfold sameButSubstitute. simpl. auto 12. Qed.

Lemma updateSubstitute_frame (db : DB) (sid : string) (sub : option string) :
  onlySubstituteWritten sid sub
    (timetableSlots (updateSubstitute db sid sub)) (timetableSlots db)
  /\ users (updateSubstitute db sid sub) = users db.
Proof.
  split; [|reflexivity].
  unfold onlySubstituteWritten. cbn [updateSubstitute timetableSlots].
  induction (timetableSlots db) as [|s l IH]; simpl; constructor; auto.
  destruct (String.eqb (id s) sid) eqn:E.
  - split; [apply withSubstitute_frame|].
    apply String.eqb_eq in E. split; [congruence|reflexivity].
  - apply String.eqb_neq in E.
    split; [unfold sameButSubstitute; auto 12|]. split; congruence.
Qed.

(** C8.  A successful [assignSubstituteTeacher] answers the slot found by
    [timetableSlotId] with [substituteTeacherId] set to the substitute and
    every other column, [teacherId] among them, as stored before; in the
    table the rows with that id change in this way and every other row,
    and the users, stay.  [clearSubstituteTeacher] succeeds on every slot
    that exists and does the same with [substituteTeacherId] null. *)
Theorem substitute_changes_only_substituteTeacherId (db : DB) :
  (forall p db' r,
      assignSubstituteTeacher db p = (db', inr r) ->
      exists sid sub old,
        AssignSubstitutePayload.timetableSlotId p = Some sid
        /\ AssignSubstitutePayload.substituteTeacherId p = Some sub
        /\ findUnique db sid = Some old
        /\ sameButSubstitute (TimetableSlotWithRelations.slot r) old
        /\ substituteTeacherId (TimetableSlotWithRelations.slot r) = Some sub
        /\ onlySubstituteWritten sid (Some sub)
             (timetableSlots db') (timetableSlots db)
        /\ users db' = users db)
  /\ (forall sid old,
         sid <> "" ->
         findUnique db sid = Some old ->
         exists db' r,
           clearSubstituteTeacher db (Some sid) = (db', inr r))
  /\ (forall q db' r,
         clearSubstituteTeacher db q = (db', inr r) ->
         exists sid old,
           q = Some sid
           /\ findUnique db sid = Some old
           /\ sameButSubstitute (TimetableSlotWithRelations.slot r) old
           /\ substituteTeacherId (TimetableSlotWithRelations.slot r) = None
           /\ onlySubstituteWritten sid None
                (timetableSlots db') (timetableSlots db)
           /\ users db' = users db).
Proof.
  split; [|split].
  - intros p db' r. unfold assignSubstituteTeacher.
    destruct (AssignSubstitutePayload.timetableSlotId p) as [sid|];
      [|simpl; discriminate].
    destruct (AssignSubstitutePayload.substituteTeacherId p) as [sub|];
      [|simpl; rewrite orb_true_r; discriminate].
    cbn [strOf].
    destruct (_ || _); [discriminate|].
    destruct (findUnique db sid) as [old|] eqn:Hold; [|discriminate].
    destruct (findTeacher db sub); [|discriminate].
    destruct (_ && _); [discriminate|].
    destruct (firstOverlap _ _ _); [discriminate|].
    destruct (optEqb _ _ _); [discriminate|].
    intros [= <- <-].
    exists sid, sub, old. repeat (split; [first [reflexivity|assumption]|]).
    cbn [withRelations TimetableSlotWithRelations.slot].
    split; [apply (proj1 (withSubstitute_frame _ _))|].
    split; [reflexivity|]. apply updateSubstitute_frame.
  - intros sid old Hne Hold. apply String.eqb_neq in Hne.
    unfold clearSubstituteTeacher. cbn [truthy strOf]. rewrite Hne, Hold.
    cbn [negb]. eexists. eexists. reflexivity.
  - intros q db' r. unfold clearSubstituteTeacher.
    destruct q as [sid|]; [|simpl; discriminate].
    cbn [truthy strOf]. destruct (String.eqb sid ""); [discriminate|].
    cbn [negb].
    destruct (findUnique db sid) as [old|] eqn:Hold; [|discriminate].
    intros [= <- <-]. exists sid, old. repeat (split; [first [reflexivity|assumption]|]).
    cbn [withRelations TimetableSlotWithRelations.slot].
    split; [apply (proj1 (withSubstitute_frame _ _))|].
    split; [reflexivity|]. apply updateSubstitute_frame.
Qed.

Lemma substitute_changes_only_substituteTeacherId_witness :
  (let a := assignSubstituteTeacher (mkDB someUsers [mathsMonday; weeklyFriday] 3)
              (AssignSubstitutePayload.mk (Some "s3") (Some "t2")) in
   exists r,
     snd a = inr r
     /\ teacherId (TimetableSlotWithRelations.slot r) = Some "t1"
     /\ substituteTeacherId (TimetableSlotWithRelations.slot r) = Some "t2"
     /\ sameButSubstitute (TimetableSlotWithRelations.slot r) mathsMonday)
  /\ (let c := clearSubstituteTeacher (mkDB someUsers [mathsMondaySubstituted] 2)
                 (Some "s3") in
      exists r,
        snd c = inr r
        /\ teacherId (TimetableSlotWithRelations.slot r) = Some "t1"
        /\ substituteTeacherId (TimetableSlotWithRelations.slot r) = None
        /\ sameButSubstitute (TimetableSlotWithRelations.slot r)
             mathsMondaySubstituted).
Proof.
  cbv zeta. split.
  - eexists. split; [vm_compute; reflexivity|].
    destruct (proj1 (substitute_changes_only_substituteTeacherId
                       (mkDB someUsers [mathsMonday; weeklyFriday] 3))
                (AssignSubstitutePayload.mk (Some "s3") (Some "t2")) _ _
                eq_refl)
      as (sid & sub & old & Hsid & Hsub & Hold & Hsame & Hset & _).
    injection Hsid as <-. injection Hsub as <-.
    vm_compute in Hold. injection Hold as <-.
    repeat split; try reflexivity; apply Hsame.
  - eexists. split; [vm_compute; reflexivity|].
    destruct (proj2 (proj2 (substitute_changes_only_substituteTeacherId
                              (mkDB someUsers [mathsMondaySubstituted] 2)))
                (Some "s3") _ _ eq_refl)
      as (sid & old & Hsid & Hold & Hsame & Hset & _).
    injection Hsid as <-.
    vm_compute in Hold. injection Hold as <-.
    repeat split; try reflexivity; apply Hsame.
Defined.

(** C9.  Asking for the teacher of an existing slot as the substitute of
    that slot is answered 400, whatever else is stored (so whatever the
    teacher's other commitments are), and nothing is written.  When the
    slot has a teacher, both ids are non-empty and the user is a teacher,
    the message is the one of the self-substitution check, which comes
    before the conflict check; otherwise an earlier validation answers. *)
Theorem self_substitution_rejected (db : DB) (sid : string)
  (slot : TimetableSlot) :
  findUnique db sid = Some slot ->
  exists message,
    assignSubstituteTeacher db
      (AssignSubstitutePayload.mk (Some sid) (teacherId slot))
    = (db, inl (ValidationError message))
    /\ (forall t,
           teacherId slot = Some t ->
           sid <> "" -> t <> "" -> findTeacher db t <> None ->
           message
           = "Teacher cannot be assigned as a substitute for their own original slot.").
Proof.
  intros Hslot. unfold assignSubstituteTeacher.
  cbn [AssignSubstitutePayload.timetableSlotId
         AssignSubstitutePayload.substituteTeacherId truthy strOf].
  destruct (String.eqb sid "") eqn:Es.
  { eexists. split; [reflexivity|]. apply String.eqb_eq in Es. congruence. }
  destruct (teacherId slot) as [t|] eqn:Ht.
  2:{ eexists. split; [reflexivity|]. discriminate. }
  cbn [truthy strOf].
  destruct (String.eqb t "") eqn:Et.
  { eexists. split; [reflexivity|]. apply String.eqb_eq in Et.
    intros t' [= <-]. congruence. }
  cbn [negb orb]. rewrite Hslot.
  destruct (findTeacher db t) as [u|] eqn:Ef.
  - rewrite Ht. cbn [truthy optEqb]. rewrite Et, String.eqb_refl. cbn [negb andb].
    eexists. split; reflexivity.
  - eexists. split; [reflexivity|]. intros t' [= <-]. congruence.
Qed.

Lemma self_substitution_rejected_witness :
  findUnique (mkDB someUsers [mathsMonday; chemistryMonday] 5) "s3"
  = Some mathsMonday
  /\ assignSubstituteTeacher (mkDB someUsers [mathsMonday; chemistryMonday] 5)
       (AssignSubstitutePayload.mk (Some "s3") (Some "t1"))
     = (mkDB someUsers [mathsMonday; chemistryMonday] 5,
        inl (ValidationError
               "Teacher cannot be assigned as a substitute for their own original slot.")).
Proof.
  assert (H : findUnique (mkDB someUsers [mathsMonday; chemistryMonday] 5) "s3"
              = Some mathsMonday) by reflexivity.
  split; [exact H|].
  destruct (self_substitution_rejected _ _ _ H) as (message & Hr & Hm).
  rewrite (Hm "t1") in Hr.
  - exact Hr.
  - reflexivity.
  - discriminate.
  - discriminate.
  - discriminate.
Defined.

(* ================================================================= *)
(** * Further properties *)

(** ** Time strings and days *)

Lemma digitValue_inj (c c' : ascii) :
  digitValue c = digitValue c' -> c = c'.
Proof.
  unfold digitValue. intros H.
  assert (Hn : nat_of_ascii c = nat_of_ascii c') by lia.
  rewrite <- (ascii_nat_embedding c), <- (ascii_nat_embedding c').
  now rewrite Hn.
Qed.

(** The character of a decimal digit *)
Lemma digit_char (k : Z) :
  0 <= k <= 9 ->
  exists c, isDigit c = true /\ digitValue c = k.
Proof.
  intros Hk. exists (ascii_of_nat (48 + Z.to_nat k)).
  assert (Hc : k = 0 \/ k = 1 \/ k = 2 \/ k = 3 \/ k = 4 \/ k = 5 \/ k = 6
               \/ k = 7 \/ k = 8 \/ k = 9) by lia.
  repeat (destruct Hc as [->|Hc]; [split; reflexivity|]).
  subst k. split; reflexivity.
Qed.

Lemma isValidTimeFormat_HHMM (h1 h2 m1 m2 : ascii) :
  isDigit h1 = true -> isDigit h2 = true ->
  isDigit m1 = true -> isDigit m2 = true ->
  let time := String h1 (String h2 (String ":" (String m1 (String m2 "")))) in
  isValidTimeFormat time
  = ((10 * digitValue h1 + digitValue h2 <=? 23)
     && (10 * digitValue m1 + digitValue m2 <=? 59))
  /\ timeToMinutes time
     = Some ((10 * digitValue h1 + digitValue h2) * 60
             + (10 * digitValue m1 + digitValue m2)).
Proof.
  intros H1 H2 H3 H4 time.
  pose proof (isDigit_value _ H1). pose proof (isDigit_value _ H2).
  pose proof (isDigit_value _ H3). pose proof (isDigit_value _ H4).
  unfold isValidTimeFormat, timeToMinutes, time.
  rewrite (timeToMinutes_HHMM _ _ _ _ H1 H2 H3 H4).
  cbn [matchesHHMM]. rewrite H1, H2, H3, H4.
  cbn [andb negb Ascii.eqb Bool.eqb nth jsGe jsLe jsCmp jsAdd jsMul jsBin].
  replace (10 * (10 * 0 + digitValue h1) + digitValue h2)
    with (10 * digitValue h1 + digitValue h2) by lia.
  replace (10 * (10 * 0 + digitValue m1) + digitValue m2)
    with (10 * digitValue m1 + digitValue m2) by lia.
  split; [|reflexivity].
  assert (Ha : (10 * digitValue h1 + digitValue h2 >=? 0) = true)
    by (apply Z.geb_le; lia).
  assert (Hb : (10 * digitValue m1 + digitValue m2 >=? 0) = true)
    by (apply Z.geb_le; lia).
  rewrite Ha, Hb. cbn [andb]. now rewrite andb_true_r.
Qed.

(** X1.  [timeToMinutes] is one-to-one from the strings that
    [isValidTimeFormat] accepts onto the minutes 0..1439 of a day: two
    accepted strings with the same minutes are the same string, and every
    minute of the day is the value of an accepted string. *)
Theorem timeToMinutes_bijective :
  (forall s t,
      isValidTimeFormat s = true -> isValidTimeFormat t = true ->
      timeToMinutes s = timeToMinutes t -> s = t)
  /\ (forall m,
         0 <= m <= 1439 ->
         exists s, isValidTimeFormat s = true /\ timeToMinutes s = Some m).
Proof.
  split.
  - intros s t Hs Ht Heq.
    assert (Ms : matchesHHMM s = true).
    { unfold isValidTimeFormat in Hs. now destruct (matchesHHMM s). }
    assert (Mt : matchesHHMM t = true).
    { unfold isValidTimeFormat in Ht. now destruct (matchesHHMM t). }
    destruct (matchesHHMM_shape _ Ms) as (a & b & c & d & -> & A & B & C & D).
    destruct (matchesHHMM_shape _ Mt) as (a' & b' & c' & d' & -> & A' & B' & C' & D').
    destruct (isValidTimeFormat_HHMM a b c d A B C D) as [Vs Es].
    destruct (isValidTimeFormat_HHMM a' b' c' d' A' B' C' D') as [Vt Et].
    cbv zeta in Vs, Es, Vt, Et.
    rewrite Vs in Hs. rewrite Vt in Ht. rewrite Es, Et in Heq.
    apply andb_prop in Hs, Ht. destruct Hs as [_ Hs]. destruct Ht as [_ Ht].
    apply Z.leb_le in Hs, Ht.
    assert (Heq' : (10 * digitValue a + digitValue b) * 60
                   + (10 * digitValue c + digitValue d)
                   = (10 * digitValue a' + digitValue b') * 60
                     + (10 * digitValue c' + digitValue d')) by congruence.
    clear Heq. rename Heq' into Heq.
    pose proof (isDigit_value _ A). pose proof (isDigit_value _ B).
    pose proof (isDigit_value _ C). pose proof (isDigit_value _ D).
    pose proof (isDigit_value _ A'). pose proof (isDigit_value _ B').
    pose proof (isDigit_value _ C'). pose proof (isDigit_value _ D').
    assert (Hh : 10 * digitValue a + digitValue b
                 = 10 * digitValue a' + digitValue b') by lia.
    assert (Hmi : 10 * digitValue c + digitValue d
                  = 10 * digitValue c' + digitValue d') by lia.
    assert (digitValue a = digitValue a') by lia.
    assert (digitValue b = digitValue b') by lia.
    assert (digitValue c = digitValue c') by lia.
    assert (digitValue d = digitValue d') by lia.
    clear Hh Hmi Heq.
    repeat match goal with
           | H : digitValue _ = digitValue _ |- _ =>
               apply digitValue_inj in H; subst
           end.
    reflexivity.
  - intros m Hm.
    pose proof (Z.div_mod m 60 ltac:(lia)) as Dm.
    pose proof (Z.mod_pos_bound m 60 ltac:(lia)) as Bm.
    set (h := m / 60) in *. set (mi := m mod 60) in *.
    assert (Hh : 0 <= h <= 23) by lia.
    pose proof (Z.div_mod h 10 ltac:(lia)) as Dh.
    pose proof (Z.mod_pos_bound h 10 ltac:(lia)) as Bh.
    pose proof (Z.div_mod mi 10 ltac:(lia)) as Di.
    pose proof (Z.mod_pos_bound mi 10 ltac:(lia)) as Bi.
    destruct (digit_char (h / 10) ltac:(lia)) as (a & A & Va).
    destruct (digit_char (h mod 10) ltac:(lia)) as (b & B & Vb).
    destruct (digit_char (mi / 10) ltac:(lia)) as (c & C & Vc).
    destruct (digit_char (mi mod 10) ltac:(lia)) as (d & D & Vd).
    exists (String a (String b (String ":" (String c (String d ""))))).
    destruct (isValidTimeFormat_HHMM a b c d A B C D) as [V E].
    cbv zeta in V, E. rewrite V, E, Va, Vb, Vc, Vd. split.
    + apply andb_true_intro. split; apply Z.leb_le; lia.
    + f_equal. lia.
Qed.

(** X2.  [getDayOfWeekFromDate] always reads inside its table of seven
    days; the day after a date has the next day of the week (SUNDAY
    followed by MONDAY), and the date a week later has the same one. *)
Theorem getDayOfWeekFromDate_cycle (date : Date) :
  nth_error [SUNDAY; MONDAY; TUESDAY; WEDNESDAY; THURSDAY; FRIDAY; SATURDAY]
    (Z.to_nat (getUTCDay date))
  = Some (getDayOfWeekFromDate date)
  /\ dayOrder (getDayOfWeekFromDate (date + 1))
     = dayOrder (getDayOfWeekFromDate date) mod 7 + 1
  /\ getDayOfWeekFromDate (date + 7) = getDayOfWeekFromDate date.
Proof.
  unfold getDayOfWeekFromDate, getUTCDay.
  replace ((date + 7 + 4) mod 7) with ((date + 4) mod 7)
    by (replace (date + 7 + 4) with (date + 4 + 1 * 7) by lia;
        now rewrite Z.mod_add by lia).
  replace ((date + 1 + 4) mod 7) with (((date + 4) mod 7 + 1) mod 7)
    by (rewrite Zplus_mod_idemp_l; f_equal; lia).
  pose proof (Z.mod_pos_bound (date + 4) 7 ltac:(lia)) as Hk.
  remember ((date + 4) mod 7) as k eqn:Ek. clear Ek.
  assert (Hc : k = 0 \/ k = 1 \/ k = 2 \/ k = 3 \/ k = 4 \/ k = 5 \/ k = 6)
    by lia.
  clear Hk.
  repeat (destruct Hc as [Hc|Hc]; [subst k; repeat split; reflexivity|]).
  subst k. repeat split; reflexivity.
Qed.

(** X3.  On two time ranges that each start before they end,
    [doTimeSlotsOverlap] holds exactly when each range starts before the
    other ends (the condition its comment gives); such a range overlaps
    itself; and a range with a time that is not a number overlaps
    nothing. *)
Theorem doTimeSlotsOverlap_condition (t1Start t1End t2Start t2End : string) :
  (forall start1 end1 start2 end2,
      timeToMinutes t1Start = Some start1 -> timeToMinutes t1End = Some end1 ->
      timeToMinutes t2Start = Some start2 -> timeToMinutes t2End = Some end2 ->
      start1 < end1 -> start2 < end2 ->
      (doTimeSlotsOverlap t1Start t1End t2Start t2End = true
       <-> start1 < end2 /\ start2 < end1)
      /\ doTimeSlotsOverlap t1Start t1End t1Start t1End = true)
  /\ (timeToMinutes t1Start = None \/ timeToMinutes t1End = None
      \/ timeToMinutes t2Start = None \/ timeToMinutes t2End = None ->
      doTimeSlotsOverlap t1Start t1End t2Start t2End = false).
Proof.
  unfold doTimeSlotsOverlap. split.
  - intros s1 e1 s2 e2 -> -> -> -> H1 H2. simpl. split.
    + rewrite Z.ltb_lt. lia.
    + apply Z.ltb_lt. lia.
  - intros [H|[H|[H|H]]]; rewrite H;
      destruct (timeToMinutes t1Start), (timeToMinutes t1End),
        (timeToMinutes t2Start), (timeToMinutes t2End); reflexivity.
Qed.

Lemma doTimeSlotsOverlap_condition_witness :
  (doTimeSlotsOverlap "09:00" "10:00" "09:30" "10:30" = true
   <-> 540 < 630 /\ 570 < 600)
  /\ doTimeSlotsOverlap "09:00" "10:00" "09:00" "10:00" = true.
Proof.
  apply (proj1 (doTimeSlotsOverlap_condition "09:00" "10:00" "09:30" "10:30")
           540 600 570 630); try reflexivity.
Defined.

(** ** What the write handlers keep *)

Lemma truthy_ne (o : option string) :
  truthy o = true -> strOf o <> "" /\ o = Some (strOf o).
Proof.
  destruct o as [x|]; simpl; [|discriminate].
  intros H. apply negb_true_iff, String.eqb_neq in H. auto.
Qed.

Lemma emptyToNull_not_empty (o : option string) : emptyToNull o <> Some "".
Proof.
  destruct o as [x|]; simpl; [|discriminate].
  destruct (String.eqb x "") eqn:E; [discriminate|].
  apply String.eqb_neq in E. congruence.
Qed.

Lemma orNull_not_empty (o : option string) : orNull o <> Some "".
Proof.
  unfold orNull. destruct (truthy o) eqn:E; [|discriminate].
  destruct (truthy_ne _ E) as [Hne Ho]. rewrite Ho. congruence.
Qed.

Lemma orNull_Some (o : option string) (t : string) :
  orNull o = Some t -> truthy o = true /\ o = Some t.
Proof.
  unfold orNull. destruct (truthy o); [auto|discriminate].
Qed.

Lemma valid_times_ordered (a b : string) :
  isValidTimeFormat a = true -> isValidTimeFormat b = true ->
  jsGe (timeToMinutes a) (timeToMinutes b) = false ->
  jsLt (timeToMinutes a) (timeToMinutes b) = true.
Proof.
  intros Ha Hb.
  destruct (timeToMinutes_valid _ Ha) as (x & -> & _).
  destruct (timeToMinutes_valid _ Hb) as (y & -> & _).
  simpl. intros H. apply Z.ltb_lt. unfold Z.geb in H.
  destruct (x ?= y) eqn:E; try discriminate. now apply Z.compare_lt_iff.
Qed.

(** What the validations of [createOrUpdateTimetableSlot] have checked of
    a body they accept, and what they leave of it *)
Lemma validateSlot_checked (db : DB) (p : TimetableSlotPayload.t)
  (v : Validated.t) :
  validateSlot db p = inr v ->
  Validated.id v = TimetableSlotPayload.id p
  /\ Validated.startTime v = strOf (TimetableSlotPayload.startTime p)
  /\ Validated.endTime v = strOf (TimetableSlotPayload.endTime p)
  /\ Validated.currentClass v = strOf (TimetableSlotPayload.currentClass p)
  /\ Validated.subject v = strOf (TimetableSlotPayload.subject p)
  /\ Validated.section v = emptyToNull (TimetableSlotPayload.section p)
  /\ Validated.teacherId v = emptyToNull (TimetableSlotPayload.teacherId p)
  /\ isValidTimeFormat (Validated.startTime v) = true
  /\ isValidTimeFormat (Validated.endTime v) = true
  /\ jsLt (timeToMinutes (Validated.startTime v))
       (timeToMinutes (Validated.endTime v)) = true
  /\ Validated.currentClass v <> ""
  /\ Validated.subject v <> ""
  /\ (forall t, Validated.teacherId v = Some t -> findTeacher db t <> None).
Proof.
  unfold validateSlot, bind, rejectIf.
  match goal with
  | |- context [if (?a || ?b || ?c || ?d || ?e) then _ else _] =>
      destruct (a || b || c || d || e) eqn:Hreq; [discriminate|]
  end.
  destruct (DayOfWeek_of_string _); [|discriminate].
  match goal with
  | |- context [if (?a || ?b) then _ else _] =>
      destruct (a || b) eqn:Hfmt; [discriminate|]
  end.
  match goal with
  | |- context [if jsGe ?a ?b then _ else _] =>
      destruct (jsGe a b) eqn:Hord; [discriminate|]
  end.
  match goal with
  | |- context [if (?a && ?b) then _ else _] =>
      destruct (a && b) eqn:Hteacher; [discriminate|]
  end.
  intros [= <-]. cbn.
  apply orb_false_elim in Hreq. destruct Hreq as [Hreq Hsub].
  apply orb_false_elim in Hreq. destruct Hreq as [_ Hcls].
  apply negb_false_iff in Hsub, Hcls.
  apply orb_false_elim in Hfmt. destruct Hfmt as [Hs He].
  apply negb_false_iff in Hs, He.
  repeat (split; [reflexivity|]).
  split; [assumption|]. split; [assumption|].
  split; [now apply valid_times_ordered|].
  split; [apply (truthy_ne _ Hcls)|]. split; [apply (truthy_ne _ Hsub)|].
  intros t Ht. rewrite Ht in Hteacher. cbn [strOf] in Hteacher.
  assert (Htr : truthy (Some t) = true).
  { rewrite <- Ht. destruct (TimetableSlotPayload.teacherId p) as [x|];
      simpl in *; [|discriminate].
    destruct (String.eqb x "") eqn:E; [discriminate|]. simpl. now rewrite E. }
  rewrite Htr in Hteacher. simpl in Hteacher.
  destruct (findTeacher db t); [discriminate|discriminate].
Qed.

Lemma DayOfWeek_eqb_eq (a b : DayOfWeek) : DayOfWeek_eqb a b = true <-> a = b.
Proof. destruct a, b; simpl; split; congruence. Qed.

Lemma orNull_eq_emptyToNull (o : option string) : orNull o = emptyToNull o.
Proof.
  destruct o as [x|]; [|reflexivity]. unfold orNull. simpl.
  destruct (String.eqb x ""); reflexivity.
Qed.

Lemma jsLt_Some (x y : JSNumber) :
  jsLt x y = true -> exists a b, x = Some a /\ y = Some b /\ a < b.
Proof.
  destruct x as [a|], y as [b|]; simpl; try discriminate.
  intros H. apply Z.ltb_lt in H. eauto.
Qed.

Lemma wellFormedSlot_users (db db' : DB) (s : TimetableSlot) :
  users db' = users db -> wellFormedSlot db s -> wellFormedSlot db' s.
Proof.
  unfold wellFormedSlot, findTeacher. intros ->. exact (fun H => H).
Qed.

Lemma wellFormedSlot_withId (db : DB) (i : string) (s : TimetableSlot) :
  wellFormedSlot db s -> wellFormedSlot db (withId i s).
Proof. exact (fun H => H). Qed.

Lemma wellFormedSlot_withSubstitute (db : DB) (sub : option string)
  (s : TimetableSlot) :
  wellFormedSlot db s ->
  (forall t, sub = Some t -> findTeacher db t <> None) ->
  wellFormedSlot db (withSubstitute sub s).
Proof.
  unfold wellFormedSlot. cbn. intros (H1 & H2 & H3 & H4 & H5 & H6 & H7 & H8 & _) Hs.
  auto 12.
Qed.

Lemma findUnique_In (db : DB) (sid : string) (s : TimetableSlot) :
  findUnique db sid = Some s -> In s (timetableSlots db) /\ id s = sid.
Proof.
  unfold findUnique. intros H. apply find_some in H.
  destruct H as [Hin Heq]. apply String.eqb_eq in Heq. auto.
Qed.

Lemma firstOverlap_Some (rows : list TimetableSlot) (a b : string)
  (s : TimetableSlot) :
  firstOverlap rows a b = Some s ->
  In s rows /\ doTimeSlotsOverlap (startTime s) (endTime s) a b = true.
Proof. unfold firstOverlap. intros H. now apply find_some in H. Qed.

Lemma firstOverlap_found (rows : list TimetableSlot) (a b : string)
  (s : TimetableSlot) :
  In s rows -> doTimeSlotsOverlap (startTime s) (endTime s) a b = true ->
  exists s', firstOverlap rows a b = Some s'.
Proof.
  intros Hin Ho. unfold firstOverlap.
  destruct (find _ rows) eqn:E; [eauto|].
  eapply find_none in E; [|exact Hin]. simpl in E. congruence.
Qed.

Lemma validateSlot_error (db : DB) (p : TimetableSlotPayload.t) (e : ApiError) :
  validateSlot db p = inl e -> exists message, e = ValidationError message.
Proof.
  unfold validateSlot, bind, rejectIf.
  repeat match goal with
         | |- context [if ?c then inl _ else _] => destruct c
         | |- context [match DayOfWeek_of_string ?s with _ => _ end] =>
             destruct (DayOfWeek_of_string s)
         end;
    intros [= <-]; eauto.
Qed.

(** What each conflict step has found when it finds a slot *)
Lemma teacherConflict_Some (db : DB) (v : Validated.t) (s : TimetableSlot) :
  teacherConflict db v = Some s ->
  truthy (Validated.teacherId v) = true
  /\ In s (timetableSlots db)
  /\ teacherId s = Validated.teacherId v
  /\ dayOfWeek s = Validated.dayOfWeek v
  /\ notSelf (Validated.id v) s = true
  /\ doTimeSlotsOverlap (startTime s) (endTime s)
       (Validated.startTime v) (Validated.endTime v) = true.
Proof.
  unfold teacherConflict, conflictingTeacherSlots.
  destruct (truthy (Validated.teacherId v)); [|discriminate].
  intros H. apply firstOverlap_Some in H. destruct H as [Hin Ho].
  apply filter_In in Hin. destruct Hin as [Hin Hc].
  rewrite !andb_true_iff, optEqb_string_eq, DayOfWeek_eqb_eq in Hc.
  intuition auto.
Qed.

Lemma classConflict_Some (db : DB) (v : Validated.t) (s : TimetableSlot) :
  classConflict db v = Some s ->
  In s (timetableSlots db)
  /\ currentClass s = Validated.currentClass v
  /\ section s = orNull (Validated.section v)
  /\ dayOfWeek s = Validated.dayOfWeek v
  /\ notSelf (Validated.id v) s = true
  /\ doTimeSlotsOverlap (startTime s) (endTime s)
       (Validated.startTime v) (Validated.endTime v) = true.
Proof.
  unfold classConflict, conflictingClassSlots.
  intros H. apply firstOverlap_Some in H. destruct H as [Hin Ho].
  apply filter_In in Hin. destruct Hin as [Hin Hc].
  rewrite !andb_true_iff, optEqb_string_eq, DayOfWeek_eqb_eq, String.eqb_eq in Hc.
  intuition auto.
Qed.

Lemma detectConflicts_error (db : DB) (v : Validated.t) (e : ApiError) :
  detectConflicts db v = inl e ->
  exists s,
    (teacherConflict db v = Some s
     /\ e = ConflictError (teacherConflictMessage s) (Some s))
    \/ (teacherConflict db v = None /\ classConflict db v = Some s
        /\ e = ConflictError (classConflictMessage v s) (Some s)).
Proof.
  unfold detectConflicts.
  destruct (teacherConflict db v) as [s|]; [intros [= <-]; eauto|].
  destruct (classConflict db v) as [s|]; [intros [= <-]; eauto 6|discriminate].
Qed.

Lemma detectConflicts_ok (db : DB) (v : Validated.t) :
  detectConflicts db v = inr tt ->
  teacherConflict db v = None /\ classConflict db v = None.
Proof.
  unfold detectConflicts.
  destruct (teacherConflict db v); [discriminate|].
  destruct (classConflict db v); [discriminate|auto].
Qed.

(** The row the slot scheduler writes for a validated body *)
Lemma slotData_wellFormed (db : DB) (p : TimetableSlotPayload.t)
  (v : Validated.t) (d : option Date) :
  validateSlot db p = inr v -> wellFormedSlot db (slotData v d).
Proof.
  intros Hv. destruct (validateSlot_checked _ _ _ Hv)
    as (_ & _ & _ & _ & _ & Hsec & Hte & Hs & He & Hlt & Hc & Hsub & Hteacher).
  unfold wellFormedSlot, slotData. cbn.
  rewrite Hsec, Hte, !orNull_emptyToNull.
  repeat (split; [first [assumption | apply orNull_not_empty]|]).
  split; [|discriminate].
  intros t Ht. apply Hteacher. rewrite Hte, <- Ht.
  now rewrite orNull_eq_emptyToNull.
Qed.

(** The unique index never fires in the slot scheduler: a stored row with
    the key of the row to write is a row of the class and section that
    starts when the candidate starts, which the class check has found. *)
Lemma upsert_no_unique_violation (db : DB) (p : TimetableSlotPayload.t)
  (v : Validated.t) (d : option Date) (i : string) (sub : option string) :
  Forall (wellFormedSlot db) (timetableSlots db) ->
  validateSlot db p = inr v ->
  classConflict db v = None ->
  (truthy (Validated.id v) = true -> i = strOf (Validated.id v)) ->
  violatesUnique (timetableSlots db) (withSubstitute sub (withId i (slotData v d)))
  = false.
Proof.
  intros Hwf Hv Hnone Hid.
  destruct (violatesUnique _ _) eqn:E; [exfalso|reflexivity].
  unfold violatesUnique in E. apply existsb_exists in E.
  destruct E as (r & Hin & Hr). apply andb_true_iff in Hr.
  destruct Hr as [Hne Hkey]. apply negb_true_iff, String.eqb_neq in Hne.
  cbn in Hne. unfold sameUniqueKey in Hkey. cbn in Hkey.
  rewrite !andb_true_iff, DayOfWeek_eqb_eq, !String.eqb_eq in Hkey.
  destruct Hkey as (((((Hday & Hstart) & Hclass) & Hsec) & _) & _).
  destruct (validateSlot_checked _ _ _ Hv)
    as (_ & _ & _ & _ & _ & _ & _ & _ & _ & Hlt & _).
  apply jsLt_Some in Hlt. destruct Hlt as (a & c & Ha & Hc & Hac).
  rewrite Forall_forall in Hwf. destruct (Hwf r Hin) as (_ & _ & Hlt & _).
  apply jsLt_Some in Hlt. destruct Hlt as (a' & b & Ha' & Hb & Hab).
  assert (Heq : a' = a) by congruence. subst a'.
  assert (Hfound : exists s', classConflict db v = Some s').
  { unfold classConflict. apply (firstOverlap_found _ _ _ r).
    - unfold conflictingClassSlots. apply filter_In. split; [assumption|].
      rewrite !andb_true_iff, DayOfWeek_eqb_eq, String.eqb_eq. repeat split.
      + assumption.
      + destruct (section r) as [x|], (orNull (Validated.section v)) as [y|];
          simpl in *; congruence.
      + assumption.
      + unfold notSelf. destruct (truthy (Validated.id v)) eqn:Et; [|reflexivity].
        apply negb_true_iff, String.eqb_neq. rewrite <- (Hid eq_refl). assumption.
    - unfold doTimeSlotsOverlap. rewrite Ha', Hb, Ha, Hc. simpl.
      apply Z.ltb_lt. lia. }
  destruct Hfound as [s' Hs']. congruence.
Qed.

Section SlotSchedulerProperties.

Variable utcDayOf : string -> option Date.

(** X4.  A 409 of [createOrUpdateTimetableSlot] that carries a
    [conflictingSlot] reports a real conflict: nothing was written, the
    body was valid, and the slot reported is a stored slot, other than the
    slot being updated, of the candidate's day of the week whose time
    overlaps the candidate's; it has the candidate's teacher (message
    [Teacher conflict ...]) or the candidate's class and section (message
    [Class/Section conflict ...]). *)
Theorem upsert_conflict_report_sound (db db' : DB) (p : TimetableSlotPayload.t)
  (message : string) (s : TimetableSlot) :
  createOrUpdateTimetableSlot utcDayOf db p
  = (db', inl (ConflictError message (Some s))) ->
  db' = db
  /\ exists v,
      validateSlot db p = inr v
      /\ In s (timetableSlots db)
      /\ (forall i, Validated.id v = Some i -> i <> "" -> id s <> i)
      /\ dayOfWeek s = Validated.dayOfWeek v
      /\ doTimeSlotsOverlap (startTime s) (endTime s)
           (Validated.startTime v) (Validated.endTime v) = true
      /\ ((String.prefix "Teacher conflict" message = true
           /\ Validated.teacherId v <> None
           /\ teacherId s = Validated.teacherId v)
          \/ (String.prefix "Class/Section conflict" message = true
              /\ currentClass s = Validated.currentClass v
              /\ section s = Validated.section v)).
Proof.
  unfold createOrUpdateTimetableSlot.
  destruct (validateSlot db p) as [e|v] eqn:Hv.
  { intros [= <- He]. apply validateSlot_error in Hv.
    destruct Hv as [m ->]. discriminate. }
  assert (HnotSelf : forall r, notSelf (Validated.id v) r = true ->
                     forall i, Validated.id v = Some i -> i <> "" -> id r <> i).
  { intros r Hr i Hi Hne. unfold notSelf in Hr. rewrite Hi in Hr. simpl in Hr.
    apply String.eqb_neq in Hne. rewrite Hne in Hr. simpl in Hr.
    now apply negb_true_iff, String.eqb_neq in Hr. }
  destruct (detectConflicts db v) as [e|[]] eqn:Hc.
  - intros [= <- He]. split; [reflexivity|]. exists v. split; [reflexivity|].
    apply detectConflicts_error in Hc.
    destruct Hc as (s' & [(Ht & ->)|(_ & Hcl & ->)]); injection He as <- <-.
    + apply teacherConflict_Some in Ht.
      destruct Ht as (Htr & Hin & Hte & Hday & Hself & Ho).
      repeat (split; [first [assumption | now apply HnotSelf]|]).
      left. split; [apply teacherConflictMessage_prefix|].
      split; [|assumption]. destruct (Validated.teacherId v); [|discriminate].
      discriminate.
    + apply classConflict_Some in Hcl.
      destruct Hcl as (Hin & Hcls & Hsec & Hday & Hself & Ho).
      repeat (split; [first [assumption | now apply HnotSelf]|]).
      right. split; [apply classConflictMessage_prefix|].
      split; [assumption|]. rewrite Hsec.
      destruct (validateSlot_checked _ _ _ Hv) as (_ & _ & _ & _ & _ & -> & _).
      now rewrite orNull_emptyToNull, orNull_eq_emptyToNull.
  - destruct (slotDate utcDayOf (Validated.date v)) as [e|d]; [discriminate|].
    destruct (if truthy (Validated.id v) then _ else _) as [[]|[db2 slot]];
      discriminate.
Qed.

(** X5.  The conflict checks of [createOrUpdateTimetableSlot] miss no slot
    of their scope: when a valid body's time overlaps a stored slot of the
    same day of the week (weekly or of any date), other than the slot
    being updated, that has the candidate's teacher, or the candidate's
    class and section, the request is answered 409 with a conflicting slot
    and nothing is written. *)
Theorem upsert_conflict_complete (db : DB) (p : TimetableSlotPayload.t)
  (v : Validated.t) (s : TimetableSlot) :
  validateSlot db p = inr v ->
  In s (timetableSlots db) ->
  (forall i, Validated.id v = Some i -> i <> "" -> id s <> i) ->
  dayOfWeek s = Validated.dayOfWeek v ->
  doTimeSlotsOverlap (startTime s) (endTime s)
    (Validated.startTime v) (Validated.endTime v) = true ->
  (Validated.teacherId v <> None /\ teacherId s = Validated.teacherId v)
  \/ (currentClass s = Validated.currentClass v
      /\ section s = Validated.section v) ->
  exists message s',
    createOrUpdateTimetableSlot utcDayOf db p
    = (db, inl (ConflictError message (Some s'))).
Proof.
  intros Hv Hin Hself Hday Ho Hscope.
  assert (HnotSelf : notSelf (Validated.id v) s = true).
  { unfold notSelf. destruct (Validated.id v) as [i|] eqn:Ei; [|reflexivity].
    simpl. destruct (String.eqb i "") eqn:E; [reflexivity|]. simpl.
    apply negb_true_iff, String.eqb_neq. apply (Hself i eq_refl).
    now apply String.eqb_neq. }
  destruct (validateSlot_checked _ _ _ Hv)
    as (_ & _ & _ & _ & _ & Hsec & Hte & _).
  assert (Hconflict : exists e, detectConflicts db v = inl e).
  { unfold detectConflicts.
    destruct (teacherConflict db v) as [s'|] eqn:Ht; [eauto|].
    destruct (classConflict db v) as [s'|] eqn:Hc; [eauto|]. exfalso.
    destruct Hscope as [[Hsome Hteach]|[Hcls Hsect]].
    - unfold teacherConflict in Ht.
      assert (Htr : truthy (Validated.teacherId v) = true).
      { rewrite Hte in *. rewrite truthy_emptyToNull.
        destruct (TimetableSlotPayload.teacherId p) as [x|]; simpl in *;
          [|congruence].
        destruct (String.eqb x ""); [congruence|reflexivity]. }
      rewrite Htr in Ht.
      destruct (firstOverlap_found (conflictingTeacherSlots db v)
                  (Validated.startTime v) (Validated.endTime v) s) as [s' Hs'];
        [|assumption|congruence].
      unfold conflictingTeacherSlots. apply filter_In. split; [assumption|].
      rewrite !andb_true_iff, optEqb_string_eq, DayOfWeek_eqb_eq. auto.
    - unfold classConflict in Hc.
      destruct (firstOverlap_found (conflictingClassSlots db v)
                  (Validated.startTime v) (Validated.endTime v) s) as [s' Hs'];
        [|assumption|congruence].
      unfold conflictingClassSlots. apply filter_In. split; [assumption|].
      rewrite !andb_true_iff, optEqb_string_eq, DayOfWeek_eqb_eq, String.eqb_eq.
      repeat split; try assumption.
      rewrite Hsect, Hsec. now rewrite orNull_emptyToNull, orNull_eq_emptyToNull. }
  destruct Hconflict as [e He].
  rewrite (upsert_conflict utcDayOf _ _ _ _ Hv He).
  apply detectConflicts_error in He.
  destruct He as (s' & [(_ & ->)|(_ & _ & ->)]); eauto.
Qed.

End SlotSchedulerProperties.

Lemma upsert_conflict_report_sound_witness :
  mkDB someUsers [mathsMonday] 1 = mkDB someUsers [mathsMonday] 1
  /\ exists v,
      validateSlot (mkDB someUsers [mathsMonday] 1) physicsSameClassSameTeacher
      = inr v
      /\ In mathsMonday [mathsMonday]
      /\ (forall i, Validated.id v = Some i -> i <> "" -> id mathsMonday <> i)
      /\ dayOfWeek mathsMonday = Validated.dayOfWeek v
      /\ doTimeSlotsOverlap "09:00" "10:00"
           (Validated.startTime v) (Validated.endTime v) = true
      /\ ((String.prefix "Teacher conflict" (teacherConflictMessage mathsMonday)
           = true
           /\ Validated.teacherId v <> None
           /\ teacherId mathsMonday = Validated.teacherId v)
          \/ (String.prefix "Class/Section conflict"
                (teacherConflictMessage mathsMonday) = true
              /\ currentClass mathsMonday = Validated.currentClass v
              /\ section mathsMonday = Validated.section v)).
Proof.
  apply (upsert_conflict_report_sound isoDate (mkDB someUsers [mathsMonday] 1)
           (mkDB someUsers [mathsMonday] 1) physicsSameClassSameTeacher
           (teacherConflictMessage mathsMonday) mathsMonday).
  reflexivity.
Defined.

Lemma upsert_conflict_complete_witness :
  exists message s',
    createOrUpdateTimetableSlot isoDate (mkDB someUsers [mathsMonday] 1)
      physicsSameClassSameTeacher
    = (mkDB someUsers [mathsMonday] 1, inl (ConflictError message (Some s'))).
Proof.
  apply (upsert_conflict_complete isoDate (mkDB someUsers [mathsMonday] 1)
           physicsSameClassSameTeacher
           (Validated.mk None MONDAY "09:30" "10:30" "Grade10" (Some "A")
              "Physics" (Some "t1") None)
           mathsMonday).
  - reflexivity.
  - left. reflexivity.
  - intros i Hi. discriminate Hi.
  - reflexivity.
  - reflexivity.
  - right. split; reflexivity.
Defined.

Lemma Validated_section_orNull (db : DB) (p : TimetableSlotPayload.t)
  (v : Validated.t) :
  validateSlot db p = inr v ->
  orNull (Validated.section v) = Validated.section v
  /\ orNull (Validated.teacherId v) = Validated.teacherId v.
Proof.
  intros Hv. destruct (validateSlot_checked _ _ _ Hv)
    as (_ & _ & _ & _ & _ & -> & -> & _).
  now rewrite !orNull_emptyToNull, !orNull_eq_emptyToNull.
Qed.

Section SlotSchedulerWrites.

Variable utcDayOf : string -> option Date.

(** X6.  On a table of well-formed slots, every 409 of
    [createOrUpdateTimetableSlot] names the conflicting slot: the reply
    [This exact subject slot ... already exists] for a violation of the
    unique index is never given, a stored row with the same day, start,
    class, section and subject having been found by the class check
    before the write. *)
Theorem upsert_conflict_names_slot (db : DB) :
  Forall (wellFormedSlot db) (timetableSlots db) ->
  forall p db' message conflictingSlot,
    createOrUpdateTimetableSlot utcDayOf db p
    = (db', inl (ConflictError message conflictingSlot)) ->
    exists s, conflictingSlot = Some s.
Proof.
  intros Hwf p db' message c. unfold createOrUpdateTimetableSlot.
  destruct (validateSlot db p) as [e|v] eqn:Hv.
  { intros [= <- He]. apply validateSlot_error in Hv.
    destruct Hv as [m ->]. discriminate. }
  destruct (detectConflicts db v) as [e|[]] eqn:Hc.
  { intros [= <- He]. apply detectConflicts_error in Hc.
    destruct Hc as (s & [(_ & ->)|(_ & _ & ->)]); injection He as <- <-; eauto. }
  apply detectConflicts_ok in Hc. destruct Hc as [_ Hc].
  destruct (slotDate utcDayOf (Validated.date v)) as [e|d]; [discriminate|].
  destruct (truthy (Validated.id v)) eqn:Et.
  - unfold update. destruct (findUnique db _) as [old|]; [|discriminate].
    rewrite (upsert_no_unique_violation db p v d _ _ Hwf Hv Hc (fun _ => eq_refl)).
    discriminate.
  - unfold create.
    rewrite (upsert_no_unique_violation db p v d _ _ Hwf Hv Hc);
      [discriminate|]. rewrite Et. discriminate.
Qed.

(** X7.  [createOrUpdateTimetableSlot] without [id] creates: on a table of
    well-formed slots, a valid body whose time overlaps no stored slot of
    its day of the week with its teacher or with its class and section,
    and whose [date] is absent or read by the runtime, is answered with
    the new slot, which is added at the end of the table with a generated
    id, the fields of the body and no substitute; no other row changes. *)
Theorem upsert_creates (db : DB) (p : TimetableSlotPayload.t) (v : Validated.t)
  (d : option Date) :
  Forall (wellFormedSlot db) (timetableSlots db) ->
  validateSlot db p = inr v ->
  truthy (TimetableSlotPayload.id p) = false ->
  slotDate utcDayOf (TimetableSlotPayload.date p) = inr d ->
  (forall s,
      In s (timetableSlots db) ->
      dayOfWeek s = Validated.dayOfWeek v ->
      (Validated.teacherId v <> None /\ teacherId s = Validated.teacherId v)
      \/ (currentClass s = Validated.currentClass v
          /\ section s = Validated.section v) ->
      doTimeSlotsOverlap (startTime s) (endTime s)
        (Validated.startTime v) (Validated.endTime v) = false) ->
  let slot :=
    mkSlot (genId (nextId db)) (Validated.dayOfWeek v) (Validated.startTime v)
      (Validated.endTime v) (Validated.currentClass v) (Validated.section v)
      (Validated.subject v) (Validated.teacherId v) None d in
  createOrUpdateTimetableSlot utcDayOf db p
  = (mkDB (users db) (timetableSlots db ++ [slot]) (S (nextId db)), inr slot).
Proof.
  intros Hwf Hv Hid Hd Hfree slot.
  destruct (validateSlot_ok _ _ _ Hv) as [_ Hdate].
  destruct (validateSlot_checked _ _ _ Hv) as (Hvid & _).
  destruct (Validated_section_orNull _ _ _ Hv) as [Hsec Hte].
  assert (Ht : teacherConflict db v = None).
  { destruct (teacherConflict db v) as [s|] eqn:E; [exfalso|reflexivity].
    apply teacherConflict_Some in E.
    destruct E as (Htr & Hin & Hteach & Hday & _ & Ho).
    rewrite (Hfree s Hin Hday) in Ho; [discriminate|].
    left. split; [|assumption].
    destruct (Validated.teacherId v); discriminate. }
  assert (Hc : classConflict db v = None).
  { destruct (classConflict db v) as [s|] eqn:E; [exfalso|reflexivity].
    apply classConflict_Some in E.
    destruct E as (Hin & Hcls & Hsect & Hday & _ & Ho).
    rewrite (Hfree s Hin Hday) in Ho; [discriminate|].
    right. split; [assumption|]. now rewrite Hsect. }
  unfold createOrUpdateTimetableSlot. rewrite Hv.
  unfold detectConflicts. rewrite Ht, Hc, Hdate, Hd, Hvid, Hid.
  unfold create.
  rewrite (upsert_no_unique_violation db p v d _ _ Hwf Hv Hc)
    by (rewrite Hvid, Hid; discriminate).
  unfold slot, withSubstitute, withId, slotData. cbn.
  rewrite Hsec, Hte. reflexivity.
Qed.

(** X8.  [createOrUpdateTimetableSlot] with an [id] updates that slot: a
    successful request answers the slot with that id, the substitute it
    had before (the body cannot name one) and the counter of generated
    ids untouched; in the table the rows with that id become the answered
    slot and every other row, and the users, stay.  For an [id] that is
    not stored nothing is written, and a body that is valid and free of
    conflicts is answered with a server error, not with a 404. *)
Theorem upsert_updates_in_place (db : DB) (p : TimetableSlotPayload.t)
  (i : string) :
  TimetableSlotPayload.id p = Some i ->
  i <> "" ->
  (forall db' slot,
      createOrUpdateTimetableSlot utcDayOf db p = (db', inr slot) ->
      exists old,
        findUnique db i = Some old
        /\ id slot = i
        /\ substituteTeacherId slot = substituteTeacherId old
        /\ users db' = users db
        /\ nextId db' = nextId db
        /\ Forall2 (fun s' s => s' = if String.eqb (id s) i then slot else s)
             (timetableSlots db') (timetableSlots db))
  /\ (findUnique db i = None ->
      (exists e, createOrUpdateTimetableSlot utcDayOf db p = (db, inl e))
      /\ forall v d,
          validateSlot db p = inr v ->
          detectConflicts db v = inr tt ->
          slotDate utcDayOf (TimetableSlotPayload.date p) = inr d ->
          createOrUpdateTimetableSlot utcDayOf db p = (db, inl ServerError)).
Proof.
  intros Hi Hne.
  assert (Htr : truthy (Some i) = true).
  { simpl. apply negb_true_iff. now apply String.eqb_neq. }
  split.
  - intros db' slot. unfold createOrUpdateTimetableSlot.
    destruct (validateSlot db p) as [e|v] eqn:Hv; [discriminate|].
    destruct (validateSlot_checked _ _ _ Hv) as (Hvid & _).
    destruct (detectConflicts db v) as [e|[]]; [discriminate|].
    destruct (slotDate utcDayOf (Validated.date v)) as [e|d]; [discriminate|].
    rewrite Hvid, Hi, Htr. cbn [strOf]. unfold update.
    destruct (findUnique db i) as [old|] eqn:Hold; [|discriminate].
    destruct (violatesUnique _ _); [discriminate|].
    intros [= <- <-]. exists old. cbn.
    repeat (split; [reflexivity|]).
    unfold replaceRow. cbn.
    induction (timetableSlots db) as [|s l IH]; simpl; constructor; auto.
  - intros Hnone. split.
    + unfold createOrUpdateTimetableSlot.
      destruct (validateSlot db p) as [e|v] eqn:Hv; [eauto|].
      destruct (validateSlot_checked _ _ _ Hv) as (Hvid & _).
      destruct (detectConflicts db v) as [e|[]]; [eauto|].
      destruct (slotDate utcDayOf (Validated.date v)) as [e|d]; [eauto|].
      rewrite Hvid, Hi, Htr. cbn [strOf]. unfold update. rewrite Hnone. eauto.
    + intros v d Hv Hc Hd. unfold createOrUpdateTimetableSlot.
      destruct (validateSlot_ok _ _ _ Hv) as [_ Hdate].
      destruct (validateSlot_checked _ _ _ Hv) as (Hvid & _).
      rewrite Hv, Hc, Hdate, Hd, Hvid, Hi, Htr. cbn [strOf].
      unfold update. rewrite Hnone. reflexivity.
Qed.

End SlotSchedulerWrites.

Ltac wellFormed_by_computation :=
  repeat constructor; unfold wellFormedSlot; cbn;
  repeat split; try discriminate; try reflexivity;
  intros t [= <-]; vm_compute; discriminate.

Lemma mathsMonday_wellFormed :
  Forall (wellFormedSlot (mkDB someUsers [mathsMonday] 1)) [mathsMonday].
Proof. wellFormed_by_computation. Qed.

Lemma weekDB_wellFormed : Forall (wellFormedSlot weekDB) (timetableSlots weekDB).
Proof. wellFormed_by_computation. Qed.

Lemma upsert_conflict_names_slot_witness :
  Forall (wellFormedSlot (mkDB someUsers [mathsMonday] 1)) [mathsMonday]
  /\ exists s, Some mathsMonday = Some s.
Proof.
  split; [exact mathsMonday_wellFormed|].
  apply (upsert_conflict_names_slot isoDate (mkDB someUsers [mathsMonday] 1)
           mathsMonday_wellFormed physicsSameClassSameTeacher
           (mkDB someUsers [mathsMonday] 1) (teacherConflictMessage mathsMonday)
           (Some mathsMonday)).
  reflexivity.
Defined.

Lemma upsert_creates_witness :
  let slot :=
    mkSlot "slot-5" MONDAY "10:00" "11:00" "Grade10" (Some "A") "Physics"
      (Some "t1") None None in
  createOrUpdateTimetableSlot isoDate weekDB physicsAfterMaths
  = (mkDB someUsers [mathsMondaySubstituted; weeklyFriday; slot] 6, inr slot).
Proof.
  apply (upsert_creates isoDate weekDB physicsAfterMaths
           (Validated.mk None MONDAY "10:00" "11:00" "Grade10" (Some "A")
              "Physics" (Some "t1") None)
           None weekDB_wellFormed).
  - reflexivity.
  - reflexivity.
  - reflexivity.
  - intros s [<-|[<-|[]]] Hday Hscope; first [reflexivity | discriminate Hday].
Defined.

Lemma upsert_updates_in_place_witness :
  let slot :=
    mkSlot "s3" MONDAY "11:00" "12:00" "Grade10" (Some "A") "Maths"
      (Some "t1") (Some "t2") None in
  let db' := mkDB someUsers [slot; weeklyFriday] 5 in
  exists old,
    findUnique weekDB "s3" = Some old
    /\ id slot = "s3"
    /\ substituteTeacherId slot = substituteTeacherId old
    /\ users db' = users weekDB
    /\ nextId db' = nextId weekDB
    /\ Forall2 (fun s' s => s' = if String.eqb (id s) "s3" then slot else s)
         (timetableSlots db') (timetableSlots weekDB).
Proof.
  intros slot db'.
  assert (Hne : "s3" <> "") by discriminate.
  apply (proj1 (upsert_updates_in_place isoDate weekDB mathsMovedLater "s3"
                  eq_refl Hne) db' slot).
  reflexivity.
Defined.

(** ** What the write handlers keep, continued *)

Lemma Forall_wellFormed_users (db db' : DB) (l : list TimetableSlot) :
  users db' = users db ->
  Forall (wellFormedSlot db) l -> Forall (wellFormedSlot db') l.
Proof.
  intros Hu H. eapply Forall_impl; [|exact H].
  intros s. now apply wellFormedSlot_users.
Qed.

Lemma updateSubstitute_wellFormed (db : DB) (sid : string) (sub : option string) :
  Forall (wellFormedSlot db) (timetableSlots db) ->
  (forall t, sub = Some t -> findTeacher db t <> None) ->
  Forall (wellFormedSlot (updateSubstitute db sid sub))
    (timetableSlots (updateSubstitute db sid sub)).
Proof.
  intros Hwf Hsub. apply (Forall_wellFormed_users db); [reflexivity|].
  cbn [updateSubstitute timetableSlots].
  induction Hwf as [|s l Hs Hl IH]; simpl; constructor; [|assumption].
  destruct (String.eqb (id s) sid); [|assumption].
  now apply wellFormedSlot_withSubstitute.
Qed.

(** What the validation loop of [setAlternateTimetable] has checked of a
    slot it lets through *)
Lemma validateAlternateSlot_wellFormed (db : DB) (x y : TimetableSlotPayload.t)
  (dow : DayOfWeek) (d : Date) :
  validateAlternateSlot db x = inr y ->
  wellFormedSlot db (alternateSlotData dow d y).
Proof.
  unfold validateAlternateSlot, bind, rejectIf.
  match goal with
  | |- context [if (?a || ?b || ?c || ?e) then _ else _] =>
      destruct (a || b || c || e) eqn:Hreq; [discriminate|]
  end.
  match goal with
  | |- context [if (?a || ?b) then _ else _] =>
      destruct (a || b) eqn:Hfmt; [discriminate|]
  end.
  match goal with
  | |- context [if jsGe ?a ?b then _ else _] =>
      destruct (jsGe a b) eqn:Hord; [discriminate|]
  end.
  match goal with
  | |- context [if (?a && ?b) then _ else _] =>
      destruct (a && b) eqn:Hteacher; [discriminate|]
  end.
  intros [= <-].
  apply orb_false_elim in Hreq. destruct Hreq as [Hreq Hsub].
  apply orb_false_elim in Hreq. destruct Hreq as [_ Hcls].
  apply negb_false_iff in Hsub, Hcls.
  apply orb_false_elim in Hfmt. destruct Hfmt as [Hs He].
  apply negb_false_iff in Hs, He.
  unfold wellFormedSlot, alternateSlotData, normaliseSlot. cbn.
  split; [assumption|]. split; [assumption|].
  split; [now apply valid_times_ordered|].
  split; [apply (truthy_ne _ Hcls)|]. split; [apply (truthy_ne _ Hsub)|].
  split; [apply orNull_not_empty|]. split; [apply orNull_not_empty|].
  split; [|discriminate].
  intros t Ht. apply orNull_Some in Ht. destruct Ht as [Htr Ht].
  cbn [normaliseSlot TimetableSlotPayload.teacherId] in Hteacher.
  rewrite Htr, Ht in Hteacher. cbn [strOf] in Hteacher. simpl in Hteacher.
  destruct (findTeacher db t); discriminate.
Qed.

Lemma validateAlternateSlots_wellFormed (db : DB)
  (l l' : list TimetableSlotPayload.t) (dow : DayOfWeek) (d : Date) :
  validateAlternateSlots db l = inr l' ->
  Forall (fun y => wellFormedSlot db (alternateSlotData dow d y)) l'.
Proof.
  revert l'. induction l as [|x l IH]; simpl; intros l'.
  - intros [= <-]. constructor.
  - unfold bind.
    destruct (validateAlternateSlot db x) as [e|y] eqn:Hx; [discriminate|].
    destruct (validateAlternateSlots db l) as [e|rest]; [discriminate|].
    intros [= <-]. constructor; [|now apply IH].
    eapply validateAlternateSlot_wellFormed; eassumption.
Qed.

Lemma created_rows_wellFormed (db : DB) (dow : DayOfWeek) (d : Date)
  (batch : list TimetableSlotPayload.t) (created : list TimetableSlot) :
  map (withId "") created = map (alternateSlotData dow d) batch ->
  Forall (fun y => wellFormedSlot db (alternateSlotData dow d y)) batch ->
  Forall (wellFormedSlot db) created.
Proof.
  revert batch. induction created as [|c created IH]; intros [|y batch];
    simpl; try discriminate; [constructor|].
  intros Heq Hall. inversion Hall as [|? ? Hy Hbatch]; subst.
  assert (Hc : withId "" c = alternateSlotData dow d y) by congruence.
  assert (Hrest : map (withId "") created = map (alternateSlotData dow d) batch)
    by congruence.
  constructor; [|now apply (IH batch)].
  rewrite <- Hc in Hy. exact Hy.
Qed.

Lemma replaceRow_Forall (P : TimetableSlot -> Prop) (row : TimetableSlot)
  (rows : list TimetableSlot) :
  Forall P rows -> P row -> Forall P (replaceRow row rows).
Proof.
  intros Hall Hrow. unfold replaceRow.
  induction Hall as [|s l Hs Hl IH]; simpl; constructor; [|assumption].
  destruct (String.eqb (id s) (id row)); assumption.
Qed.

Lemma upsert_error_unchanged (utcDayOf : string -> option Date) (db db' : DB)
  (p : TimetableSlotPayload.t) (e : ApiError) :
  createOrUpdateTimetableSlot utcDayOf db p = (db', inl e) -> db' = db.
Proof.
  unfold createOrUpdateTimetableSlot.
  destruct (validateSlot db p) as [e'|v]; [congruence|].
  destruct (detectConflicts db v) as [e'|[]]; [congruence|].
  destruct (slotDate utcDayOf (Validated.date v)) as [e'|d]; [congruence|].
  destruct (if truthy (Validated.id v) then _ else _) as [[]|[db2 slot]];
    congruence.
Qed.

Section Invariant.

Variable utcDayOf : string -> option Date.

(** X9.  The write handlers keep the slots well-formed.  When every
    stored slot has two valid times with the start before the end, a
    class, a subject, no empty [section] or [teacherId], and a teacher and
    a substitute that are TEACHER users when set, the same holds after
    [createOrUpdateTimetableSlot], [setAlternateTimetable],
    [assignSubstituteTeacher] and [clearSubstituteTeacher], whatever the
    request and the answer; and none of them touches the users. *)
Theorem write_handlers_keep_slots_well_formed (db : DB) :
  Forall (wellFormedSlot db) (timetableSlots db) ->
  (forall p db' r,
      createOrUpdateTimetableSlot utcDayOf db p = (db', r) ->
      users db' = users db /\ Forall (wellFormedSlot db') (timetableSlots db'))
  /\ (forall p db' r,
         setAlternateTimetable utcDayOf db p = (db', r) ->
         users db' = users db /\ Forall (wellFormedSlot db') (timetableSlots db'))
  /\ (forall p db' r,
         assignSubstituteTeacher db p = (db', r) ->
         users db' = users db /\ Forall (wellFormedSlot db') (timetableSlots db'))
  /\ (forall q db' r,
         clearSubstituteTeacher db q = (db', r) ->
         users db' = users db /\ Forall (wellFormedSlot db') (timetableSlots db')).
Proof.
  intros Hwf. repeat split.
  - (* users, upsert *)
    destruct r as [e|slot]; [apply upsert_error_unchanged in H; now subst|].
    revert H. unfold createOrUpdateTimetableSlot.
    destruct (validateSlot db p) as [e|v]; [discriminate|].
    destruct (detectConflicts db v) as [e|[]]; [discriminate|].
    destruct (slotDate utcDayOf (Validated.date v)) as [e|d]; [discriminate|].
    destruct (truthy (Validated.id v)).
    + unfold update. destruct (findUnique db _); [|discriminate].
      destruct (violatesUnique _ _); [discriminate|]. now intros [= <- _].
    + unfold create. destruct (violatesUnique _ _); [discriminate|].
      now intros [= <- _].
  - (* slots, upsert *)
    destruct r as [e|slot]; [apply upsert_error_unchanged in H; now subst|].
    revert H. unfold createOrUpdateTimetableSlot.
    destruct (validateSlot db p) as [e|v] eqn:Hv; [discriminate|].
    destruct (detectConflicts db v) as [e|[]]; [discriminate|].
    destruct (slotDate utcDayOf (Validated.date v)) as [e|d]; [discriminate|].
    pose proof (slotData_wellFormed db p v d Hv) as Hrow.
    destruct (truthy (Validated.id v)).
    + unfold update. destruct (findUnique db _) as [old|] eqn:Hold; [|discriminate].
      destruct (violatesUnique _ _); [discriminate|]. intros [= <- _].
      apply (Forall_wellFormed_users db); [reflexivity|].
      cbn [timetableSlots]. unfold replaceRow.
      apply findUnique_In in Hold. destruct Hold as [Hin _].
      assert (Hnew : wellFormedSlot db
                       (withSubstitute (substituteTeacherId old)
                          (withId (strOf (Validated.id v)) (slotData v d)))).
      { apply wellFormedSlot_withSubstitute;
          [now apply wellFormedSlot_withId|].
        rewrite Forall_forall in Hwf.
        destruct (Hwf old Hin) as (_ & _ & _ & _ & _ & _ & _ & _ & Hsub).
        exact Hsub. }
      now apply replaceRow_Forall.
    + unfold create. destruct (violatesUnique _ _); [discriminate|].
      intros [= <- _]. apply (Forall_wellFormed_users db); [reflexivity|].
      cbn [timetableSlots]. apply Forall_app. split; [assumption|].
      constructor; [|constructor].
      apply wellFormedSlot_withSubstitute;
        [now apply wellFormedSlot_withId|discriminate].
  - (* users, alternate timetable *)
    destruct r as [e|created].
    + now apply setAlternateTimetable_error_rolls_back in H.
    + apply setAlternateTimetable_ok in H.
      destruct H as (d & submitted & _ & Hu & _). exact Hu.
  - (* slots, alternate timetable *)
    destruct r as [e|created].
    + apply setAlternateTimetable_error_rolls_back in H. destruct H as [Hs Hu].
      rewrite Hs. now apply (Forall_wellFormed_users db).
    + apply setAlternateTimetable_ok in H.
      destruct H as (d & submitted & Hreach & Hu & Hrows & Hcreated).
      rewrite Hrows. apply (Forall_wellFormed_users db); [assumption|].
      apply Forall_app. split.
      * apply Forall_forall. intros s Hin. apply filter_In in Hin.
        rewrite Forall_forall in Hwf. apply Hwf, Hin.
      * destruct Hreach as (ds & _ & _ & _ & _ & _ & Hvalid).
        eapply created_rows_wellFormed; [exact Hcreated|].
        eapply validateAlternateSlots_wellFormed; exact Hvalid.
  - (* users, assign *)
    revert H. unfold assignSubstituteTeacher.
    repeat match goal with
           | |- context [if ?c then _ else _] => destruct c
           | |- context [match findUnique ?a ?b with _ => _ end] =>
               destruct (findUnique a b)
           | |- context [match findTeacher ?a ?b with _ => _ end] =>
               destruct (findTeacher a b)
           | |- context [match firstOverlap ?a ?b ?c with _ => _ end] =>
               destruct (firstOverlap a b c)
           end; now intros [= <- _].
  - (* slots, assign *)
    revert H. unfold assignSubstituteTeacher.
    destruct (negb _ || negb _); [now intros [= <- _]|].
    destruct (findUnique db _) as [slotToUpdate|]; [|now intros [= <- _]].
    destruct (findTeacher db _) as [u|] eqn:Hsub; [|now intros [= <- _]].
    destruct (truthy _ && _); [now intros [= <- _]|].
    destruct (firstOverlap _ _ _); [now intros [= <- _]|].
    destruct (optEqb _ _ _); [now intros [= <- _]|].
    intros [= <- _]. apply updateSubstitute_wellFormed; [assumption|].
    intros t [= <-]. rewrite Hsub. discriminate.
  - (* users, clear *)
    revert H. unfold clearSubstituteTeacher.
    destruct (negb _); [now intros [= <- _]|].
    destruct (findUnique db _); now intros [= <- _].
  - (* slots, clear *)
    revert H. unfold clearSubstituteTeacher.
    destruct (negb _); [now intros [= <- _]|].
    destruct (findUnique db _); [|now intros [= <- _]].
    intros [= <- _]. apply updateSubstitute_wellFormed; [assumption|].
    discriminate.
Qed.

End Invariant.

Lemma write_handlers_keep_slots_well_formed_witness :
  Forall (wellFormedSlot weekDB) (timetableSlots weekDB)
  /\ (let r := createOrUpdateTimetableSlot isoDate weekDB physicsAfterMaths in
      users (fst r) = users weekDB
      /\ Forall (wellFormedSlot (fst r)) (timetableSlots (fst r)))
  /\ (let r := setAlternateTimetable isoDate weekDB examPrep in
      users (fst r) = users weekDB
      /\ Forall (wellFormedSlot (fst r)) (timetableSlots (fst r))).
Proof.
  split; [exact weekDB_wellFormed|].
  destruct (write_handlers_keep_slots_well_formed isoDate weekDB weekDB_wellFormed)
    as (Hupsert & Halternate & _).
  split.
  - apply (Hupsert physicsAfterMaths _
             (snd (createOrUpdateTimetableSlot isoDate weekDB physicsAfterMaths))).
    reflexivity.
  - apply (Halternate examPrep _
             (snd (setAlternateTimetable isoDate weekDB examPrep))).
    reflexivity.
Defined.

Section Failures.

Variable utcDayOf : string -> option Date.

(** X10.  A request to [createOrUpdateTimetableSlot],
    [assignSubstituteTeacher] or [clearSubstituteTeacher] that is not
    answered with success has written nothing: every check of these
    handlers comes before their one write, and every error of the write
    leaves the table as it was. *)
Theorem failed_requests_write_nothing (db : DB) :
  (forall p db' e,
      createOrUpdateTimetableSlot utcDayOf db p = (db', inl e) -> db' = db)
  /\ (forall p db' e, assignSubstituteTeacher db p = (db', inl e) -> db' = db)
  /\ (forall q db' e, clearSubstituteTeacher db q = (db', inl e) -> db' = db).
Proof.
  split; [|split].
  - intros p db' e. apply upsert_error_unchanged.
  - intros p db' e. unfold assignSubstituteTeacher.
    repeat match goal with
           | |- context [if ?c then _ else _] => destruct c
           | |- context [match findUnique ?a ?b with _ => _ end] =>
               destruct (findUnique a b)
           | |- context [match findTeacher ?a ?b with _ => _ end] =>
               destruct (findTeacher a b)
           | |- context [match firstOverlap ?a ?b ?c with _ => _ end] =>
               destruct (firstOverlap a b c)
           end; congruence.
  - intros q db' e. unfold clearSubstituteTeacher.
    destruct (negb _); [congruence|].
    destruct (findUnique db _); congruence.
Qed.

End Failures.

(** ** The alternate-day scheduler accepts what it should *)

Lemma valid_time_truthy (o : option string) :
  isValidTimeFormat (strOf o) = true -> truthy o = true.
Proof.
  destruct o as [x|]; simpl; [|discriminate].
  destruct (String.eqb x "") eqn:E; [|reflexivity].
  apply String.eqb_eq in E. subst x. discriminate.
Qed.

Lemma validateAlternateSlot_accepts (db : DB) (x : TimetableSlotPayload.t) :
  validSlotBody db x -> validateAlternateSlot db x = inr (normaliseSlot x).
Proof.
  intros (Hs & He & Hlt & Hcls & Hsub & Hteacher).
  unfold validateAlternateSlot, bind, rejectIf.
  rewrite (valid_time_truthy _ Hs), (valid_time_truthy _ He), Hcls, Hsub, Hs, He.
  cbn [negb orb].
  apply jsLt_Some in Hlt. destruct Hlt as (a & b & -> & -> & Hab).
  assert (Hge : jsGe (Some a) (Some b) = false).
  { simpl. unfold Z.geb. destruct (a ?= b) eqn:E; try reflexivity.
    - apply Z.compare_eq_iff in E. lia.
    - apply Z.compare_gt_iff in E. lia. }
  rewrite Hge. cbn [normaliseSlot TimetableSlotPayload.teacherId].
  destruct (TimetableSlotPayload.teacherId x) as [t|] eqn:Et; [|reflexivity].
  cbn [emptyToNull]. destruct (String.eqb t "") eqn:E; [reflexivity|].
  cbn [truthy strOf]. rewrite E. cbn [negb andb].
  apply String.eqb_neq in E.
  destruct (findTeacher db t) eqn:Ef; [reflexivity|].
  now destruct (Hteacher t eq_refl E).
Qed.

Lemma validateAlternateSlots_accepts (db : DB) (l : list TimetableSlotPayload.t) :
  Forall (validSlotBody db) l ->
  validateAlternateSlots db l = inr (map normaliseSlot l).
Proof.
  induction 1 as [|x l Hx Hl IH]; simpl; [reflexivity|].
  unfold bind. now rewrite (validateAlternateSlot_accepts _ _ Hx), IH.
Qed.

Section AlternateAccepts.

Variable utcDayOf : string -> option Date.

(** X11.  [setAlternateTimetable] accepts every well-formed batch: for a
    date string [YYYY-MM-DD] that the runtime reads as a day, and an array
    of slots that each have two valid times with the start before the
    end, a class, a subject and, when a teacher is named, a TEACHER user,
    no two of which have overlapping times with the same teacher or the
    same class and section, the request succeeds whatever is stored: it
    answers one created slot for each submitted slot, in order, and these
    are then exactly the slots stored for the date.  In particular an
    empty array clears the date. *)
Theorem setAlternateTimetable_accepts (db : DB) (p : AlternateTimetablePayload.t)
  (dateString : string) (d : Date) (submitted : list TimetableSlotPayload.t) :
  AlternateTimetablePayload.date p = Some dateString ->
  AlternateTimetablePayload.slots p = Some submitted ->
  matchesYYYYMMDD dateString = true ->
  utcDayOf dateString = Some d ->
  Forall (validSlotBody db) submitted ->
  (forall i j si sj,
      nth_error submitted i = Some si ->
      nth_error submitted j = Some sj ->
      i <> j ->
      clash si sj = false) ->
  exists db' created,
    setAlternateTimetable utcDayOf db p = (db', inr created)
    /\ findManyByDate db' d = created
    /\ List.length created = List.length submitted
    /\ map (withId "") created
       = map (alternateSlotData (getDayOfWeekFromDate d) d)
           (map normaliseSlot submitted).
Proof.
  intros Hdate Hslots Hshape Hday Hvalid Hfree.
  assert (Hreach : reachesTransaction utcDayOf db p d submitted).
  { exists dateString. repeat (split; [assumption|]).
    split; [|split; [assumption|split; [assumption|]]].
    - intros ->. discriminate.
    - now apply validateAlternateSlots_accepts. }
  destruct (setAlternateTimetable_succeeds utcDayOf db p d submitted Hreach Hfree)
    as (db' & created & Hrun).
  exists db', created. split; [assumption|].
  destruct (setAlternateTimetable_replaces utcDayOf _ _ _ _ Hrun)
    as (d' & submitted' & Hreach' & Hfound & Hcreated & _).
  destruct Hreach as (ds & Hd1 & Hs1 & _ & Hu1 & _).
  destruct Hreach' as (ds' & Hd2 & Hs2 & _ & Hu2 & _).
  assert (ds' = ds) by congruence. subst ds'.
  assert (d' = d) by congruence. subst d'.
  assert (submitted' = submitted) by congruence. subst submitted'.
  split; [assumption|]. split; [|assumption].
  apply (f_equal (@List.length _)) in Hcreated.
  now rewrite !length_map in Hcreated.
Qed.

End AlternateAccepts.

Lemma setAlternateTimetable_accepts_witness :
  exists db' created,
    setAlternateTimetable isoDate storedThursday examPrep = (db', inr created)
    /\ findManyByDate db' 19971 = created
    /\ List.length created = 2%nat
    /\ map (withId "") created
       = map (alternateSlotData (getDayOfWeekFromDate 19971) 19971)
           (map normaliseSlot
              [altSlot "09:00" "11:00" "Grade10" "A" "Exam Prep 1" (Some "t1");
               altSlot "11:30" "13:30" "Grade10" "A" "Exam Prep 2" None]).
Proof.
  apply (setAlternateTimetable_accepts isoDate storedThursday examPrep
           "2024-09-05" 19971
           [altSlot "09:00" "11:00" "Grade10" "A" "Exam Prep 1" (Some "t1");
            altSlot "11:30" "13:30" "Grade10" "A" "Exam Prep 2" None]).
  - reflexivity.
  - reflexivity.
  - reflexivity.
  - reflexivity.
  - constructor; [|constructor; [|constructor]];
      (repeat (split; [reflexivity|]));
      intros t Ht; try discriminate Ht;
      injection Ht as <-; intros _; vm_compute; discriminate.
  - intros [|[|[|i]]] [|[|[|j]]] si sj Hi Hj Hne; simpl in Hi, Hj;
      try discriminate; try (now destruct Hne);
      injection Hi as <-; injection Hj as <-; reflexivity.
Defined.

(** ** The substitute assignment manager, continued *)

Lemma firstOverlap_None_iff (rows : list TimetableSlot) (a b : string) :
  firstOverlap rows a b = None
  <-> forall s, In s rows ->
        doTimeSlotsOverlap (startTime s) (endTime s) a b = false.
Proof.
  split.
  - intros H s Hin. unfold firstOverlap in H.
    exact (find_none _ _ H s Hin).
  - intros H. destruct (firstOverlap rows a b) as [s|] eqn:E; [|reflexivity].
    apply firstOverlap_Some in E. destruct E as [Hin Ho].
    rewrite (H s Hin) in Ho. discriminate.
Qed.

Lemma substituteConflicts_In (db : DB) (slotToUpdate s : TimetableSlot)
  (sid sub : string) :
  In s (substituteConflicts db slotToUpdate sid sub)
  <-> In s (timetableSlots db)
      /\ (teacherId s = Some sub \/ substituteTeacherId s = Some sub)
      /\ dayOfWeek s = dayOfWeek slotToUpdate
      /\ date s = date slotToUpdate
      /\ id s <> sid.
Proof.
  unfold substituteConflicts. rewrite filter_In, !andb_true_iff, orb_true_iff,
    !optEqb_string_eq, DayOfWeek_eqb_eq, optEqb_Z_eq, negb_true_iff,
    String.eqb_neq.
  tauto.
Qed.

Lemma truthy_Some (x : string) : x <> "" -> truthy (Some x) = true.
Proof. intros H. simpl. now apply negb_true_iff, String.eqb_neq. Qed.

(** What a successful [assignSubstituteTeacher] has checked and done *)
Lemma assignSubstituteTeacher_inv (db db' : DB) (p : AssignSubstitutePayload.t)
  (r : TimetableSlotWithRelations.t) :
  assignSubstituteTeacher db p = (db', inr r) ->
  exists sid sub slot,
    p = AssignSubstitutePayload.mk (Some sid) (Some sub)
    /\ sid <> "" /\ sub <> ""
    /\ findUnique db sid = Some slot
    /\ findTeacher db sub <> None
    /\ teacherId slot <> Some sub
    /\ firstOverlap (substituteConflicts db slot sid sub)
         (startTime slot) (endTime slot) = None
    /\ substituteTeacherId slot <> Some sub
    /\ db' = updateSubstitute db sid (Some sub)
    /\ r = withRelations db' (withSubstitute (Some sub) slot).
Proof.
  destruct p as [[sid|] [sub|]]; unfold assignSubstituteTeacher;
    cbn [AssignSubstitutePayload.timetableSlotId
           AssignSubstitutePayload.substituteTeacherId strOf truthy];
    try (destruct (String.eqb sid "") eqn:E1);
    try (destruct (String.eqb sub "") eqn:E2);
    cbn [negb orb]; try discriminate.
  apply String.eqb_neq in E1, E2.
  destruct (findUnique db sid) as [slot|] eqn:Hslot; [|discriminate].
  destruct (findTeacher db sub) as [u|] eqn:Hu; [|discriminate].
  destruct (_ && optEqb String.eqb (teacherId slot) (Some sub)) eqn:Hself;
    [discriminate|].
  destruct (firstOverlap _ _ _) eqn:Hfree; [discriminate|].
  destruct (optEqb String.eqb (substituteTeacherId slot) _) eqn:Halready;
    [discriminate|].
  intros [= <- <-]. exists sid, sub, slot.
  split; [reflexivity|]. split; [assumption|]. split; [assumption|].
  split; [assumption|]. split; [rewrite Hu; discriminate|].
  split.
  { intros Ht. rewrite Ht in Hself. cbn [optEqb truthy] in Hself.
    rewrite String.eqb_refl, andb_true_r in Hself.
    apply negb_false_iff, String.eqb_eq in Hself. congruence. }
  split; [assumption|].
  split; [|split; reflexivity].
  intros Hs. apply optEqb_string_eq in Hs. congruence.
Qed.

Lemma assignSubstituteTeacher_run (db : DB) (sid sub : string)
  (slot : TimetableSlot) :
  sid <> "" -> sub <> "" ->
  findUnique db sid = Some slot ->
  findTeacher db sub <> None ->
  teacherId slot <> Some sub ->
  firstOverlap (substituteConflicts db slot sid sub)
    (startTime slot) (endTime slot) = None ->
  assignSubstituteTeacher db (AssignSubstitutePayload.mk (Some sid) (Some sub))
  = if optEqb String.eqb (substituteTeacherId slot) (Some sub)
    then (db, inl (ConflictError "Substitute teacher conflict" None))
    else (updateSubstitute db sid (Some sub),
          inr (withRelations (updateSubstitute db sid (Some sub))
                 (withSubstitute (Some sub) slot))).
Proof.
  intros Hne1 Hne2 Hslot Hu Hself Hfree. unfold assignSubstituteTeacher.
  cbn [AssignSubstitutePayload.timetableSlotId
         AssignSubstitutePayload.substituteTeacherId strOf].
  rewrite (truthy_Some _ Hne1), (truthy_Some _ Hne2). cbn [negb orb].
  rewrite Hslot. destruct (findTeacher db sub); [|congruence].
  destruct (optEqb String.eqb (teacherId slot) (Some sub)) eqn:E.
  { apply optEqb_string_eq in E. congruence. }
  rewrite andb_false_r, Hfree. reflexivity.
Qed.

(** X12.  When [assignSubstituteTeacher] succeeds.  A request that names a
    slot and a substitute succeeds exactly when the slot exists, the
    substitute is a TEACHER user who is neither the slot's teacher nor
    already its substitute, and the slot's time overlaps no other slot of
    the same day of the week and the same date (or, for a weekly slot,
    no other weekly slot) that the substitute teaches or substitutes. *)
Theorem assignSubstituteTeacher_succeeds_iff (db : DB) (sid sub : string) :
  sid <> "" -> sub <> "" ->
  (exists db' r,
      assignSubstituteTeacher db
        (AssignSubstitutePayload.mk (Some sid) (Some sub)) = (db', inr r))
  <-> exists slot,
      findUnique db sid = Some slot
      /\ findTeacher db sub <> None
      /\ teacherId slot <> Some sub
      /\ substituteTeacherId slot <> Some sub
      /\ forall s,
          In s (timetableSlots db) ->
          id s <> sid ->
          dayOfWeek s = dayOfWeek slot ->
          date s = date slot ->
          teacherId s = Some sub \/ substituteTeacherId s = Some sub ->
          doTimeSlotsOverlap (startTime s) (endTime s)
            (startTime slot) (endTime slot) = false.
Proof.
  intros Hne1 Hne2. split.
  - intros (db' & r & H). apply assignSubstituteTeacher_inv in H.
    destruct H as (sid' & sub' & slot & Hp & _ & _ & Hslot & Hu & Hself & Hfree
                   & Halready & _).
    injection Hp as <- <-. exists slot. repeat (split; [assumption|]).
    intros s Hin Hid Hday Hdate Hrole.
    rewrite firstOverlap_None_iff in Hfree. apply Hfree.
    apply substituteConflicts_In. auto.
  - intros (slot & Hslot & Hu & Hself & Halready & Hfree).
    rewrite (assignSubstituteTeacher_run db sid sub slot) by
      (try assumption; apply firstOverlap_None_iff; intros s Hin;
       apply substituteConflicts_In in Hin;
       destruct Hin as (Hin & Hrole & Hday & Hdate & Hid); now apply Hfree).
    destruct (optEqb String.eqb (substituteTeacherId slot) (Some sub)) eqn:E;
      [|eauto].
    apply optEqb_string_eq in E. congruence.
Qed.

Lemma assignSubstituteTeacher_succeeds_iff_witness :
  exists db' r,
    assignSubstituteTeacher substitutionDB
      (AssignSubstitutePayload.mk (Some "s2") (Some "t2")) = (db', inr r).
Proof.
  assert (H1 : "s2" <> "") by discriminate.
  assert (H2 : "t2" <> "") by discriminate.
  apply (proj2 (assignSubstituteTeacher_succeeds_iff substitutionDB "s2" "t2"
                  H1 H2)).
  exists weeklyMonday.
  split; [reflexivity|]. split; [discriminate|]. split; [discriminate|].
  split; [discriminate|].
  intros s [<-|[<-|[]]] Hid Hday Hdate Hrole;
    first [discriminate Hdate | now destruct Hid].
Defined.

(** X13.  A 409 of [assignSubstituteTeacher] that carries a
    [conflictingSlot] reports a real double booking: nothing was written,
    and the slot reported is a stored slot other than the one named, of
    the same day of the week and the same date, which the substitute
    teaches or already substitutes, and whose time overlaps the named
    slot's. *)
Theorem assign_conflict_report_sound (db db' : DB) (p : AssignSubstitutePayload.t)
  (message : string) (s : TimetableSlot) :
  assignSubstituteTeacher db p = (db', inl (ConflictError message (Some s))) ->
  exists sid sub slot,
    AssignSubstitutePayload.timetableSlotId p = Some sid
    /\ AssignSubstitutePayload.substituteTeacherId p = Some sub
    /\ findUnique db sid = Some slot
    /\ db' = db
    /\ In s (timetableSlots db)
    /\ id s <> sid
    /\ (teacherId s = Some sub \/ substituteTeacherId s = Some sub)
    /\ dayOfWeek s = dayOfWeek slot
    /\ date s = date slot
    /\ doTimeSlotsOverlap (startTime s) (endTime s)
         (startTime slot) (endTime slot) = true.
Proof.
  destruct p as [[sid|] [sub|]]; unfold assignSubstituteTeacher;
    cbn [AssignSubstitutePayload.timetableSlotId
           AssignSubstitutePayload.substituteTeacherId strOf truthy];
    try (destruct (String.eqb sid "") eqn:E1);
    try (destruct (String.eqb sub "") eqn:E2);
    cbn [negb orb]; try discriminate.
  destruct (findUnique db sid) as [slot|] eqn:Hslot; [|discriminate].
  destruct (findTeacher db sub) as [u|]; [|discriminate].
  destruct (_ && optEqb String.eqb (teacherId slot) (Some sub)); [discriminate|].
  destruct (firstOverlap _ _ _) as [existingSlot|] eqn:Hfound.
  - intros [= <- _ <-]. apply firstOverlap_Some in Hfound.
    destruct Hfound as [Hin Ho]. apply substituteConflicts_In in Hin.
    exists sid, sub, slot. intuition auto.
  - destruct (optEqb String.eqb (substituteTeacherId slot) _); discriminate.
Qed.

Lemma assign_conflict_report_sound_witness :
  exists sid sub slot,
    Some "s4" = Some sid
    /\ Some "t2" = Some sub
    /\ findUnique mondayDB sid = Some slot
    /\ mondayDB = mondayDB
    /\ In mathsMondaySubstituted (timetableSlots mondayDB)
    /\ id mathsMondaySubstituted <> sid
    /\ (teacherId mathsMondaySubstituted = Some sub
        \/ substituteTeacherId mathsMondaySubstituted = Some sub)
    /\ dayOfWeek mathsMondaySubstituted = dayOfWeek slot
    /\ date mathsMondaySubstituted = date slot
    /\ doTimeSlotsOverlap (startTime mathsMondaySubstituted)
         (endTime mathsMondaySubstituted) (startTime slot) (endTime slot) = true.
Proof.
  apply (assign_conflict_report_sound mondayDB mondayDB
           (AssignSubstitutePayload.mk (Some "s4") (Some "t2"))
           "Substitute teacher conflict: Teacher is already assigned to another slot during this time."
           mathsMondaySubstituted).
  reflexivity.
Defined.

Lemma findUnique_updateSubstitute (db : DB) (sid : string) (sub : option string)
  (slot : TimetableSlot) :
  findUnique db sid = Some slot ->
  findUnique (updateSubstitute db sid sub) sid = Some (withSubstitute sub slot).
Proof.
  unfold findUnique. cbn [updateSubstitute timetableSlots].
  induction (timetableSlots db) as [|s l IH]; simpl; [discriminate|].
  destruct (String.eqb (id s) sid) eqn:E.
  - intros [= ->]. cbn. now rewrite E.
  - intros H. rewrite E. now apply IH.
Qed.

Lemma filter_map_fixed {A} (f : A -> bool) (g : A -> A) (l : list A) :
  (forall x, f (g x) = f x) -> (forall x, f x = true -> g x = x) ->
  filter f (map g l) = filter f l.
Proof.
  intros Hf Hg. induction l as [|x l IH]; simpl; [reflexivity|].
  rewrite Hf, IH. destruct (f x) eqn:E; [|reflexivity].
  now rewrite (Hg x E).
Qed.

Lemma substituteConflicts_updateSubstitute (db : DB) (sid sub : string)
  (x : option string) (slot : TimetableSlot) :
  substituteConflicts (updateSubstitute db sid x) (withSubstitute x slot) sid sub
  = substituteConflicts db slot sid sub.
Proof.
  unfold substituteConflicts.
  cbn [updateSubstitute timetableSlots withSubstitute dayOfWeek date].
  apply filter_map_fixed; intros s; destruct (String.eqb (id s) sid) eqn:E;
    cbn [withSubstitute id]; rewrite ?E, ?andb_false_r;
    first [reflexivity | discriminate].
Qed.

Lemma updateSubstitute_twice (db : DB) (sid : string) (x y : option string) :
  updateSubstitute (updateSubstitute db sid x) sid y = updateSubstitute db sid y.
Proof.
  unfold updateSubstitute. cbn. f_equal. rewrite map_map.
  apply map_ext. intros s. destruct (String.eqb (id s) sid) eqn:E.
  - cbn. now rewrite E.
  - now rewrite E.
Qed.

Lemma updateSubstitute_same (db : DB) (sid : string) (x : option string) :
  (forall s, In s (timetableSlots db) -> id s = sid -> substituteTeacherId s = x) ->
  updateSubstitute db sid x = db.
Proof.
  intros H. destruct db as [us rows n]. unfold updateSubstitute. cbn in *.
  f_equal. induction rows as [|s l IH]; simpl; [reflexivity|].
  rewrite IH by (intros s' Hin; apply H; now right). f_equal.
  destruct (String.eqb (id s) sid) eqn:E; [|reflexivity].
  apply String.eqb_eq in E. specialize (H s (or_introl eq_refl) E).
  destruct s. cbn in *. now subst.
Qed.

(** X14.  Assigning and clearing compose as one expects.  Repeating a
    successful [assignSubstituteTeacher] request is answered 409
    [Substitute teacher conflict] and changes nothing; clearing the
    substitute of a slot that had none before the assignment gives back
    the database as it was before it; and clearing a slot a second time
    changes nothing and gives the same answer. *)
Theorem substitute_round_trip (db : DB) :
  (forall p db' r,
      assignSubstituteTeacher db p = (db', inr r) ->
      assignSubstituteTeacher db' p
      = (db', inl (ConflictError "Substitute teacher conflict" None)))
  /\ (forall p db' r,
         assignSubstituteTeacher db p = (db', inr r) ->
         (forall s, In s (timetableSlots db) ->
                    Some (id s) = AssignSubstitutePayload.timetableSlotId p ->
                    substituteTeacherId s = None) ->
         exists r',
           clearSubstituteTeacher db' (AssignSubstitutePayload.timetableSlotId p)
           = (db, inr r'))
  /\ (forall q db' r,
         clearSubstituteTeacher db q = (db', inr r) ->
         clearSubstituteTeacher db' q = (db', inr r)).
Proof.
  split; [|split].
  - intros p db' r H. apply assignSubstituteTeacher_inv in H.
    destruct H as (sid & sub & slot & -> & Hne1 & Hne2 & Hslot & Hu & Hself
                   & Hfree & _ & -> & _).
    rewrite (assignSubstituteTeacher_run _ sid sub (withSubstitute (Some sub) slot));
      try assumption.
    + cbn [withSubstitute substituteTeacherId]. cbn [optEqb].
      now rewrite String.eqb_refl.
    + now apply findUnique_updateSubstitute.
    + now rewrite substituteConflicts_updateSubstitute.
  - intros p db' r H Hnone. apply assignSubstituteTeacher_inv in H.
    destruct H as (sid & sub & slot & -> & Hne1 & Hne2 & Hslot & _ & _ & _ & _
                   & -> & _).
    cbn [AssignSubstitutePayload.timetableSlotId] in *.
    unfold clearSubstituteTeacher. rewrite (truthy_Some _ Hne1). cbn [negb strOf].
    rewrite (findUnique_updateSubstitute _ _ _ _ Hslot).
    rewrite updateSubstitute_twice, updateSubstitute_same; [eauto|].
    intros s Hin Hid. apply Hnone; congruence.
  - intros q db' r. unfold clearSubstituteTeacher.
    destruct (negb (truthy q)); [discriminate|].
    destruct (findUnique db (strOf q)) as [slot|] eqn:Hslot; [|discriminate].
    intros [= <- <-]. rewrite (findUnique_updateSubstitute _ _ _ _ Hslot).
    rewrite updateSubstitute_twice. reflexivity.
Qed.

Lemma substitute_round_trip_witness :
  let p := AssignSubstitutePayload.mk (Some "s2") (Some "t2") in
  let db' := fst (assignSubstituteTeacher substitutionDB p) in
  assignSubstituteTeacher db' p
  = (db', inl (ConflictError "Substitute teacher conflict" None))
  /\ exists r', clearSubstituteTeacher db' (Some "s2") = (substitutionDB, inr r').
Proof.
  intros p db'.
  destruct (substitute_round_trip substitutionDB) as (Hrepeat & Hclear & _).
  split.
  - apply (Hrepeat p db' (withRelations db' (withSubstitute (Some "t2") weeklyMonday))).
    reflexivity.
  - apply (Hclear p db' (withRelations db' (withSubstitute (Some "t2") weeklyMonday))).
    + reflexivity.
    + intros s [<-|[<-|[]]] Hid; [discriminate Hid|reflexivity].
Defined.

(** ** The listings: order, annotations, and the two teacher listings *)

Lemma insertSorted_map {A B} (f : A -> B) (cmp : B -> B -> JSNumber)
  (x : A) (l : list A) :
  map f (insertSorted (fun a b => cmp (f a) (f b)) x l)
  = insertSorted cmp (f x) (map f l).
Proof.
  induction l as [|y l IH]; cbn [insertSorted map]; [reflexivity|].
  unfold notAfter.
  destruct (cmp (f x) (f y)) as [v|]; [destruct (v <=? 0)|]; cbn [map];
    rewrite ?IH; reflexivity.
Qed.

Lemma sort_map {A B} (f : A -> B) (cmp : B -> B -> JSNumber) (l : list A) :
  map f (sort (fun a b => cmp (f a) (f b)) l) = sort cmp (map f l).
Proof.
  induction l as [|x l IH]; simpl; [reflexivity|].
  now rewrite insertSorted_map, IH.
Qed.

Lemma notAfter_compareSlots (a b : TimetableSlot) (ta tb : Z) :
  timeToMinutes (startTime a) = Some ta ->
  timeToMinutes (startTime b) = Some tb ->
  if notAfter compareSlots a b then inTimetableOrder a b
  else inTimetableOrder b a.
Proof.
  intros Ha Hb. unfold notAfter, compareSlots, inTimetableOrder.
  rewrite Ha, Hb. simpl.
  destruct (dayOrder (dayOfWeek a) - dayOrder (dayOfWeek b) =? 0) eqn:E; simpl.
  - apply Z.eqb_eq in E. destruct (ta - tb <=? 0) eqn:E'.
    + apply Z.leb_le in E'. exists ta, tb. repeat split; try assumption.
      right. lia.
    + apply Z.leb_gt in E'. exists tb, ta. repeat split; try assumption.
      right. lia.
  - apply Z.eqb_neq in E.
    destruct (dayOrder (dayOfWeek a) - dayOrder (dayOfWeek b) <=? 0) eqn:E'.
    + apply Z.leb_le in E'. exists ta, tb. repeat split; try assumption.
      left. lia.
    + apply Z.leb_gt in E'. exists tb, ta. repeat split; try assumption.
      left. lia.
Qed.

Lemma inTimetableOrder_trans (a b c : TimetableSlot) :
  inTimetableOrder a b -> inTimetableOrder b c -> inTimetableOrder a c.
Proof.
  intros (ta & tb & Ha & Hb & Hab) (tb' & tc & Hb' & Hc & Hbc).
  assert (tb' = tb) by congruence. subst tb'.
  exists ta, tc. repeat split; try assumption. lia.
Qed.

Lemma insertSorted_sorted (x : TimetableSlot) (l : list TimetableSlot) :
  timeToMinutes (startTime x) <> None ->
  Forall (fun s => timeToMinutes (startTime s) <> None) l ->
  StronglySorted inTimetableOrder l ->
  StronglySorted inTimetableOrder (insertSorted compareSlots x l).
Proof.
  intros Hx Hl Hs. induction Hs as [|y l Hs IH Hy]; simpl.
  - constructor; constructor.
  - inversion Hl as [|? ? Hty Hl']; subst.
    destruct (timeToMinutes (startTime x)) as [tx|] eqn:Ex; [|congruence].
    destruct (timeToMinutes (startTime y)) as [ty|] eqn:Ey; [|congruence].
    pose proof (notAfter_compareSlots x y tx ty Ex Ey) as Hcmp.
    destruct (notAfter compareSlots x y).
    + constructor; [constructor; assumption|].
      constructor; [assumption|].
      eapply Forall_impl; [|exact Hy]. intros z Hz.
      eapply inTimetableOrder_trans; eassumption.
    + constructor; [now apply IH|].
      apply Forall_forall. intros z Hz.
      apply (Permutation_in _ (insertSorted_perm compareSlots x l)) in Hz.
      destruct Hz as [<-|Hz]; [assumption|].
      rewrite Forall_forall in Hy. now apply Hy.
Qed.

Lemma sort_sorted (l : list TimetableSlot) :
  Forall (fun s => timeToMinutes (startTime s) <> None) l ->
  StronglySorted inTimetableOrder (sort compareSlots l).
Proof.
  induction 1 as [|x l Hx Hl IH]; simpl; [constructor|].
  apply insertSorted_sorted; [assumption| |assumption].
  apply Forall_forall. intros z Hz.
  apply (Permutation_in _ (sort_perm compareSlots l)) in Hz.
  rewrite Forall_forall in Hl. now apply Hl.
Qed.

Lemma wellFormed_start (db : DB) (l : list TimetableSlot) :
  Forall (wellFormedSlot db) (timetableSlots db) ->
  (forall s, In s l -> In s (timetableSlots db)) ->
  Forall (fun s => timeToMinutes (startTime s) <> None) l.
Proof.
  intros Hwf Hin. apply Forall_forall. intros s Hs.
  rewrite Forall_forall in Hwf. destruct (Hwf s (Hin s Hs)) as (Hv & _).
  destruct (timeToMinutes_valid _ Hv) as (m & -> & _). discriminate.
Qed.

Lemma filter_stored (db : DB) (f : TimetableSlot -> bool) :
  forall s, In s (filter f (timetableSlots db)) -> In s (timetableSlots db).
Proof. intros s Hs. now apply filter_In in Hs. Qed.

Section ListingOrder.

Variable utcDayOf : string -> option Date.

(** X15.  Every listing comes out in timetable order.  On a table of
    well-formed slots, the rows answered by [getTimetableForClassSection],
    by the teacher's [getTeacherTimetable] and by the [getTeacherTimetable]
    of [admin.controller.ts] are sorted: each row comes no later than all
    the rows after it, by day of the week (MONDAY first, SUNDAY last) and,
    within a day, by start time. *)
Theorem listings_in_timetable_order (db : DB) :
  Forall (wellFormedSlot db) (timetableSlots db) ->
  (forall studentClass sectionParam q rows,
      getTimetableForClassSection utcDayOf db studentClass sectionParam q
      = inr rows ->
      StronglySorted inTimetableOrder (map ClassRow.slot rows))
  /\ (forall viewer q rows,
         getTeacherTimetable utcDayOf db viewer q = inr rows ->
         StronglySorted inTimetableOrder (map TeacherRow.slot rows))
  /\ (forall teacher q rows,
         AdminController.getTeacherTimetable utcDayOf db teacher q = inr rows ->
         StronglySorted inTimetableOrder rows).
Proof.
  intros Hwf. split; [|split].
  - intros c sec q rows. unfold getTimetableForClassSection, bind, rejectIf.
    destruct (String.eqb c ""); [discriminate|].
    assert (Hsorted : forall f,
               StronglySorted inTimetableOrder
                 (map ClassRow.slot
                    (sort compareClassRows
                       (map (withTeacher db) (filter f (timetableSlots db)))))).
    { intros f. unfold compareClassRows.
      rewrite (sort_map ClassRow.slot compareSlots), map_slot_withTeacher.
      apply sort_sorted, (wellFormed_start db); [assumption|].
      apply filter_stored. }
    unfold classSlotsOnDate, classWeeklySlotsOnDay, classWeeklySlots.
    destruct (truthy q).
    + destruct (utcDayOf (strOf q)); [|discriminate].
      destruct (0 <? _)%nat; intros [= <-]; apply Hsorted.
    + intros [= <-]. apply Hsorted.
  - intros viewer q rows. unfold getTeacherTimetable, bind.
    destruct (effectiveSlotsForTeacher utcDayOf db viewer q) as [e|effective]
      eqn:He; [discriminate|].
    intros [= <-]. unfold compareTeacherRows.
    rewrite (sort_map TeacherRow.slot compareSlots), map_slot_finalSlot.
    apply sort_sorted, (wellFormed_start db); [assumption|].
    intros s Hs.
    now destruct (effectiveSlotsForTeacher_sound utcDayOf _ _ _ _ _ He Hs).
  - intros teacher q rows.
    unfold AdminController.getTeacherTimetable, bind, findMany.
    assert (Hsorted : forall f,
               StronglySorted inTimetableOrder
                 (sort compareSlots (filter f (timetableSlots db)))).
    { intros f. apply sort_sorted, (wellFormed_start db); [assumption|].
      apply filter_stored. }
    destruct (truthy q).
    + destruct (utcDayOf (strOf q)); [|discriminate].
      destruct (0 <? _)%nat; intros [= <-]; apply Hsorted.
    + intros [= <-]. apply Hsorted.
Qed.

(** X16.  What a teacher sees in their own timetable.  Every row of
    [getTeacherTimetable] is a stored slot the viewer teaches: either the
    viewer is its substitute, and the row is flagged
    [isSubstituteAssignment], or the viewer is its teacher and it has no
    substitute, and the row is not flagged.  In both cases
    [teachingTeacherName] is the viewer's own name, and
    [originalTeacherName] the name of the slot's teacher. *)
Theorem teacher_listing_names_viewer (db : DB) (viewer : string)
  (q : option string) (rows : list TeacherRow.t) :
  viewer <> "" ->
  getTeacherTimetable utcDayOf db viewer q = inr rows ->
  Forall (fun r =>
            let s := TeacherRow.slot r in
            In s (timetableSlots db)
            /\ TeacherRow.teachingTeacherName r
               = option_map refName (relatedUser db (Some viewer))
            /\ TeacherRow.originalTeacherName r
               = option_map refName (relatedUser db (teacherId s))
            /\ ((TeacherRow.isSubstituteAssignment r = true
                 /\ substituteTeacherId s = Some viewer)
                \/ (TeacherRow.isSubstituteAssignment r = false
                    /\ teacherId s = Some viewer
                    /\ substituteTeacherId s = None)))
    rows.
Proof.
  intros Hne. unfold getTeacherTimetable, bind.
  destruct (effectiveSlotsForTeacher utcDayOf db viewer q) as [e|effective]
    eqn:He; [discriminate|].
  intros [= <-]. apply Forall_forall. intros r Hr.
  apply (Permutation_in _ (sort_perm _ _)) in Hr.
  apply in_map_iff in Hr. destruct Hr as (s & <- & Hs).
  destruct (effectiveSlotsForTeacher_sound utcDayOf _ _ _ _ _ He Hs)
    as [Hin [Hsub|[Hteach Hnone]]]; cbn.
  - split; [assumption|]. rewrite Hsub, (truthy_Some _ Hne). cbn.
    rewrite String.eqb_refl. auto.
  - split; [assumption|]. rewrite Hnone, Hteach. cbn. auto 6.
Qed.

Lemma filter_none_in {A} (f : A -> bool) (l : list A) :
  (forall x, In x l -> f x = false) -> filter f l = [].
Proof. intros H. apply filter_none, Forall_forall, H. Qed.

(** X17.  The [getTeacherTimetable] of [admin.controller.ts] is the
    teacher's listing as it was before substitutes: as long as no stored
    slot has a substitute, the two handlers answer the same slots in the
    same order, and the same 400 for a date that cannot be read. *)
Theorem teacher_listings_agree_without_substitutes (db : DB) (teacher : string)
  (q : option string) :
  Forall (fun s => substituteTeacherId s = None) (timetableSlots db) ->
  AdminController.getTeacherTimetable utcDayOf db teacher q
  = match getTeacherTimetable utcDayOf db teacher q with
    | inl e => inl e
    | inr rows => inr (map TeacherRow.slot rows)
    end.
Proof.
  intros Hns. rewrite Forall_forall in Hns.
  unfold AdminController.getTeacherTimetable, getTeacherTimetable,
    effectiveSlotsForTeacher, bind, findMany.
  cbv beta zeta.
  assert (Hrows : forall l,
             map TeacherRow.slot
               (sort compareTeacherRows
                  (map (fun s => finalSlot teacher (withRelations db s)) l))
             = sort compareSlots l).
  { intros l. unfold compareTeacherRows.
    now rewrite (sort_map TeacherRow.slot compareSlots), map_slot_finalSlot. }
  destruct (truthy q);
    [destruct (utcDayOf (strOf q)) as [targetDate|]; [|reflexivity]|];
    repeat match goal with
           | |- context [filter ?f (timetableSlots db)] =>
               rewrite (filter_none_in f (timetableSlots db))
                 by (intros s Hin; rewrite (Hns s Hin); cbn;
                     rewrite ?andb_false_r; reflexivity)
           end;
    repeat match goal with
           | |- context [filter ?f (timetableSlots db)] =>
               lazymatch f with context [substituteTeacherId] => idtac end;
               erewrite (filter_ext_in f _ (timetableSlots db))
                 by (intros s Hin; rewrite (Hns s Hin); cbn [isNull];
                     rewrite andb_true_r; reflexivity)
           end;
    cbn [List.length Nat.ltb Nat.leb orb app];
    rewrite ?orb_false_r, ?app_nil_r.
  - match goal with
    | |- context [match ?n with O => false | S _ => true end] => destruct n
    end; now rewrite Hrows.
  - now rewrite Hrows.
Qed.

End ListingOrder.

Lemma listingDB_wellFormed :
  Forall (wellFormedSlot listingDB) (timetableSlots listingDB).
Proof. wellFormed_by_computation. Qed.

Lemma listings_in_timetable_order_witness :
  Forall (wellFormedSlot listingDB) (timetableSlots listingDB)
  /\ exists rows,
      getTimetableForClassSection isoDate listingDB "Grade10" (Some "A") None
      = inr rows
      /\ map ClassRow.slot rows = [regularThursday; regularFriday]
      /\ StronglySorted inTimetableOrder (map ClassRow.slot rows).
Proof.
  split; [exact listingDB_wellFormed|].
  eexists. split; [reflexivity|]. split; [reflexivity|].
  apply (proj1 (listings_in_timetable_order isoDate listingDB
                  listingDB_wellFormed) "Grade10" (Some "A") None).
  reflexivity.
Defined.

Lemma teacher_listing_names_viewer_witness :
  exists rows,
    getTeacherTimetable isoDate substitutionDB "t2" (Some "2024-12-02")
    = inr rows
    /\ map TeacherRow.slot rows = [subbedOnDate]
    /\ Forall (fun r =>
                 let s := TeacherRow.slot r in
                 In s (timetableSlots substitutionDB)
                 /\ TeacherRow.teachingTeacherName r
                    = option_map refName
                        (relatedUser substitutionDB (Some "t2"))
                 /\ TeacherRow.originalTeacherName r
                    = option_map refName
                        (relatedUser substitutionDB (teacherId s))
                 /\ ((TeacherRow.isSubstituteAssignment r = true
                      /\ substituteTeacherId s = Some "t2")
                     \/ (TeacherRow.isSubstituteAssignment r = false
                         /\ teacherId s = Some "t2"
                         /\ substituteTeacherId s = None)))
         rows.
Proof.
  assert (Hne : "t2" <> "") by discriminate.
  eexists. split; [reflexivity|]. split; [reflexivity|].
  apply (teacher_listing_names_viewer isoDate substitutionDB "t2"
           (Some "2024-12-02") _ Hne).
  reflexivity.
Defined.

Lemma teacher_listings_agree_without_substitutes_witness :
  AdminController.getTeacherTimetable isoDate
    (mkDB someUsers [chemistryMonday; mathsMonday] 5) "t1" None
  = match getTeacherTimetable isoDate
            (mkDB someUsers [chemistryMonday; mathsMonday] 5) "t1" None with
    | inl e => inl e
    | inr rows => inr (map TeacherRow.slot rows)
    end.
Proof.
  apply (teacher_listings_agree_without_substitutes isoDate
           (mkDB someUsers [chemistryMonday; mathsMonday] 5) "t1" None).
  repeat constructor.
Defined.

(** ** Students: the parent mapping *)

Lemma findStudent_In (db : Registry) (sid : string) (s : Student.t) :
  findStudent db sid = Some s -> In s (students db) /\ Student.id s = sid.
Proof.
  unfold findStudent. intros H. apply find_some in H.
  destruct H as [Hin Heq]. apply String.eqb_eq in Heq. auto.
Qed.

Lemma findStudent_updateStudent (db : Registry) (sid : string)
  (data : Student.t -> Student.t) (s : Student.t) :
  (forall x, Student.id (data x) = Student.id x) ->
  findStudent db sid = Some s ->
  findStudent (updateStudent db sid data) sid = Some (data s).
Proof.
  intros Hid. unfold findStudent. cbn [updateStudent students].
  induction (students db) as [|x l IH]; simpl; [discriminate|].
  destruct (String.eqb (Student.id x) sid) eqn:E.
  - intros [= ->]. now rewrite Hid, E.
  - intros H. rewrite E. now apply IH.
Qed.

Lemma updateStudent_rows (db : Registry) (sid : string)
  (data : Student.t -> Student.t) :
  Forall2 (fun s' s => s' = if String.eqb (Student.id s) sid then data s else s)
    (students (updateStudent db sid data)) (students db).
Proof.
  cbn [updateStudent students].
  induction (students db) as [|x l IH]; simpl; constructor; auto.
Qed.

Lemma findStudent_unique (db : Registry) (s : Student.t) :
  NoDup (map Student.id (students db)) ->
  In s (students db) ->
  findStudent db (Student.id s) = Some s.
Proof.
  unfold findStudent. induction (students db) as [|x l IH]; simpl; [tauto|].
  intros Hnd Hin. inversion Hnd as [|? ? Hx Hl]; subst.
  destruct Hin as [->|Hin]; [now rewrite String.eqb_refl|].
  destruct (String.eqb (Student.id x) (Student.id s)) eqn:E; [|now apply IH].
  apply String.eqb_eq in E. exfalso. apply Hx. rewrite E.
  now apply in_map.
Qed.

(** What a successful [mapParentToStudent] has checked and done *)
Lemma mapParentToStudent_inv (db db' : Registry) (studentId parentId : option string)
  (r : MappedStudent.t) :
  mapParentToStudent db studentId parentId = (db', inr r) ->
  exists sid pid student parentUser,
    studentId = Some sid /\ parentId = Some pid /\ sid <> "" /\ pid <> ""
    /\ findStudent db sid = Some student
    /\ findUser db pid = Some parentUser
    /\ User.role parentUser = PARENT
    /\ truthy (Student.parentId student) = false
    /\ db' = updateStudent db sid (withParent (Some pid))
    /\ r = MappedStudent.mk (withParent (Some pid) student)
             (Some (mkRef (User.id parentUser) (User.name parentUser))).
Proof.
  unfold mapParentToStudent.
  destruct (truthy studentId) eqn:Hs; [|discriminate].
  destruct (truthy parentId) eqn:Hp; [|discriminate].
  cbn [negb orb].
  destruct studentId as [sid|]; [|discriminate].
  destruct parentId as [pid|]; [|discriminate].
  cbn [strOf].
  destruct (findStudent db sid) as [student|] eqn:Hstudent; [|discriminate].
  destruct (findUser db pid) as [parentUser|] eqn:Hparent; [|discriminate].
  destruct (Role_eqb (User.role parentUser) PARENT) eqn:Hrole; [|discriminate].
  cbn [negb].
  destruct (truthy (Student.parentId student)) eqn:Hmapped.
  { destruct (optEqb _ _ _); discriminate. }
  intros [= <- <-]. exists sid, pid, student, parentUser.
  destruct (truthy_ne _ Hs) as [Hne1 _]. destruct (truthy_ne _ Hp) as [Hne2 _].
  repeat (split; [first [reflexivity | assumption]|]).
  split; [|auto].
  destruct (User.role parentUser); first [reflexivity | discriminate].
Qed.

(** X18.  [mapParentToStudent] maps a student that has no parent, once.
    A request that names a student and a parent succeeds exactly when the
    student exists, the parent is a user with the role PARENT, and the
    student has no parent yet.  It then writes [parentId], and nothing
    else, to the student with that id, and answers that student; the
    other students and the users stay as they were. *)
Theorem mapParentToStudent_maps_unmapped (db : Registry) (sid pid : string) :
  sid <> "" -> pid <> "" ->
  ((exists db' r, mapParentToStudent db (Some sid) (Some pid) = (db', inr r))
   <-> exists student parentUser,
       findStudent db sid = Some student
       /\ findUser db pid = Some parentUser
       /\ User.role parentUser = PARENT
       /\ truthy (Student.parentId student) = false)
  /\ forall db' r,
      mapParentToStudent db (Some sid) (Some pid) = (db', inr r) ->
      exists student,
        findStudent db sid = Some student
        /\ MappedStudent.student r = withParent (Some pid) student
        /\ option_map refId (MappedStudent.parent r) = Some pid
        /\ findStudent db' sid = Some (MappedStudent.student r)
        /\ registeredUsers db' = registeredUsers db
        /\ Forall2 (fun s' s =>
                      s' = if String.eqb (Student.id s) sid
                           then withParent (Some pid) s else s)
             (students db') (students db).
Proof.
  intros Hne1 Hne2. split; [split|].
  - intros (db' & r & H). apply mapParentToStudent_inv in H.
    destruct H as (sid' & pid' & student & parentUser & [= <-] & [= <-] & _ & _
                   & Hs & Hp & Hrole & Hnone & _).
    eauto 8.
  - intros (student & parentUser & Hs & Hp & Hrole & Hnone).
    unfold mapParentToStudent.
    rewrite (truthy_Some _ Hne1), (truthy_Some _ Hne2). cbn [negb orb strOf].
    rewrite Hs, Hp, Hrole, Hnone. cbn. eauto.
  - intros db' r H. apply mapParentToStudent_inv in H.
    destruct H as (sid' & pid' & student & parentUser & [= <-] & [= <-] & _ & _
                   & Hs & Hp & Hrole & Hnone & -> & ->).
    exists student. cbn [MappedStudent.student MappedStudent.parent option_map refId].
    split; [assumption|]. split; [reflexivity|].
    split. { unfold findUser in Hp. apply find_some in Hp.
             destruct Hp as [_ Hp]. apply String.eqb_eq in Hp. now rewrite Hp. }
    split; [now apply findStudent_updateStudent|].
    split; [reflexivity|]. apply updateStudent_rows.
Qed.

Lemma mapParentToStudent_maps_unmapped_witness :
  exists db' r,
    mapParentToStudent registry (Some "st1") (Some "p1") = (db', inr r).
Proof.
  assert (H1 : "st1" <> "") by discriminate.
  assert (H2 : "p1" <> "") by discriminate.
  apply (proj2 (proj1 (mapParentToStudent_maps_unmapped registry "st1" "p1"
                         H1 H2))).
  exists pupil, parent1. repeat split.
Defined.

(** X19.  The parent mapping is write-once and keeps its invariant.  With
    [id] the primary key of [Student], no request to [mapParentToStudent]
    changes a student that already has a parent: whatever the request, a
    student keeps its [id], [name] and [documents], and a student with a
    parent stays as it is.  And when every student's parent is a user
    with the role PARENT before the request, so it is after it. *)
Theorem mapped_students_stay_mapped (db : Registry)
  (studentId parentId : option string) :
  NoDup (map Student.id (students db)) ->
  let db' := fst (mapParentToStudent db studentId parentId) in
  Forall2 (fun s' s =>
             Student.id s' = Student.id s
             /\ Student.name s' = Student.name s
             /\ Student.documents s' = Student.documents s
             /\ (truthy (Student.parentId s) = true -> s' = s))
    (students db') (students db)
  /\ (parentsAreParents db -> parentsAreParents db').
Proof.
  intros Hnd db'.
  destruct (mapParentToStudent db studentId parentId) as [db1 [e|r]] eqn:H.
  - assert (Hsame : db1 = db).
    { revert H. unfold mapParentToStudent.
      repeat match goal with
             | |- context [if ?c then _ else _] => destruct c
             | |- context [match findStudent ?a ?b with _ => _ end] =>
                 destruct (findStudent a b)
             | |- context [match findUser ?a ?b with _ => _ end] =>
                 destruct (findUser a b)
             end; congruence. }
    subst db'. cbn [fst]. subst db1. split; [|auto].
    clear. induction (students db); constructor; auto.
  - subst db'. cbn [fst]. apply mapParentToStudent_inv in H.
    destruct H as (sid & pid & student & parentUser & -> & -> & Hne1 & Hne2
                   & Hs & Hp & Hrole & Hnone & -> & _).
    split.
    + assert (Hrows : forall s, In s (students db) ->
                        String.eqb (Student.id s) sid = true ->
                        truthy (Student.parentId s) = false).
      { intros s Hin Hid. apply String.eqb_eq in Hid. subst sid.
        rewrite (findStudent_unique db s Hnd Hin) in Hs. congruence. }
      cbn [updateStudent students]. clear Hnd.
      induction (students db) as [|x l IH]; simpl; constructor.
      * destruct (String.eqb (Student.id x) sid) eqn:E; cbn; [|auto].
        repeat (split; [reflexivity|]).
        rewrite (Hrows x (or_introl eq_refl) E). discriminate.
      * apply IH. intros s Hin. apply Hrows. now right.
    + unfold parentsAreParents. intros Hinv s p Hin Hparent Hp'.
      cbn [updateStudent students] in Hin. apply in_map_iff in Hin.
      destruct Hin as (x & <- & Hx).
      change (findUser (updateStudent db sid (withParent (Some pid))) p)
        with (findUser db p).
      destruct (String.eqb (Student.id x) sid).
      * cbn in Hparent. injection Hparent as <-. eauto.
      * eauto.
Qed.

Lemma registry_parentsAreParents : parentsAreParents registry.
Proof.
  unfold parentsAreParents. intros s p [<-|[]] Hp. discriminate Hp.
Qed.

Lemma mapped_students_stay_mapped_witness :
  let db' := fst (mapParentToStudent registry (Some "st1") (Some "p1")) in
  Forall2 (fun s' s =>
             Student.id s' = Student.id s
             /\ Student.name s' = Student.name s
             /\ Student.documents s' = Student.documents s
             /\ (truthy (Student.parentId s) = true -> s' = s))
    (students db') (students registry)
  /\ parentsAreParents db'.
Proof.
  intros db'.
  assert (Hnd : NoDup (map Student.id (students registry)))
    by (repeat constructor; intros []).
  destruct (mapped_students_stay_mapped registry (Some "st1") (Some "p1") Hnd)
    as [Hrows Hinv].
  split; [exact Hrows|]. apply Hinv. exact registry_parentsAreParents.
Defined.

(** ** Students: document metadata *)

Section DocumentProperties.

Variable toISOString : string -> option string.

Lemma formatDocuments_Some (docs docs' : list Document.t) :
  formatDocuments toISOString docs = Some docs' ->
  Forall2 (fun d' d => formatDocument toISOString d = Some d') docs' docs.
Proof.
  revert docs'. induction docs as [|d docs IH]; simpl; intros docs'.
  - intros [= <-]. constructor.
  - destruct (formatDocument toISOString d) as [d'|] eqn:Hd; [|discriminate].
    destruct (formatDocuments toISOString docs) as [rest|]; [|discriminate].
    intros [= <-]. constructor; auto.
Qed.

Lemma formatDocuments_None (docs : list Document.t) (d : Document.t) :
  In d docs -> formatDocument toISOString d = None ->
  formatDocuments toISOString docs = None.
Proof.
  induction docs as [|x docs IH]; simpl; [tauto|].
  intros [->|Hin] Hd; [now rewrite Hd|].
  destruct (formatDocument toISOString x); [|reflexivity].
  now rewrite IH.
Qed.

Lemma formatDocument_keeps (d d' : Document.t) :
  formatDocument toISOString d = Some d' ->
  Document.name d' = Document.name d /\ Document.url d' = Document.url d
  /\ Document.fileType d' = Document.fileType d
  /\ Document.size d' = Document.size d
  /\ exists t, Document.uploadedAt d = Some t
               /\ Document.uploadedAt d' = toISOString t.
Proof.
  unfold formatDocument. destruct (Document.uploadedAt d) as [t|]; [|discriminate].
  destruct (toISOString t) as [iso|] eqn:E; [|discriminate].
  intros [= <-]. cbn. repeat (split; [reflexivity|]).
  exists t. split; [reflexivity|]. now rewrite E.
Qed.

(** X20.  [uploadStudentDocuments] appends.  After a successful upload
    the student's [documents] are the documents it had (none for a null
    column) followed by the uploaded ones, in order and with nothing
    dropped or merged; no other student and no user changes.  The answer
    lists these documents one for one, each as stored but for
    [uploadedAt], which is rendered by [toISOString]; and
    [getStudentDocuments] then answers the same list. *)
Theorem upload_appends_documents (db db' : Registry) (studentId : string)
  (uploaded : list Document.t) (reply : DocumentsReply.t) :
  uploadStudentDocuments toISOString db studentId (Some uploaded)
  = (db', inr reply) ->
  exists student,
    findStudent db studentId = Some student
    /\ findStudent db' studentId
       = Some (withDocuments (Some (documentsOf student ++ uploaded)%list) student)
    /\ registeredUsers db' = registeredUsers db
    /\ Forall2 (fun s' s =>
                  s' = if String.eqb (Student.id s) studentId
                       then withDocuments
                              (Some (documentsOf student ++ uploaded)%list) s
                       else s)
         (students db') (students db)
    /\ Forall2 (fun answered stored =>
                  Document.name answered = Document.name stored
                  /\ Document.url answered = Document.url stored
                  /\ Document.fileType answered = Document.fileType stored
                  /\ Document.size answered = Document.size stored
                  /\ exists t, Document.uploadedAt stored = Some t
                               /\ Document.uploadedAt answered = toISOString t)
         (DocumentsReply.documents reply) (documentsOf student ++ uploaded)%list
    /\ exists reply',
        getStudentDocuments toISOString db' studentId = inr reply'
        /\ DocumentsReply.documents reply' = DocumentsReply.documents reply.
Proof.
  unfold uploadStudentDocuments.
  destruct (existsb incomplete uploaded); [discriminate|].
  destruct (findStudent db studentId) as [student|] eqn:Hs; [|discriminate].
  destruct (formatDocuments toISOString (documentsOf student ++ uploaded))
    as [responseDocs|] eqn:Hf; [|discriminate].
  intros [= <- <-]. exists student.
  assert (Hfound : findStudent
                     (updateStudent db studentId
                        (withDocuments (Some (documentsOf student ++ uploaded)%list)))
                     studentId
                   = Some (withDocuments
                             (Some (documentsOf student ++ uploaded)%list) student))
    by (now apply findStudent_updateStudent).
  split; [reflexivity|]. split; [exact Hfound|]. split; [reflexivity|].
  split; [apply updateStudent_rows|]. split.
  - cbn [DocumentsReply.documents]. apply formatDocuments_Some in Hf.
    eapply Forall2_impl; [|exact Hf]. intros a b. apply formatDocument_keeps.
  - unfold getStudentDocuments. rewrite Hfound.
    unfold documentsOf at 1. cbn [withDocuments Student.documents].
    rewrite Hf. eexists. split; reflexivity.
Qed.

(** X21.  A timestamp the runtime cannot read is stored all the same.
    When a student exists and every uploaded document has a name, a url
    and an [uploadedAt], but one [uploadedAt] is not a date, the upload is
    answered with a server error after the documents have been stored;
    from then on [getStudentDocuments] for this student, and every further
    complete upload for it, is answered with a server error too. *)
Theorem unreadable_timestamp_is_stored (db : Registry) (studentId : string)
  (student : Student.t) (uploaded : list Document.t) (doc : Document.t)
  (t : string) :
  findStudent db studentId = Some student ->
  existsb incomplete uploaded = false ->
  In doc uploaded ->
  Document.uploadedAt doc = Some t ->
  toISOString t = None ->
  let db' :=
    updateStudent db studentId
      (withDocuments (Some (documentsOf student ++ uploaded)%list)) in
  uploadStudentDocuments toISOString db studentId (Some uploaded)
  = (db', inl ServerError)
  /\ option_map documentsOf (findStudent db' studentId)
     = Some (documentsOf student ++ uploaded)%list
  /\ getStudentDocuments toISOString db' studentId = inl ServerError
  /\ forall more,
      existsb incomplete more = false ->
      snd (uploadStudentDocuments toISOString db' studentId (Some more))
      = inl ServerError.
Proof.
  intros Hs Hcomplete Hin Ht Hiso db'.
  assert (Hdoc : formatDocument toISOString doc = None).
  { unfold formatDocument. now rewrite Ht, Hiso. }
  assert (Hf : forall more,
             formatDocuments toISOString
               ((documentsOf student ++ uploaded) ++ more) = None).
  { intros more. apply (formatDocuments_None _ doc); [|assumption].
    apply in_or_app. left. apply in_or_app. now right. }
  assert (Hfound : findStudent db' studentId
                   = Some (withDocuments
                             (Some (documentsOf student ++ uploaded)%list) student))
    by (now apply findStudent_updateStudent).
  split; [|split; [|split]].
  - unfold uploadStudentDocuments. rewrite Hcomplete, Hs.
    specialize (Hf []). rewrite app_nil_r in Hf. now rewrite Hf.
  - now rewrite Hfound.
  - unfold getStudentDocuments. rewrite Hfound.
    unfold documentsOf at 1. cbn [withDocuments Student.documents].
    specialize (Hf []). rewrite app_nil_r in Hf. now rewrite Hf.
  - intros more Hmore. unfold uploadStudentDocuments.
    rewrite Hmore, Hfound. unfold documentsOf at 1 3.
    cbn [withDocuments Student.documents]. now rewrite Hf.
Qed.

End DocumentProperties.

Lemma upload_appends_documents_witness :
  exists student,
    findStudent registry "st1" = Some student
    /\ findStudent
         (mkRegistry [admin1; parent1]
            [withDocuments (Some [birthCertificate "2024-09-05"]) pupil]) "st1"
       = Some (withDocuments
                 (Some (documentsOf student ++ [birthCertificate "2024-09-05"])%list)
                 student)
    /\ [admin1; parent1] = registeredUsers registry
    /\ Forall2 (fun s' s =>
                  s' = if String.eqb (Student.id s) "st1"
                       then withDocuments
                              (Some (documentsOf student
                                     ++ [birthCertificate "2024-09-05"])%list) s
                       else s)
         [withDocuments (Some [birthCertificate "2024-09-05"]) pupil]
         (students registry)
    /\ Forall2 (fun answered stored =>
                  Document.name answered = Document.name stored
                  /\ Document.url answered = Document.url stored
                  /\ Document.fileType answered = Document.fileType stored
                  /\ Document.size answered = Document.size stored
                  /\ exists t, Document.uploadedAt stored = Some t
                               /\ Document.uploadedAt answered = scenarioISO t)
         [birthCertificate "2024-09-05T00:00:00.000Z"]
         (documentsOf student ++ [birthCertificate "2024-09-05"])%list
    /\ exists reply',
        getStudentDocuments scenarioISO
          (mkRegistry [admin1; parent1]
             [withDocuments (Some [birthCertificate "2024-09-05"]) pupil]) "st1"
        = inr reply'
        /\ DocumentsReply.documents reply'
           = [birthCertificate "2024-09-05T00:00:00.000Z"].
Proof.
  apply (upload_appends_documents scenarioISO registry
           (mkRegistry [admin1; parent1]
              [withDocuments (Some [birthCertificate "2024-09-05"]) pupil])
           "st1" [birthCertificate "2024-09-05"]
           (DocumentsReply.mk "st1" None
              [birthCertificate "2024-09-05T00:00:00.000Z"])).
  reflexivity.
Defined.

Lemma unreadable_timestamp_is_stored_witness :
  let db' :=
    updateStudent registry "st1"
      (withDocuments
         (Some (documentsOf pupil ++ [birthCertificate "yesterday"])%list)) in
  uploadStudentDocuments scenarioISO registry "st1"
    (Some [birthCertificate "yesterday"])
  = (db', inl ServerError)
  /\ option_map documentsOf (findStudent db' "st1")
     = Some (documentsOf pupil ++ [birthCertificate "yesterday"])%list
  /\ getStudentDocuments scenarioISO db' "st1" = inl ServerError
  /\ forall more,
      existsb incomplete more = false ->
      snd (uploadStudentDocuments scenarioISO db' "st1" (Some more))
      = inl ServerError.
Proof.
  apply (unreadable_timestamp_is_stored scenarioISO registry "st1" pupil
           [birthCertificate "yesterday"] (birthCertificate "yesterday")
           "yesterday").
  - reflexivity.
  - reflexivity.
  - left. reflexivity.
  - reflexivity.
  - reflexivity.
Defined.

(* ================================================================= *)
(** * The order of the conflict checks, the full replace of a date, and
      the day of the week of a dated slot *)

Lemma notSelf_intro (self : option string) (s : TimetableSlot) :
  (forall i, self = Some i -> i <> "" -> id s <> i) -> notSelf self s = true.
Proof.
  intros H. unfold notSelf. destruct self as [i|]; [|reflexivity].
  simpl. destruct (String.eqb i "") eqn:E; [reflexivity|]. simpl.
  apply negb_true_iff, String.eqb_neq. apply (H i eq_refl).
  now apply String.eqb_neq.
Qed.

Lemma notSelf_elim (self : option string) (s : TimetableSlot) :
  notSelf self s = true -> forall i, self = Some i -> i <> "" -> id s <> i.
Proof.
  intros H i -> Hne. unfold notSelf in H. simpl in H.
  apply String.eqb_neq in Hne. rewrite Hne in H. simpl in H.
  now apply negb_true_iff, String.eqb_neq in H.
Qed.

Lemma Validated_teacherId_truthy (db : DB) (p : TimetableSlotPayload.t)
  (v : Validated.t) :
  validateSlot db p = inr v ->
  Validated.teacherId v <> None -> truthy (Validated.teacherId v) = true.
Proof.
  intros Hv Hsome.
  destruct (validateSlot_checked _ _ _ Hv) as (_ & _ & _ & _ & _ & _ & Hte & _).
  rewrite Hte in *. rewrite truthy_emptyToNull.
  destruct (TimetableSlotPayload.teacherId p) as [x|]; simpl in *; [|congruence].
  destruct (String.eqb x ""); [congruence|reflexivity].
Qed.

Section ConflictOrder.

Variable utcDayOf : string -> option Date.

(** C3.  Of the two conflict checks of [createOrUpdateTimetableSlot] the
    teacher conflict, not the class/section conflict, is checked and
    answered first.  Here a teacher conflict of a valid candidate is a
    stored slot, other than the slot being updated, of the candidate's day
    of the week and date (the same date, or both weekly) whose [teacherId]
    is the candidate's [teacherId] and whose time overlaps the
    candidate's; a class/section conflict is such a slot with the
    candidate's class and section instead.  A candidate with a teacher
    conflict is answered 409 [Teacher conflict ...] with a slot of its
    teacher that overlaps it, whether or not it has a class/section
    conflict too; so a 409 [Class/Section conflict ...] is only answered
    to a candidate with no teacher conflict.  It is answered, with a slot
    of the class and section that overlaps the candidate, when the
    candidate has a class/section conflict and no stored slot of its day
    of the week with its [teacherId] overlaps it.  Nothing is stored in
    either case. *)
Theorem upsert_teacher_conflict_first (db : DB) (p : TimetableSlotPayload.t)
  (v : Validated.t) (d : option Date) :
  validateSlot db p = inr v ->
  slotDate utcDayOf (TimetableSlotPayload.date p) = inr d ->
  (forall t,
      In t (timetableSlots db) ->
      (forall i, Validated.id v = Some i -> i <> "" -> id t <> i) ->
      dayOfWeek t = Validated.dayOfWeek v ->
      date t = d ->
      Validated.teacherId v <> None ->
      teacherId t = Validated.teacherId v ->
      doTimeSlotsOverlap (startTime t) (endTime t)
        (Validated.startTime v) (Validated.endTime v) = true ->
      exists t',
        createOrUpdateTimetableSlot utcDayOf db p
        = (db, inl (ConflictError (teacherConflictMessage t') (Some t')))
        /\ String.prefix "Teacher conflict" (teacherConflictMessage t') = true
        /\ String.prefix "Class/Section conflict" (teacherConflictMessage t')
           = false
        /\ In t' (timetableSlots db)
        /\ teacherId t' = Validated.teacherId v
        /\ doTimeSlotsOverlap (startTime t') (endTime t')
             (Validated.startTime v) (Validated.endTime v) = true)
  /\ (forall db' message c,
         createOrUpdateTimetableSlot utcDayOf db p
         = (db', inl (ConflictError message c)) ->
         String.prefix "Class/Section conflict" message = true ->
         forall t,
           In t (timetableSlots db) ->
           (forall i, Validated.id v = Some i -> i <> "" -> id t <> i) ->
           dayOfWeek t = Validated.dayOfWeek v ->
           date t = d ->
           Validated.teacherId v <> None ->
           teacherId t = Validated.teacherId v ->
           doTimeSlotsOverlap (startTime t) (endTime t)
             (Validated.startTime v) (Validated.endTime v) = false)
  /\ ((forall t,
          In t (timetableSlots db) ->
          (forall i, Validated.id v = Some i -> i <> "" -> id t <> i) ->
          dayOfWeek t = Validated.dayOfWeek v ->
          Validated.teacherId v <> None ->
          teacherId t = Validated.teacherId v ->
          doTimeSlotsOverlap (startTime t) (endTime t)
            (Validated.startTime v) (Validated.endTime v) = false) ->
      forall c,
        In c (timetableSlots db) ->
        (forall i, Validated.id v = Some i -> i <> "" -> id c <> i) ->
        dayOfWeek c = Validated.dayOfWeek v ->
        date c = d ->
        currentClass c = Validated.currentClass v ->
        section c = Validated.section v ->
        doTimeSlotsOverlap (startTime c) (endTime c)
          (Validated.startTime v) (Validated.endTime v) = true ->
        exists c',
          createOrUpdateTimetableSlot utcDayOf db p
          = (db, inl (ConflictError (classConflictMessage v c') (Some c')))
          /\ String.prefix "Class/Section conflict" (classConflictMessage v c')
             = true
          /\ In c' (timetableSlots db)
          /\ currentClass c' = Validated.currentClass v
          /\ section c' = Validated.section v
          /\ doTimeSlotsOverlap (startTime c') (endTime c')
               (Validated.startTime v) (Validated.endTime v) = true).
Proof.
  intros Hv Hd.
  assert (Hteacher :
            forall t,
              In t (timetableSlots db) ->
              (forall i, Validated.id v = Some i -> i <> "" -> id t <> i) ->
              dayOfWeek t = Validated.dayOfWeek v ->
              Validated.teacherId v <> None ->
              teacherId t = Validated.teacherId v ->
              doTimeSlotsOverlap (startTime t) (endTime t)
                (Validated.startTime v) (Validated.endTime v) = true ->
              exists t',
                teacherConflict db v = Some t'
                /\ createOrUpdateTimetableSlot utcDayOf db p
                   = (db, inl (ConflictError (teacherConflictMessage t') (Some t')))).
  { intros t Hin Hself Hday Hsome Hteach Ho.
    destruct (firstOverlap_found (conflictingTeacherSlots db v)
                (Validated.startTime v) (Validated.endTime v) t) as [t' Ht'];
      [|assumption|].
    - unfold conflictingTeacherSlots. apply filter_In. split; [assumption|].
      rewrite !andb_true_iff, optEqb_string_eq, DayOfWeek_eqb_eq.
      repeat split; try assumption. now apply notSelf_intro.
    - exists t'.
      assert (Hfound : teacherConflict db v = Some t').
      { unfold teacherConflict.
        now rewrite (Validated_teacherId_truthy _ _ _ Hv Hsome). }
      split; [assumption|].
      apply (upsert_conflict utcDayOf _ _ v); [assumption|].
      unfold detectConflicts. now rewrite Hfound. }
  split; [|split].
  - intros t Hin Hself Hday _ Hsome Hteach Ho.
    destruct (Hteacher t Hin Hself Hday Hsome Hteach Ho) as (t' & Hfound & Hrun).
    exists t'. split; [assumption|]. split; [reflexivity|]. split; [reflexivity|].
    apply teacherConflict_Some in Hfound. tauto.
  - intros db' message c Hrun Hprefix t Hin Hself Hday _ Hsome Hteach.
    destruct (doTimeSlotsOverlap (startTime t) (endTime t)
                (Validated.startTime v) (Validated.endTime v)) eqn:Ho;
      [exfalso|reflexivity].
    destruct (Hteacher t Hin Hself Hday Hsome Hteach Ho) as (t' & _ & Hrun').
    rewrite Hrun' in Hrun. injection Hrun as _ <- _.
    discriminate Hprefix.
  - intros Hfree c Hin Hself Hday _ Hcls Hsec Ho.
    assert (Hnone : teacherConflict db v = None).
    { destruct (teacherConflict db v) as [t|] eqn:E; [exfalso|reflexivity].
      apply teacherConflict_Some in E.
      destruct E as (Htr & Htin & Hteach & Htday & Htself & Hto).
      rewrite (Hfree t Htin (notSelf_elim _ _ Htself) Htday) in Hto;
        [discriminate| |assumption].
      destruct (Validated.teacherId v); discriminate. }
    destruct (Validated_section_orNull _ _ _ Hv) as [Hsection _].
    destruct (firstOverlap_found (conflictingClassSlots db v)
                (Validated.startTime v) (Validated.endTime v) c) as [c' Hc'];
      [|assumption|].
    + unfold conflictingClassSlots. apply filter_In. split; [assumption|].
      rewrite !andb_true_iff, optEqb_string_eq, DayOfWeek_eqb_eq, String.eqb_eq.
      repeat split; try assumption; [congruence|now apply notSelf_intro].
    + exists c'. split.
      * apply (upsert_conflict utcDayOf _ _ v); [assumption|].
        unfold detectConflicts. rewrite Hnone. unfold classConflict.
        now rewrite Hc'.
      * split; [reflexivity|].
        assert (Hfound : classConflict db v = Some c') by exact Hc'.
        apply classConflict_Some in Hfound.
        destruct Hfound as (Hc1 & Hc2 & Hc3 & _ & _ & Hc6).
        repeat (split; [first [assumption | congruence]|]). assumption.
Qed.

End ConflictOrder.

Lemma upsert_teacher_conflict_first_witness :
  validateSlot (mkDB someUsers [mathsMonday] 1) physicsSameClassSameTeacher
  = inr (Validated.mk None MONDAY "09:30" "10:30" "Grade10" (Some "A") "Physics"
           (Some "t1") None)
  /\ currentClass mathsMonday = "Grade10" /\ section mathsMonday = Some "A"
  /\ teacherId mathsMonday = Some "t1"
  /\ doTimeSlotsOverlap (startTime mathsMonday) (endTime mathsMonday)
       "09:30" "10:30" = true
  /\ exists t',
      createOrUpdateTimetableSlot isoDate (mkDB someUsers [mathsMonday] 1)
        physicsSameClassSameTeacher
      = (mkDB someUsers [mathsMonday] 1,
         inl (ConflictError (teacherConflictMessage t') (Some t')))
      /\ String.prefix "Teacher conflict" (teacherConflictMessage t') = true
      /\ String.prefix "Class/Section conflict" (teacherConflictMessage t')
         = false
      /\ In t' [mathsMonday]
      /\ teacherId t' = Some "t1"
      /\ doTimeSlotsOverlap (startTime t') (endTime t') "09:30" "10:30" = true.
Proof.
  assert (Hv : validateSlot (mkDB someUsers [mathsMonday] 1)
                 physicsSameClassSameTeacher
               = inr (Validated.mk None MONDAY "09:30" "10:30" "Grade10"
                        (Some "A") "Physics" (Some "t1") None))
    by reflexivity.
  assert (Hd : slotDate isoDate (TimetableSlotPayload.date physicsSameClassSameTeacher)
               = inr None) by reflexivity.
  repeat (split; [reflexivity|]).
  apply (proj1 (upsert_teacher_conflict_first isoDate _ _ _ _ Hv Hd) mathsMonday).
  - left. reflexivity.
  - intros i Hi. discriminate Hi.
  - reflexivity.
  - reflexivity.
  - discriminate.
  - reflexivity.
  - reflexivity.
Defined.


Section FullReplace.

Variable utcDayOf : string -> option Date.



End FullReplace.



(** C7.  [createOrUpdateTimetableSlot] stores the [dayOfWeek] of the body
    next to the [date] of the body and does not derive the one from the
    other.  A slot for 2024-07-26, a Friday, sent with [dayOfWeek] MONDAY
    is stored as a MONDAY slot of that date; sent when the class already
    has a slot of that date at that time, it is stored beside it, the
    conflict checks looking at MONDAY slots only.  [setAlternateTimetable]
    stores the same slot for the same date as a FRIDAY slot. *)
Theorem upsert_dayOfWeek_not_derived_from_date :
  isoDate "2024-07-26" = Some 19930
  /\ getDayOfWeekFromDate 19930 = FRIDAY
  /\ createOrUpdateTimetableSlot isoDate (mkDB someUsers [] 1) mondayOnAFriday
     = (mkDB someUsers [specialEventOn MONDAY] 2, inr (specialEventOn MONDAY))
  /\ createOrUpdateTimetableSlot isoDate (mkDB someUsers [specialEvent] 1)
       mondayOnAFriday
     = (mkDB someUsers [specialEvent; specialEventOn MONDAY] 2,
        inr (specialEventOn MONDAY))
  /\ date specialEvent = date (specialEventOn MONDAY)
  /\ currentClass specialEvent = currentClass (specialEventOn MONDAY)
  /\ section specialEvent = section (specialEventOn MONDAY)
  /\ doTimeSlotsOverlap (startTime specialEvent) (endTime specialEvent)
       (startTime (specialEventOn MONDAY)) (endTime (specialEventOn MONDAY))
     = true
  /\ setAlternateTimetable isoDate (mkDB someUsers [] 1)
       (AlternateTimetablePayload.mk (Some "2024-07-26") (Some [mondayOnAFriday]))
     = (mkDB someUsers [specialEventOn FRIDAY] 2, inr [specialEventOn FRIDAY]).
Proof. repeat split; reflexivity. Qed.
